(** * Code execution tool: direct executor, Docker sandbox, resource limiter
      and the orchestrating [CodeExecutionTool].

    Shallow embedding of
      - [code_executor.py]            (class [CodeExecutor]),
      - [resource_limiter.py]         (class [ResourceLimiter]),
      - [sandbox.py]                  (class [SandboxExecutor]),
      - [day_36/code_execution_tool.py] (class [CodeExecutionTool]).

    The Python code talks to three collaborators that live outside the
    repository: the CPython parser ([ast.parse]), the process spawner
    ([subprocess.run]) and the Docker engine (the [docker] client).  They are
    gathered in a record [World] of oracles.  Every call to [subprocess] or to
    Docker is appended to a trace of events, and each oracle sees the trace of
    the calls made so far, so that the same call may be answered differently
    at different times.  Methods are written in a small state-and-exception
    monad; Python dictionaries with a fixed set of keys are records; Python
    floats are IEEE 754 binary64 numbers, computed with the [SpecFloat]
    functions of the Standard Library. *)

From Stdlib Require Import String Ascii List ZArith QArith Bool Lia.
From Stdlib Require Import DecimalString.
From Stdlib Require Import Floats.SpecFloat.
From Stdlib Require Import Strings.Byte.
Import ListNotations.

Set Warnings "-register-all".
Open Scope string_scope.

(** ** Python values and exceptions *)

(** An exception instance: the name of its class ([type(e).__name__]), the
    names of the classes it inherits from, and [str(e)].  Only instances of
    [Exception] are modelled (process-control signals such as
    [KeyboardInterrupt] are not), so that [except Exception] catches every
    exception of the model. *)
Record PyExc : Type := mkExc {
  exc_name : string;
  exc_bases : list string;
  exc_str : string
}.

(** [isinstance(e, cls)], as used by an [except cls] clause. *)
Definition isinstance (e : PyExc) (cls : string) : bool :=
  existsb (String.eqb cls) (exc_name e :: exc_bases e).
Arguments isinstance : simpl never.

(** Decimal rendering of an integer, as [f"{n}"] does. *)
Definition str_of_Z (n : Z) : string := NilZero.string_of_int (Z.to_int n).
Arguments str_of_Z : simpl never.

(** ** Python numbers *)

(** A Python [float] is an IEEE 754 binary64 number.  The operations are
    those of the specification of floating-point arithmetic in the Standard
    Library ([SpecFloat]), at the precision and the exponent range of
    binary64: every operation returns the double nearest to the exact
    result, ties to even. *)
Definition prec : Z := 53.
Definition emax : Z := 1024.
Definition float : Type := spec_float.

(** The double nearest to the quotient of two natural numbers, with the
    given sign: an infinity when the quotient is too large. *)
Definition nearest_quotient (negative : bool) (a b : Z) : float :=
  let '(q, e, l) := SFdiv_core_binary prec emax a 0 b 0 in
  binary_round_aux prec emax negative q e l.

(** The value of a decimal literal such as [0.5] or [100.0]:
    [digits / 10 ^ decimals]. *)
Definition float_literal (digits : Z) (decimals : Z) : float :=
  nearest_quotient false digits (10 ^ decimals).

(** [x * y] on floats *)
Definition float_mul (x y : float) : float := SFmul prec emax x y.

(** The rational number a finite float stands for. *)
Definition float_value (x : float) : option Q :=
  match x with
  | S754_zero _ => Some 0%Q
  | S754_finite s m e =>
      let v := match e with
               | Zneg p => Qmake (Zpos m) (2 ^ p)
               | _ => inject_Z (Zpos m * 2 ^ e)
               end in
      Some (if s then Qopp v else v)
  | _ => None
  end.

Definition ZeroDivisionError (msg : string) : PyExc :=
  mkExc "ZeroDivisionError" ["ArithmeticError"; "Exception"] msg.

Definition OverflowError (msg : string) : PyExc :=
  mkExc "OverflowError" ["ArithmeticError"; "Exception"] msg.

Definition ValueError (msg : string) : PyExc :=
  mkExc "ValueError" ["Exception"] msg.

(** [a / b] on integers: the double nearest to the quotient, whatever the
    size of [a] and [b]. *)
Definition int_truediv (a b : Z) : PyExc + float :=
  if (b =? 0)%Z then inl (ZeroDivisionError "division by zero")
  else
    match nearest_quotient (xorb (a <? 0)%Z (b <? 0)%Z) (Z.abs a) (Z.abs b)
    with
    | S754_infinity _ =>
        inl (OverflowError "integer division result too large for a float")
    | x => inr x
    end.

(** A number given for a limit: an [int] or a [float]. *)
Inductive number : Type :=
| NInt (n : Z)
| NFloat (x : float).

(** [a * k] for an integer literal [k] that a double holds exactly:
    integers multiply exactly, a float is multiplied by [float(k)]. *)
Definition mul_literal (a : number) (k : Z) : number :=
  match a with
  | NInt n => NInt (n * k)
  | NFloat x => NFloat (float_mul x (float_literal k 0))
  end.

(** [int(a)]: truncation towards zero. *)
Definition py_int (a : number) : PyExc + Z :=
  match a with
  | NInt n => inr n
  | NFloat (S754_zero _) => inr 0%Z
  | NFloat (S754_finite s m e) =>
      let n := Z.shiftl (Zpos m) e in
      inr (if s then (- n)%Z else n)
  | NFloat (S754_infinity _) =>
      inl (OverflowError "cannot convert float infinity to integer")
  | NFloat S754_nan => inl (ValueError "cannot convert float NaN to integer")
  end.

(** Nearest integer to [n / d], ties to the even one. *)
Definition round_half_even (n d : Z) : Z :=
  let q := (n / d)%Z in
  match (2 * (n mod d) ?= d)%Z with
  | Lt => q
  | Gt => (q + 1)%Z
  | Eq => if Z.even q then q else (q + 1)%Z
  end.

(** [round(x, 2)] on a float: the exact value of [x] is rounded to the
    nearest multiple of 1/100, ties to even, and the result is the double
    nearest to that decimal.  Infinities and NaN round to themselves. *)
Definition py_round2 (x : float) : float :=
  match x with
  | S754_finite s m e =>
      let n := (Zpos m * 100)%Z in
      let r := if (0 <=? e)%Z then Z.shiftl n e
               else round_half_even n (Z.shiftl 1 (- e)) in
      nearest_quotient s r 100
  | _ => x
  end.

(** [0.0] *)
Definition float_zero : float := S754_zero false.

Arguments nearest_quotient : simpl never.
Arguments float_literal : simpl never.
Arguments float_mul : simpl never.
Arguments int_truediv : simpl never.
Arguments mul_literal : simpl never.
Arguments py_int : simpl never.
Arguments py_round2 : simpl never.

(** The JSON document returned by [container.stats(stream=False)]: integers
    and nested dictionaries. *)
Inductive pyval : Type :=
| PInt (n : Z)
| PDict (items : list (string * pyval)).

Definition type_name (v : pyval) : string :=
  match v with PInt _ => "int" | PDict _ => "dict" end.

Fixpoint assoc (k : string) (items : list (string * pyval)) : option pyval :=
  match items with
  | [] => None
  | (k', v) :: rest => if String.eqb k k' then Some v else assoc k rest
  end.

(** ** Outcomes of the external calls *)

(** [ast.parse(code)]: success, a [SyntaxError] (or a subclass of it, with
    its [lineno] and [msg] attributes), or any other exception. *)
Inductive ParseOutcome : Type :=
| Parsed
| SyntaxErr (lineno : option Z) (msg : string)
| ParseRaised (e : PyExc).

(** [subprocess.run(..., capture_output=True, text=True, timeout=t)]: a
    [CompletedProcess] with its return code and captured text, or an
    exception ([subprocess.TimeoutExpired] when the deadline passed and the
    child was killed, [OSError] when it could not be spawned, ...). *)
Inductive RunOutcome : Type :=
| RunCompleted (returncode : Z) (stdout stderr : string)
| RunRaised (e : PyExc).

(** [container.exec_run(cmd, demux=True, timeout=t)]: an exit code and the
    two demultiplexed byte streams (each may be [None]), or an exception. *)
Inductive ExecOutcome : Type :=
| ExecReturned (exit_code : Z) (out err : option (list byte))
| ExecRaised (e : PyExc).

(** Keyword arguments of [client.containers.create]. *)
Record CreateArgs : Type := mkCreateArgs {
  ca_image : string;
  ca_command : string;
  ca_detach : bool;
  ca_mem_limit : string;
  ca_cpu_quota : Z;
  ca_cpu_period : Z;
  ca_network_mode : string
}.

(** Keyword arguments of [container.update]; [None] for an argument that is
    not passed. *)
Record UpdateArgs : Type := mkUpdateArgs {
  ua_mem_limit : option string;
  ua_cpu_quota : option Z;
  ua_cpu_period : option Z
}.

(** One call to the outside world together with its answer.  For calls that
    return nothing useful the answer is [None], or [Some e] when the call
    raised [e]. *)
Inductive Event : Type :=
| EvSubprocessRun (code : string) (timeout : Z) (r : RunOutcome)
| EvFromEnv (r : option PyExc)
| EvImagesGet (image : string) (r : option PyExc)
| EvImagesPull (image : string) (r : option PyExc)
| EvContainersCreate (args : CreateArgs) (r : option PyExc)
| EvStart (r : option PyExc)
| EvExecRun (cmd : string) (timeout : Z) (r : ExecOutcome)
| EvStats (r : PyExc + pyval)
| EvUpdate (args : UpdateArgs) (r : option PyExc)
| EvStop (timeout : Z) (r : option PyExc)
| EvRemove (r : option PyExc).

Definition Trace : Type := list Event.

(** The collaborators.  [ast_parse] and [bytes_decode] are pure; the others
    answer depending on the calls made before. *)
Record World : Type := mkWorld {
  ast_parse : string -> ParseOutcome;
  bytes_decode : list byte -> PyExc + string;
  subprocess_run : Trace -> string -> Z -> RunOutcome;
  docker_from_env : Trace -> option PyExc;
  images_get : Trace -> string -> option PyExc;
  images_pull : Trace -> string -> option PyExc;
  containers_create : Trace -> CreateArgs -> option PyExc;
  container_start : Trace -> option PyExc;
  container_exec_run : Trace -> string -> Z -> ExecOutcome;
  container_stats : Trace -> PyExc + pyval;
  container_update : Trace -> UpdateArgs -> option PyExc;
  container_stop : Trace -> Z -> option PyExc;
  container_remove : Trace -> option PyExc
}.

(** ** The state and exception monad *)

Inductive Outcome (A : Type) : Type :=
| Return (a : A)
| Raise (e : PyExc).
Arguments Return {A} a.
Arguments Raise {A} e.

Definition Py (S A : Type) : Type := S -> Outcome A * S.

Definition ret {S A} (a : A) : Py S A := fun s => (Return a, s).

Definition raise {S A} (e : PyExc) : Py S A := fun s => (Raise e, s).

Definition bind {S A B} (m : Py S A) (k : A -> Py S B) : Py S B :=
  fun s =>
    match m s with
    | (Return a, s') => k a s'
    | (Raise e, s') => (Raise e, s')
    end.

(** [try: body / except ...: handler]; the handler re-raises what its
    [except] clauses do not match. *)
Definition try_except {S A} (body : Py S A) (handler : PyExc -> Py S A)
  : Py S A :=
  fun s =>
    match body s with
    | (Return a, s') => (Return a, s')
    | (Raise e, s') => handler e s'
    end.

Definition gets {S A} (f : S -> A) : Py S A := fun s => (Return (f s), s).

Definition modify {S} (f : S -> S) : Py S unit := fun s => (Return tt, f s).

Declare Scope py_scope.
Delimit Scope py_scope with py.
Notation "x <- m ;; k" := (bind m (fun x => k))
  (at level 100, m at next level, right associativity) : py_scope.
Notation "m ;;; k" := (bind m (fun _ => k))
  (at level 100, right associativity) : py_scope.
Open Scope py_scope.

(** A value, or the exception raised in its place. *)
Definition of_sum {S A} (r : PyExc + A) : Py S A :=
  match r with inr a => ret a | inl e => raise e end.

(** ** Result dictionaries *)

(** [{"valid": ..., "error": ...}] *)
Record Validation : Type := mkValidation {
  valid : bool;
  validation_error : option string
}.

(** The dictionary returned by every [execute] method.  [sandboxed] and
    [resource_usage] are [None] when the key is absent; [resource_usage]
    holds [cpu_percent] and [memory_mb]. *)
Record ExecutionResult : Type := mkResult {
  success : bool;
  output : option string;
  error : option string;
  error_type : option string;
  sandboxed : option bool;
  resource_usage : option (float * float)
}.

Definition set_sandboxed (b : bool) (r : ExecutionResult) : ExecutionResult :=
  mkResult (success r) (output r) (error r) (error_type r) (Some b)
           (resource_usage r).

Definition set_resource_usage (u : float * float) (r : ExecutionResult)
  : ExecutionResult :=
  mkResult (success r) (output r) (error r) (error_type r) (sandboxed r)
           (Some u).

(** [{"success": ..., "error": ...}], returned by the limiter setters, by
    [create_container] and by [cleanup]. *)
Record Status : Type := mkStatus {
  st_success : bool;
  st_error : option string
}.

(** The dictionary returned by [monitor_resources] and
    [get_resource_usage]; the three measures are absent on failure. *)
Record Usage : Type := mkUsage {
  u_success : bool;
  cpu_percent : option float;
  memory_mb : option float;
  memory_percent : option float;
  u_error : option string
}.

(** ** [code_executor.py] *)

Module CodeExecutor.

Record t : Type := mk { default_timeout : Z }.

Section WithWorld.
Variable w : World.

(** [validate_syntax]: only [SyntaxError] is caught. *)
Definition validate_syntax (code : string) : Py Trace Validation :=
  match ast_parse w code with
  | Parsed => ret (mkValidation true None)
  | SyntaxErr lineno msg =>
      ret (mkValidation false
             (Some ("Syntax error at line "
                    ++ match lineno with
                       | Some n => str_of_Z n
                       | None => "None"
                       end
                    ++ ": " ++ msg)))
  | ParseRaised e => raise e
  end.

(** The call [subprocess.run([sys.executable, "-c", code], ...)]: it
    returns the completed process (return code, stdout, stderr) or raises. *)
Definition run_subprocess (code : string) (timeout : Z)
  : Py Trace (Z * string * string) :=
  fun tr =>
    let r := subprocess_run w tr code timeout in
    (match r with
     | RunCompleted returncode stdout stderr =>
         Return (returncode, stdout, stderr)
     | RunRaised e => Raise e
     end,
     (tr ++ [EvSubprocessRun code timeout r])%list).

Definition execute (self : t) (code : string) (timeout : option Z)
  : Py Trace ExecutionResult :=
  let timeout := match timeout with
                 | None => default_timeout self
                 | Some t => t
                 end in
  validation <- validate_syntax code ;;
  if negb (valid validation) then
    ret (mkResult false None (validation_error validation)
           (Some "SyntaxError") None None)
  else
    try_except
      (result <- run_subprocess code timeout ;;
       let '(returncode, stdout, stderr) := result in
       if (returncode =? 0)%Z then
         ret (mkResult true (Some stdout) None None None None)
       else
         ret (mkResult false (Some stdout) (Some stderr)
                (Some "RuntimeError") None None))
      (fun e =>
         if isinstance e "TimeoutExpired" then
           ret (mkResult false None
                  (Some ("Execution timed out after " ++ str_of_Z timeout
                         ++ " seconds"))
                  (Some "TimeoutError") None None)
         else
           ret (mkResult false None (Some (exc_str e)) (Some (exc_name e))
                  None None)).

End WithWorld.
End CodeExecutor.

(** ** [resource_limiter.py] *)

(** A handle on a Docker container.  A [SandboxExecutor] holds at most one;
    the engine behind it is reached through the [World]. *)
Inductive Container : Type := ContainerObj.

Module ResourceLimiter.

(** The Python operations [monitor_resources] applies to the stats. *)

Definition KeyError (k : string) : PyExc :=
  mkExc "KeyError" ["LookupError"; "Exception"] ("'" ++ k ++ "'").

Definition TypeError (msg : string) : PyExc :=
  mkExc "TypeError" ["Exception"] msg.

Definition AttributeError (msg : string) : PyExc :=
  mkExc "AttributeError" ["Exception"] msg.

(** [v[k]] *)
Definition getitem {S} (v : pyval) (k : string) : Py S pyval :=
  match v with
  | PDict items =>
      match assoc k items with
      | Some x => ret x
      | None => raise (KeyError k)
      end
  | PInt _ => raise (TypeError "'int' object is not subscriptable")
  end.

(** [v.get(k, 0)] *)
Definition dict_get {S} (v : pyval) (k : string) (default : pyval)
  : Py S pyval :=
  match v with
  | PDict items =>
      match assoc k items with
      | Some x => ret x
      | None => ret default
      end
  | PInt _ => raise (AttributeError "'int' object has no attribute 'get'")
  end.

Definition unsupported (op : string) (a b : pyval) : PyExc :=
  TypeError ("unsupported operand type(s) for " ++ op ++ ": '"
             ++ type_name a ++ "' and '" ++ type_name b ++ "'").

(** [a - b] *)
Definition py_sub {S} (a b : pyval) : Py S Z :=
  match a, b with
  | PInt x, PInt y => ret (x - y)%Z
  | _, _ => raise (unsupported "-" a b)
  end.

(** [a / b], true division *)
Definition py_truediv {S} (a b : pyval) : Py S float :=
  match a, b with
  | PInt x, PInt y => of_sum (int_truediv x y)
  | _, _ => raise (unsupported "/" a b)
  end.

(** [a > 0] *)
Definition py_gt0 {S} (a : pyval) : Py S bool :=
  match a with
  | PInt x => ret (0 <? x)%Z
  | PDict _ =>
      raise (TypeError
               "'>' not supported between instances of 'dict' and 'int'")
  end.

Section WithWorld.
Variable w : World.

(** [container.update(...)] with the given keyword arguments *)
Definition container_update_call (args : UpdateArgs) : Py Trace unit :=
  fun tr =>
    let r := container_update w tr args in
    (match r with None => Return tt | Some e => Raise e end,
     (tr ++ [EvUpdate args r])%list).

(** [container.stats(stream=False)] *)
Definition container_stats_call : Py Trace pyval :=
  fun tr =>
    let r := container_stats w tr in
    (match r with inr v => Return v | inl e => Raise e end,
     (tr ++ [EvStats r])%list).

Definition set_cpu_limit (container : Container) (cpu_quota : number)
  : Py Trace Status :=
  try_except
    (quota <- of_sum (py_int (mul_literal cpu_quota 100000)) ;;
     container_update_call
       (mkUpdateArgs None (Some quota) (Some 100000%Z)) ;;;
     ret (mkStatus true None))
    (fun e => ret (mkStatus false (Some (exc_str e)))).

Definition set_memory_limit (container : Container) (limit_mb : Z)
  : Py Trace Status :=
  try_except
    (container_update_call
       (mkUpdateArgs (Some (str_of_Z limit_mb ++ "m")) None None) ;;;
     ret (mkStatus true None))
    (fun e => ret (mkStatus false (Some (exc_str e)))).

(** The body of the [try] of [monitor_resources], after the stats have
    been fetched.  The CPU ratio is multiplied by the literal [100.0],
    [float_literal 1000 1]; the memory ratio by the integer [100], which is
    converted to the float [float_literal 100 0]. *)
Definition compute_usage {S} (stats : pyval) : Py S Usage :=
  cpu_stats <- getitem stats "cpu_stats" ;;
  cpu_usage <- getitem cpu_stats "cpu_usage" ;;
  total <- getitem cpu_usage "total_usage" ;;
  precpu_stats <- getitem stats "precpu_stats" ;;
  precpu_usage <- getitem precpu_stats "cpu_usage" ;;
  pretotal <- getitem precpu_usage "total_usage" ;;
  cpu_delta <- py_sub total pretotal ;;
  cpu_stats' <- getitem stats "cpu_stats" ;;
  system <- getitem cpu_stats' "system_cpu_usage" ;;
  precpu_stats' <- getitem stats "precpu_stats" ;;
  presystem <- getitem precpu_stats' "system_cpu_usage" ;;
  system_delta <- py_sub system presystem ;;
  cpu_pct <- (if (0 <? system_delta)%Z
              then q <- of_sum (int_truediv cpu_delta system_delta) ;;
                   ret (float_mul q (float_literal 1000 1))
              else ret float_zero) ;;
  memory_stats <- getitem stats "memory_stats" ;;
  memory_usage <- dict_get memory_stats "usage" (PInt 0) ;;
  memory_stats' <- getitem stats "memory_stats" ;;
  memory_limit <- dict_get memory_stats' "limit" (PInt 0) ;;
  mem_mb <- py_truediv memory_usage (PInt (1024 * 1024)) ;;
  positive <- py_gt0 memory_limit ;;
  mem_pct <- (if positive : bool
              then q <- py_truediv memory_usage memory_limit ;;
                   ret (float_mul q (float_literal 100 0))
              else ret float_zero) ;;
  ret (mkUsage true (Some (py_round2 cpu_pct)) (Some (py_round2 mem_mb))
         (Some (py_round2 mem_pct)) None).

Definition monitor_resources (container : Container) : Py Trace Usage :=
  try_except
    (stats <- container_stats_call ;;
     compute_usage stats)
    (fun e => ret (mkUsage false None None None (Some (exc_str e)))).

End WithWorld.
(** What the process keeps for [SIGALRM].  A handler is modelled by what
    running it does: it returns, or it raises an exception in the main
    thread.  The default action, which ends the process, is not modelled.
    [alarm] is the number of seconds to the next [SIGALRM], [0] when none is
    scheduled. *)
Record Signals : Type := mkSignals {
  sigalrm_handler : Outcome unit;
  alarm : Z
}.

(** [signal.signal(signal.SIGALRM, handler)], called in the main thread *)
Definition signal_signal (handler : Outcome unit) : Py Signals unit :=
  modify (fun s => mkSignals handler (alarm s)).

(** [signal.alarm(seconds)]: the alarm that was scheduled is replaced; [0]
    schedules none. *)
Definition signal_alarm (seconds : Z) : Py Signals unit :=
  modify (fun s => mkSignals (sigalrm_handler s) seconds).

(** [SIGALRM] reaches the process: the alarm is spent and the handler
    runs. *)
Definition sigalrm : Py Signals unit :=
  fun s => (sigalrm_handler s, mkSignals (sigalrm_handler s) 0).

(** Time is not modelled: whether a pending alarm goes off between two
    statements of [enforce_time_limit] is left to the environment, which
    says so for the two places where it matters, after the alarm is set and
    before it is cancelled.  What happens while the function runs is part of
    the function. *)
Record Deliveries : Type := mkDeliveries {
  before_try : bool;
  before_cancel : bool
}.

Definition may_deliver (now : bool) : Py Signals unit :=
  fun s => if now && negb (alarm s =? 0)%Z then sigalrm s else (Return tt, s).

(** The function handed to [enforce_time_limit] runs on the signals and on
    a state [S] of its own. *)
Definition on_signals {S A} (m : Py Signals A) : Py (Signals * S) A :=
  fun s => let '(o, sg) := m (fst s) in (o, (sg, snd s)).

(** The built-in [TimeoutError]. *)
Definition TimeoutError (msg : string) : PyExc :=
  mkExc "TimeoutError" ["OSError"; "Exception"] msg.

(** [{"success": False, "error": ..., "error_type": ...}] *)
Record TimeLimitFailure : Type := mkTimeLimitFailure {
  tlf_success : bool;
  tlf_error : string;
  tlf_error_type : string
}.

(** [timeout_handler], as a handler: it raises. *)
Definition timeout_handler (timeout : Z) : Outcome unit :=
  Raise (TimeoutError ("Execution exceeded " ++ str_of_Z timeout
                       ++ " seconds")).

(** [enforce_time_limit(func, timeout, *args)], with the arguments already
    given to [func]: the result of [func], or the dictionary of the
    [except] clause. *)
Definition enforce_time_limit {S A} (d : Deliveries)
  (func : Py (Signals * S) A) (timeout : Z)
  : Py (Signals * S) (A + TimeLimitFailure) :=
  on_signals (signal_signal (timeout_handler timeout)) ;;;
  on_signals (signal_alarm timeout) ;;;
  on_signals (may_deliver (before_try d)) ;;;
  try_except
    (result <- func ;;
     on_signals (may_deliver (before_cancel d)) ;;;
     on_signals (signal_alarm 0) ;;;
     ret (inl result))
    (fun e =>
       if isinstance e "TimeoutError"
       then ret (inr (mkTimeLimitFailure false (exc_str e) "TimeoutError"))
       else raise e).

End ResourceLimiter.

(** ** [sandbox.py] *)

(** [{"success": True, "results": {...}}] or
    [{"success": False, "error": ...}], returned by
    [SandboxExecutor.update_limits]; [results] may hold the keys ['memory']
    and ['cpu']. *)
Record LimitsUpdate : Type := mkLimitsUpdate {
  lu_success : bool;
  lu_error : option string;
  lu_results : option (option Status * option Status)
}.

Module SandboxExecutor.

(** The fields of the object; [client] is the [World] and [limiter] has no
    state. *)
Record t : Type := mk {
  image : string;
  timeout : Z;
  memory_limit_mb : Z;
  cpu_limit : number;
  container : option Container
}.

Definition set_container (c : option Container) (self : t) : t :=
  mk (image self) (timeout self) (memory_limit_mb self) (cpu_limit self) c.

(** Methods run on the object and on the trace of external calls. *)
Definition State : Type := (t * Trace)%type.

Definition self_ : Py State t := gets fst.

(** A computation on the trace alone, run inside a method. *)
Definition on_trace {A} (m : Py Trace A) : Py State A :=
  fun s => let '(o, tr) := m (snd s) in (o, (fst s, tr)).

(** An external call that returns nothing. *)
Definition call (oracle : Trace -> option PyExc)
  (ev : option PyExc -> Event) : Py State unit :=
  on_trace (fun tr =>
    let r := oracle tr in
    (match r with None => Return tt | Some e => Raise e end,
     (tr ++ [ev r])%list)).

Definition default_image : string := "python:3.11-slim".

(** [f"python -c '{code}'"] *)
Definition python_c (code : string) : string := "python -c '" ++ code ++ "'".
Arguments python_c : simpl never.

Section WithWorld.
Variable w : World.

(** [__init__]: [docker.from_env()] may raise. *)
Definition init (image : string) (timeout memory_limit_mb : Z)
  (cpu_limit : number) : Py Trace t :=
  fun tr =>
    let r := docker_from_env w tr in
    (match r with
     | None => Return (mk image timeout memory_limit_mb cpu_limit None)
     | Some e => Raise e
     end,
     (tr ++ [EvFromEnv r])%list).

Definition create_container : Py State Status :=
  try_except
    (self <- self_ ;;
     try_except
       (call (fun tr => images_get w tr (image self))
             (EvImagesGet (image self)))
       (fun e =>
          if isinstance e "ImageNotFound"
          then call (fun tr => images_pull w tr (image self))
                    (EvImagesPull (image self))
          else raise e) ;;;
     cpu_quota <- of_sum (py_int (mul_literal (cpu_limit self) 100000)) ;;
     let args :=
       mkCreateArgs (image self) "sleep infinity" true
         (str_of_Z (memory_limit_mb self) ++ "m")
         cpu_quota 100000 "none" in
     call (fun tr => containers_create w tr args) (EvContainersCreate args) ;;;
     modify (fun s => (set_container (Some ContainerObj) (fst s), snd s)) ;;;
     call (container_start w) EvStart ;;;
     ret (mkStatus true None))
    (fun e =>
       if isinstance e "DockerException"
       then ret (mkStatus false (Some (exc_str e)))
       else raise e).

(** [self.container.exec_run(f"python -c '{code}'", demux=True, timeout=...)] *)
Definition exec_run (code : string) : Py State (Z * (option (list byte) * option (list byte))) :=
  self <- self_ ;;
  match container self with
  | None =>
      raise (ResourceLimiter.AttributeError
               "'NoneType' object has no attribute 'exec_run'")
  | Some _ =>
      on_trace (fun tr =>
        let cmd := python_c code in
        let r := container_exec_run w tr cmd (timeout self) in
        (match r with
         | ExecReturned exit_code out err => Return (exit_code, (out, err))
         | ExecRaised e => Raise e
         end,
         (tr ++ [EvExecRun cmd (timeout self) r])%list))
  end.

(** [x.decode() if x else ""]: the text, or the exception [decode]
    raises. *)
Definition decode_or_empty (x : option (list byte)) : PyExc + string :=
  match x with
  | Some (b :: bs) => bytes_decode w (b :: bs)
  | _ => inr ""
  end.

(** The [try] statement of [execute_in_container]. *)
Definition run_in_container (code : string) : Py State ExecutionResult :=
  try_except
    (r <- exec_run code ;;
     let '(exit_code, output) := r in
     stdout <- of_sum (decode_or_empty (fst output)) ;;
     stderr <- of_sum (decode_or_empty (snd output)) ;;
     if (exit_code =? 0)%Z then
       ret (mkResult true (Some stdout) None None None None)
     else
       ret (mkResult false (Some stdout) (Some stderr) (Some "RuntimeError")
              None None))
    (fun e =>
       ret (mkResult false None (Some (exc_str e)) (Some (exc_name e))
              None None)).

Definition execute_in_container (code : string) : Py State ExecutionResult :=
  self <- self_ ;;
  match container self with
  | None =>
      create_result <- create_container ;;
      if negb (st_success create_result) then
        ret (mkResult false None
               (Some ("Container creation failed: "
                      ++ match st_error create_result with
                         | Some s => s
                         | None => "None"
                         end))
               (Some "ContainerError") None None)
      else run_in_container code
  | Some _ => run_in_container code
  end.

Definition get_resource_usage : Py State Usage :=
  self <- self_ ;;
  match container self with
  | None => ret (mkUsage false None None None (Some "No container running"))
  | Some c => on_trace (ResourceLimiter.monitor_resources w c)
  end.

Definition update_limits (memory_mb : option Z) (cpu_limit : option number)
  : Py State LimitsUpdate :=
  self <- self_ ;;
  match container self with
  | None => ret (mkLimitsUpdate false (Some "No container running") None)
  | Some c =>
      memory <- match memory_mb with
                | Some m =>
                    r <- on_trace (ResourceLimiter.set_memory_limit w c m) ;;
                    ret (Some r)
                | None => ret None
                end ;;
      cpu <- match cpu_limit with
             | Some q =>
                 r <- on_trace (ResourceLimiter.set_cpu_limit w c q) ;;
                 ret (Some r)
             | None => ret None
             end ;;
      ret (mkLimitsUpdate true None (Some (memory, cpu)))
  end.

Definition cleanup : Py State Status :=
  try_except
    (self <- self_ ;;
     match container self with
     | Some _ =>
         call (fun tr => container_stop w tr 1) (EvStop 1) ;;;
         call (container_remove w) EvRemove ;;;
         modify (fun s => (set_container None (fst s), snd s))
     | None => ret tt
     end ;;;
     ret (mkStatus true None))
    (fun e =>
       if isinstance e "DockerException"
       then ret (mkStatus false (Some (exc_str e)))
       else raise e).

(** [__enter__] *)
Definition enter : Py State unit :=
  create_container ;;; ret tt.

(** [__exit__]: returns [None], so an exception of the body goes on. *)
Definition exit : Py State unit :=
  cleanup ;;; ret tt.

(** [with ctor as sandbox: body].  When the constructor or [__enter__]
    raises, the body and [__exit__] do not run; otherwise [__exit__] runs
    whatever the body did, and an exception raised by [__exit__] replaces
    the outcome of the body. *)
Definition with_sandbox {A} (ctor : Py Trace t) (body : Py State A)
  : Py Trace A :=
  fun tr =>
    match ctor tr with
    | (Raise e, tr1) => (Raise e, tr1)
    | (Return sandbox, tr1) =>
        match enter (sandbox, tr1) with
        | (Raise e, s2) => (Raise e, snd s2)
        | (Return _, s2) =>
            let '(o, s3) := body s2 in
            match exit s3 with
            | (Raise e, s4) => (Raise e, snd s4)
            | (Return _, s4) => (o, snd s4)
            end
        end
    end.

End WithWorld.
End SandboxExecutor.

(** ** [day_36/code_execution_tool.py] *)

(** [{"success": True, "memory_mb": ..., "cpu_limit": ...}] *)
Record ToolLimits : Type := mkToolLimits {
  tl_success : bool;
  tl_memory_mb : Z;
  tl_cpu_limit : number
}.

(** The dictionary returned by [execute_with_monitoring]:
    [{"error": ...}], or [{"execution": ..., "resources": ...}] where
    [resources] is a usage sample or [None]. *)
Inductive Monitored : Type :=
| MonitoringError (error : string)
| MonitoredRun (execution : ExecutionResult) (resources : option Usage).

Module CodeExecutionTool.

Record t : Type := mk {
  use_sandbox : bool;
  memory_limit_mb : Z;
  cpu_limit : number;
  timeout : Z;
  code_executor : CodeExecutor.t
}.

(** [__init__] *)
Definition init (use_sandbox : bool) (memory_limit_mb : Z)
  (cpu_limit : number) (timeout : Z) : t :=
  mk use_sandbox memory_limit_mb cpu_limit timeout (CodeExecutor.mk timeout).

(** [timeout or self.timeout]: [None] and [0] are falsy. *)
Definition timeout_or (timeout : option Z) (default : Z) : Z :=
  match timeout with
  | Some t => if (t =? 0)%Z then default else t
  | None => default
  end.

(** The truth value of the [sandbox] argument. *)
Definition truthy (sandbox : option bool) : bool :=
  match sandbox with Some b => b | None => false end.

Section WithWorld.
Variable w : World.

(** The body of the [with] statement of [_execute_sandboxed]. *)
Definition sandboxed_body (code : string)
  : Py SandboxExecutor.State ExecutionResult :=
  result <- SandboxExecutor.execute_in_container w code ;;
  let result := set_sandboxed true result in
  usage <- SandboxExecutor.get_resource_usage w ;;
  if u_success usage then
    match cpu_percent usage, memory_mb usage with
    | Some c, Some m => ret (set_resource_usage (c, m) result)
    | None, _ => raise (ResourceLimiter.KeyError "cpu_percent")
    | _, None => raise (ResourceLimiter.KeyError "memory_mb")
    end
  else ret result.

Definition _execute_sandboxed (self : t) (code : string) (timeout : Z)
  : Py Trace ExecutionResult :=
  try_except
    (SandboxExecutor.with_sandbox w
       (SandboxExecutor.init w SandboxExecutor.default_image timeout
          (memory_limit_mb self) (cpu_limit self))
       (sandboxed_body code))
    (fun e =>
       ret (mkResult false None (Some (exc_str e)) (Some (exc_name e))
              (Some true) None)).

Definition execute (self : t) (code : string) (sandbox : option bool)
  (timeout : option Z) : Py Trace ExecutionResult :=
  let timeout := timeout_or timeout (CodeExecutionTool.timeout self) in
  validation <- CodeExecutor.validate_syntax w code ;;
  if negb (valid validation) then
    ret (mkResult false None (validation_error validation)
           (Some "SyntaxError") (Some false) None)
  else if use_sandbox self || truthy sandbox then
    _execute_sandboxed self code timeout
  else
    result <- CodeExecutor.execute w (code_executor self) code (Some timeout) ;;
    ret (set_sandboxed false result).

(** The body of the [with] statement of [execute_with_monitoring]. *)
Definition monitoring_body (code : string)
  : Py SandboxExecutor.State Monitored :=
  result <- SandboxExecutor.execute_in_container w code ;;
  usage <- SandboxExecutor.get_resource_usage w ;;
  ret (MonitoredRun result (if u_success usage then Some usage else None)).

Definition execute_with_monitoring (self : t) (code : string)
  : Py Trace Monitored :=
  if negb (use_sandbox self) then
    ret (MonitoringError "Monitoring requires sandbox mode")
  else
    try_except
      (SandboxExecutor.with_sandbox w
         (SandboxExecutor.init w SandboxExecutor.default_image
            (CodeExecutionTool.timeout self) (memory_limit_mb self)
            (cpu_limit self))
         (monitoring_body code))
      (fun e => ret (MonitoringError (exc_str e))).

End WithWorld.

(** [update_limits]: the object after the call and the returned
    dictionary. *)
Definition update_limits (self : t) (memory_mb : option Z)
  (cpu_limit : option number) : t * ToolLimits :=
  let self1 :=
    match memory_mb with
    | Some m => mk (use_sandbox self) m (CodeExecutionTool.cpu_limit self)
                  (timeout self) (code_executor self)
    | None => self
    end in
  let self2 :=
    match cpu_limit with
    | Some q => mk (use_sandbox self1) (memory_limit_mb self1) q
                  (timeout self1) (code_executor self1)
    | None => self1
    end in
  (self2, mkToolLimits true (memory_limit_mb self2)
            (CodeExecutionTool.cpu_limit self2)).

End CodeExecutionTool.

(** ** Error kinds and the life cycle of an environment *)

(** The error kinds of the design.  The code tags a failed result with a
    string: the three tags it writes literally for a rejected source, a
    non-zero exit and a passed deadline, and otherwise ["ContainerError"] or
    the class name of the exception it caught; these last are the failures
    of the infrastructure. *)
Inductive ErrorKind : Type :=
| Syntax
| Runtime
| Timeout
| Internal.

Definition kind_of_tag (tag : string) : ErrorKind :=
  if tag =? "SyntaxError" then Syntax
  else if tag =? "RuntimeError" then Runtime
  else if tag =? "TimeoutError" then Timeout
  else Internal.

Definition error_kind (r : ExecutionResult) : option ErrorKind :=
  option_map kind_of_tag (error_type r).

(** The invariant of a result: a failure carries a message and a kind, a
    success carries neither. *)
Definition well_formed (r : ExecutionResult) : Prop :=
  (success r = false -> error r <> None /\ error_kind r <> None) /\
  (success r = true -> error r = None /\ error_kind r = None).

(** The states of an isolated environment. *)
Inductive EnvState : Type :=
| Uninitialized
| Provisioning
| Ready
| Executing
| Terminating
| Destroyed
| ProvisionFailed
| TeardownFailed.

(** The state an environment is in after a call to the Docker engine.  A
    command that was submitted and whose call raised (a deadline, a lost
    connection) may still be running: the environment stays [Executing]
    until it is stopped. *)
Definition lifecycle_step (s : EnvState) (ev : Event) : EnvState :=
  match ev with
  | EvFromEnv _ => Uninitialized
  | EvImagesGet _ None => Provisioning
  | EvImagesGet _ (Some e) =>
      if isinstance e "ImageNotFound" then Provisioning else ProvisionFailed
  | EvImagesPull _ None => Provisioning
  | EvImagesPull _ (Some _) => ProvisionFailed
  | EvContainersCreate _ None => Provisioning
  | EvContainersCreate _ (Some _) => ProvisionFailed
  | EvStart None => Ready
  | EvStart (Some _) => ProvisionFailed
  | EvExecRun _ _ (ExecReturned _ _ _) => Ready
  | EvExecRun _ _ (ExecRaised _) => Executing
  | EvStop _ None => Terminating
  | EvStop _ (Some _) => TeardownFailed
  | EvRemove None => Destroyed
  | EvRemove (Some _) => TeardownFailed
  | EvStats _ => s
  | EvUpdate _ _ => s
  | EvSubprocessRun _ _ _ => s
  end.

Definition lifecycle (events : list Event) : EnvState :=
  fold_left lifecycle_step events Uninitialized.

(** [cleanup] was the last thing done to the environment: the calls end
    with a [stop] that raised, or with a [stop] followed by a [remove]. *)
Definition ends_with_cleanup (events : list Event) : Prop :=
  (exists pre e, events = (pre ++ [EvStop 1 (Some e)])%list) \/
  (exists pre r, events = (pre ++ [EvStop 1 None; EvRemove r])%list).

Definition is_exec_run (ev : Event) : bool :=
  match ev with EvExecRun _ _ _ => true | _ => false end.

Definition is_started (ev : Event) : bool :=
  match ev with EvStart None => true | _ => false end.

Definition is_teardown (ev : Event) : bool :=
  match ev with EvStop _ _ | EvRemove _ => true | _ => false end.

Definition is_update (ev : Event) : bool :=
  match ev with EvUpdate _ _ => true | _ => false end.

Definition is_create (ev : Event) : bool :=
  match ev with EvContainersCreate _ _ => true | _ => false end.

(** ** Concrete worlds *)

(** A world in which every source parses, every process prints nothing and
    exits with status 0, and the Docker engine accepts every call. *)
Definition calm_world : World :=
  mkWorld (fun _ => Parsed)
          (fun _ => inr "")
          (fun _ _ _ => RunCompleted 0 "" "")
          (fun _ => None)
          (fun _ _ => None)
          (fun _ _ => None)
          (fun _ _ => None)
          (fun _ => None)
          (fun _ _ _ => ExecReturned 0 None None)
          (fun _ => inr (PDict []))
          (fun _ _ => None)
          (fun _ _ => None)
          (fun _ => None).

Definition with_ast_parse (f : string -> ParseOutcome) (w : World) : World :=
  mkWorld f (bytes_decode w) (subprocess_run w) (docker_from_env w)
          (images_get w) (images_pull w) (containers_create w)
          (container_start w) (container_exec_run w) (container_stats w)
          (container_update w) (container_stop w) (container_remove w).

Definition with_bytes_decode (f : list byte -> PyExc + string) (w : World)
  : World :=
  mkWorld (ast_parse w) f (subprocess_run w) (docker_from_env w)
          (images_get w) (images_pull w) (containers_create w)
          (container_start w) (container_exec_run w) (container_stats w)
          (container_update w) (container_stop w) (container_remove w).

Definition with_subprocess_run (f : Trace -> string -> Z -> RunOutcome)
  (w : World) : World :=
  mkWorld (ast_parse w) (bytes_decode w) f (docker_from_env w)
          (images_get w) (images_pull w) (containers_create w)
          (container_start w) (container_exec_run w) (container_stats w)
          (container_update w) (container_stop w) (container_remove w).

Definition with_exec_run (f : Trace -> string -> Z -> ExecOutcome)
  (w : World) : World :=
  mkWorld (ast_parse w) (bytes_decode w) (subprocess_run w)
          (docker_from_env w) (images_get w) (images_pull w)
          (containers_create w) (container_start w) f (container_stats w)
          (container_update w) (container_stop w) (container_remove w).

Definition with_stats (f : Trace -> PyExc + pyval) (w : World) : World :=
  mkWorld (ast_parse w) (bytes_decode w) (subprocess_run w)
          (docker_from_env w) (images_get w) (images_pull w)
          (containers_create w) (container_start w) (container_exec_run w)
          f (container_update w) (container_stop w) (container_remove w).

(** [ast.parse] of CPython 3.11: a source that holds a NUL character is
    refused with a [ValueError], not a [SyntaxError]; an unclosed
    parenthesis is a [SyntaxError]. *)
Definition nul_source : string := String (Ascii.ascii_of_nat 0) "".

Definition ValueError_nul : PyExc :=
  mkExc "ValueError" ["Exception"]
        "source code string cannot contain null bytes".

Definition cpython_parse (code : string) : ParseOutcome :=
  if code =? nul_source then ParseRaised ValueError_nul
  else if code =? "print('missing paren'"
       then SyntaxErr (Some 1%Z) "'(' was never closed"
       else Parsed.

(** The text [2] and a newline. *)
Definition two_line : string :=
  String "2" (String (Ascii.ascii_of_nat 10) EmptyString).

(** The interpreter at work: [print(1+1)] prints [2]. *)
Definition cpython_run (code : string) : RunOutcome :=
  if code =? "print(1+1)" then RunCompleted 0 two_line EmptyString
  else RunCompleted 0 EmptyString EmptyString.

Definition cpython_world : World :=
  with_ast_parse cpython_parse
    (with_subprocess_run (fun _ code _ => cpython_run code) calm_world).

(** The default share of a processor, [0.5]. *)
Definition half : number := NFloat (float_literal 5 1).

Definition a_tool (use_sandbox : bool) : CodeExecutionTool.t :=
  CodeExecutionTool.init use_sandbox 128 half 30.

(** More worlds, for the examples below. *)

Definition with_images_get (f : Trace -> string -> option PyExc) (w : World)
  : World :=
  mkWorld (ast_parse w) (bytes_decode w) (subprocess_run w)
          (docker_from_env w) f (images_pull w) (containers_create w)
          (container_start w) (container_exec_run w) (container_stats w)
          (container_update w) (container_stop w) (container_remove w).

Definition live_sandbox (timeout : Z) : SandboxExecutor.t :=
  SandboxExecutor.mk SandboxExecutor.default_image timeout 128 half
    (Some ContainerObj).

Definition fresh_sandbox (timeout : Z) : SandboxExecutor.t :=
  SandboxExecutor.mk SandboxExecutor.default_image timeout 128 half None.

Definition UnicodeDecodeError_ff : PyExc :=
  mkExc "UnicodeDecodeError" ["UnicodeError"; "ValueError"; "Exception"]
    "'utf-8' codec can't decode byte 0xff in position 0: invalid start byte".

Definition is_ascii (b : byte) : bool := (Byte.to_nat b <? 128)%nat.

(** A decoder that reads ASCII text and raises on anything else. *)
Definition ascii_decode (bs : list byte) : PyExc + string :=
  if forallb is_ascii bs then inr (string_of_list_byte bs)
  else inl UnicodeDecodeError_ff.




(** Built-in [TimeoutError], as Python raises it for [ETIMEDOUT]. *)
Definition OSError_timed_out : PyExc :=
  mkExc "TimeoutError" ["OSError"; "Exception"]
    "[Errno 110] Connection timed out".

Definition FileNotFoundError_python : PyExc :=
  mkExc "FileNotFoundError" ["OSError"; "Exception"]
    "[Errno 2] No such file or directory: '/usr/bin/python3'".

Definition DockerException_down : PyExc :=
  mkExc "DockerException" ["Exception"]
    "Error while fetching server API version".

(** The interpreter cannot be started: the file system it lives on timed
    out. *)
Definition stalled_spawn_world : World :=
  with_subprocess_run (fun _ _ _ => RunRaised OSError_timed_out)
    cpython_world.

(** The interpreter is missing. *)
Definition missing_python_world : World :=
  with_subprocess_run (fun _ _ _ => RunRaised FileNotFoundError_python)
    cpython_world.

(** The daemon does not answer in another way: the HTTP transport gives up
    with an exception that is no [DockerException]. *)
Definition ConnectionError_requests : PyExc :=
  mkExc "ConnectionError" ["RequestException"; "OSError"; "Exception"]
    "('Connection aborted.', FileNotFoundError(2, 'No such file or directory'))".

(** The Docker daemon does not answer. *)
Definition docker_down_world : World :=
  with_images_get (fun _ _ => Some DockerException_down) cpython_world.

Definition unreachable_daemon_world : World :=
  with_images_get (fun _ _ => Some ConnectionError_requests) cpython_world.

Definition TimeoutExpired_5 : PyExc :=
  mkExc "TimeoutExpired" ["SubprocessError"; "Exception"]
    "Command '['/usr/bin/python3', '-c', 'import time; time.sleep(10)']' timed out after 5 seconds".

Definition ReadTimeout_5 : PyExc :=
  mkExc "ReadTimeout" ["Timeout"; "RequestException"; "OSError"; "Exception"]
    "UnixHTTPConnectionPool(host='localhost', port=None): Read timed out. (read timeout=5)".

Definition sleep_10 : string := "import time; time.sleep(10)".

(** The submitted code outlives every deadline: [subprocess.run] kills the
    child and raises [TimeoutExpired]; the Docker client gives up on
    [exec_run] with the [ReadTimeout] of its HTTP transport. *)
Definition slow_world : World :=
  with_subprocess_run (fun _ _ _ => RunRaised TimeoutExpired_5)
    (with_exec_run (fun _ _ _ => ExecRaised ReadTimeout_5) cpython_world).

Definition sample_stats (total pretotal system presystem usage limit : Z)
  : pyval :=
  PDict [("cpu_stats",
          PDict [("cpu_usage", PDict [("total_usage", PInt total)]);
                 ("system_cpu_usage", PInt system)]);
         ("precpu_stats",
          PDict [("cpu_usage", PDict [("total_usage", PInt pretotal)]);
                 ("system_cpu_usage", PInt presystem)]);
         ("memory_stats",
          PDict [("usage", PInt usage); ("limit", PInt limit)])].

(** Between the two samples the container used 1 unit of CPU time out of
    1024, and it holds 1 byte under a ceiling of 3. *)
Definition sampled_world : World :=
  with_stats (fun _ => inr (sample_stats 1 0 1024 0 1 3)) calm_world.

(** A first sample: [precpu_stats] holds no [system_cpu_usage] yet. *)
Definition first_sample : pyval :=
  PDict [("cpu_stats",
          PDict [("cpu_usage", PDict [("total_usage", PInt 2000)]);
                 ("system_cpu_usage", PInt 5000)]);
         ("precpu_stats",
          PDict [("cpu_usage", PDict [("total_usage", PInt 0)])]);
         ("memory_stats",
          PDict [("usage", PInt 1); ("limit", PInt 3)])].

Definition first_sample_world : World :=
  with_stats (fun _ => inr first_sample) calm_world.

(** The container holds 64 MiB under a ceiling of 256 MiB. *)
Definition resized_world : World :=
  with_stats
    (fun _ => inr (sample_stats 1 0 1024 0 (64 * 1048576) (256 * 1048576)))
    calm_world.

Definition tool_after_update : CodeExecutionTool.t :=
  fst (CodeExecutionTool.update_limits (a_tool true) (Some 256%Z) None).

(** ** Notions used in the statements and proofs *)

(** What [CodeExecutor.execute] makes of the answer of [subprocess.run],
    for a source that parses. *)
Definition direct_result (timeout : Z) (r : RunOutcome) : ExecutionResult :=
  match r with
  | RunCompleted returncode stdout stderr =>
      if (returncode =? 0)%Z
      then mkResult true (Some stdout) None None None None
      else mkResult false (Some stdout) (Some stderr) (Some "RuntimeError")
             None None
  | RunRaised e =>
      if isinstance e "TimeoutExpired"
      then mkResult false None
             (Some ("Execution timed out after " ++ str_of_Z timeout
                    ++ " seconds"))
             (Some "TimeoutError") None None
      else mkResult false None (Some (exc_str e)) (Some (exc_name e))
             None None
  end.

(** The result of the catch-all handlers. *)
Definition failure_of (e : PyExc) : ExecutionResult :=
  mkResult false None (Some (exc_str e)) (Some (exc_name e)) None None.

(** What [execute_in_container] makes of the answer of [exec_run]. *)
Definition container_result (w : World) (r : ExecOutcome) : ExecutionResult :=
  match r with
  | ExecReturned exit_code out err =>
      match SandboxExecutor.decode_or_empty w out with
      | inl e => failure_of e
      | inr stdout =>
          match SandboxExecutor.decode_or_empty w err with
          | inl e => failure_of e
          | inr stderr =>
              if (exit_code =? 0)%Z
              then mkResult true (Some stdout) None None None None
              else mkResult false (Some stdout) (Some stderr)
                     (Some "RuntimeError") None None
          end
      end
  | ExecRaised e => failure_of e
  end.

(** The tags the code writes for its own three kinds of failure. *)
Definition reserved_tags : list string :=
  ["SyntaxError"; "RuntimeError"; "TimeoutError"].

(** Calls that provision an environment. *)
Definition is_provision (ev : Event) : bool :=
  match ev with
  | EvImagesGet _ _ | EvImagesPull _ _ | EvContainersCreate _ _ | EvStart _ =>
      true
  | _ => false
  end.

(** An event that neither runs a command nor reports a started container. *)
Definition is_quiet (ev : Event) : bool :=
  negb (is_exec_run ev) && negb (is_started ev).

Definition no_teardown (ev : Event) : bool := negb (is_teardown ev).

(** [grows s s']: from [s] to [s'] the trace was extended, without any
    [stop] or [remove]; and when the object holds no container at the end it
    held none at the start, no command was run and no container started. *)
Definition grows (s s' : SandboxExecutor.State) : Prop :=
  exists evs,
    snd s' = (snd s ++ evs)%list
    /\ forallb no_teardown evs = true
    /\ (SandboxExecutor.container (fst s') = None ->
        SandboxExecutor.container (fst s) = None
        /\ forallb is_quiet evs = true).

(** A method all of whose runs extend the state in this way. *)
Definition growing {A} (m : Py SandboxExecutor.State A) : Prop :=
  forall s, grows s (snd (m s)).

(** Computations that leave the state alone. *)
Definition stateless {S A} (m : Py S A) : Prop := forall s, snd (m s) = s.

(** Every value a computation returns satisfies [P]. *)
Definition returns_only {S A} (P : A -> Prop) (m : Py S A) : Prop :=
  forall s a s', m s = (Return a, s') -> P a.

(** The calls leave nothing running: no command was run and no container
    started, or [cleanup] came last. *)
Definition settled (events : list Event) : Prop :=
  forallb is_quiet events = true \/ ends_with_cleanup events.

(** What is claimed of the calls of one isolated execution. *)
Definition torn_down (events : list Event) : Prop :=
  (existsb is_exec_run events = true -> ends_with_cleanup events)
  /\ (existsb is_started events = true ->
      ends_with_cleanup events
      /\ (lifecycle events = Destroyed \/ lifecycle events = TeardownFailed))
  /\ lifecycle events <> Executing.

(** [v[k1][k2]...], when every key is there. *)
Fixpoint lookup (v : pyval) (path : list string) : option pyval :=
  match path with
  | [] => Some v
  | k :: rest =>
      match v with
      | PDict items =>
          match assoc k items with
          | Some x => lookup x rest
          | None => None
          end
      | PInt _ => None
      end
  end.

(** [d.get(k, 0)] on the items of a dictionary. *)
Definition entry_or_zero (items : list (string * pyval)) (k : string) : pyval :=
  match assoc k items with
  | Some v => v
  | None => PInt 0
  end.

(** The three measures of a sample, from the two deltas of the CPU
    counters and the two entries of [memory_stats]: the quotient of two
    integers is the nearest float, or an [OverflowError]; the product by 100
    is rounded to a float; [round(_, 2)] comes last. *)
Definition cpu_percent_of (cpu_delta system_delta : Z) : PyExc + float :=
  if (0 <? system_delta)%Z then
    match int_truediv cpu_delta system_delta with
    | inr q => inr (py_round2 (float_mul q (float_literal 1000 1)))
    | inl e => inl e
    end
  else inr (py_round2 float_zero).

Definition mebibytes_of (usage : Z) : PyExc + float :=
  match int_truediv usage (1024 * 1024) with
  | inr q => inr (py_round2 q)
  | inl e => inl e
  end.

Definition memory_percent_of (usage limit : Z) : PyExc + float :=
  if (0 <? limit)%Z then
    match int_truediv usage limit with
    | inr q => inr (py_round2 (float_mul q (float_literal 100 0)))
    | inl e => inl e
    end
  else inr (py_round2 float_zero).

(** The sample, or the first exception met on the way. *)
Definition sample_of (cpu_delta system_delta usage limit : Z)
  : PyExc + Usage :=
  match cpu_percent_of cpu_delta system_delta with
  | inl e => inl e
  | inr c =>
      match mebibytes_of usage with
      | inl e => inl e
      | inr m =>
          match memory_percent_of usage limit with
          | inl e => inl e
          | inr p => inr (mkUsage true (Some c) (Some m) (Some p) None)
          end
      end
  end.

(** The sample a caught exception is turned into. *)
Definition failed_sample (e : PyExc) : Usage :=
  mkUsage false None None None (Some (exc_str e)).

(** [int(cpu * 100000)], the quota handed to Docker for a share [cpu] of a
    processor. *)
Definition cpu_quota_of (cpu : number) : PyExc + Z :=
  py_int (mul_literal cpu 100000).

(** The keyword arguments the limiter passes to [container.update]. *)
Definition memory_update (limit_mb : Z) : UpdateArgs :=
  mkUpdateArgs (Some (str_of_Z limit_mb ++ "m")) None None.

Definition cpu_update (quota : Z) : UpdateArgs :=
  mkUpdateArgs None (Some quota) (Some 100000%Z).

(** The calls [SandboxExecutor.update_limits] makes on a live container:
    one [update] for each argument that is given, memory first; none for a
    share of a processor that has no quota. *)
Definition memory_update_calls (w : World) (tr : Trace) (memory_mb : option Z)
  : list Event :=
  match memory_mb with
  | Some m =>
      [EvUpdate (memory_update m) (container_update w tr (memory_update m))]
  | None => []
  end.

Definition cpu_update_calls (w : World) (tr : Trace)
  (cpu_limit : option number) : list Event :=
  match cpu_limit with
  | Some q =>
      match cpu_quota_of q with
      | inr n =>
          [EvUpdate (cpu_update n) (container_update w tr (cpu_update n))]
      | inl _ => []
      end
  | None => []
  end.

Definition update_calls (w : World) (tr : Trace) (memory_mb : option Z)
  (cpu_limit : option number) : list Event :=
  (memory_update_calls w tr memory_mb
   ++ cpu_update_calls w (tr ++ memory_update_calls w tr memory_mb)
        cpu_limit)%list.

(** The keyword arguments [create_container] passes to
    [containers.create], when the share of a processor has a quota. *)
Definition create_args_of (self : SandboxExecutor.t) : option CreateArgs :=
  match cpu_quota_of (SandboxExecutor.cpu_limit self) with
  | inr quota =>
      Some (mkCreateArgs (SandboxExecutor.image self) "sleep infinity" true
              (str_of_Z (SandboxExecutor.memory_limit_mb self) ++ "m")
              quota 100000 "none")
  | inl _ => None
  end.

(** An event that is no [update], and no [create] with other arguments than
    [args0]. *)
(** The arguments for the default limits: 128 MiB, and half a processor,
    that is a quota of 50000 out of 100000. *)
Definition default_args : CreateArgs :=
  mkCreateArgs SandboxExecutor.default_image "sleep infinity" true "128m"
    50000 100000 "none".

Definition configured_by (args0 : option CreateArgs) (ev : Event) : Prop :=
  match ev with
  | EvContainersCreate args _ => args0 = Some args
  | EvUpdate _ _ => False
  | _ => True
  end.

(** [keeps s s']: from [s] to [s'] the limits of the object stayed the
    same, no [update] was called, and every container was created with the
    limits of the object. *)
Definition keeps (s s' : SandboxExecutor.State) : Prop :=
  create_args_of (fst s') = create_args_of (fst s)
  /\ exists evs,
       snd s' = (snd s ++ evs)%list
       /\ Forall (configured_by (create_args_of (fst s))) evs.

Definition keeping {A} (m : Py SandboxExecutor.State A) : Prop :=
  forall s, keeps s (snd (m s)).

(** ** More worlds and notions, for the methods taken one by one *)

Definition with_from_env (f : Trace -> option PyExc) (w : World) : World :=
  mkWorld (ast_parse w) (bytes_decode w) (subprocess_run w) f
          (images_get w) (images_pull w) (containers_create w)
          (container_start w) (container_exec_run w) (container_stats w)
          (container_update w) (container_stop w) (container_remove w).

Definition with_start (f : Trace -> option PyExc) (w : World) : World :=
  mkWorld (ast_parse w) (bytes_decode w) (subprocess_run w)
          (docker_from_env w) (images_get w) (images_pull w)
          (containers_create w) f (container_exec_run w) (container_stats w)
          (container_update w) (container_stop w) (container_remove w).

Definition with_update (f : Trace -> UpdateArgs -> option PyExc) (w : World)
  : World :=
  mkWorld (ast_parse w) (bytes_decode w) (subprocess_run w)
          (docker_from_env w) (images_get w) (images_pull w)
          (containers_create w) (container_start w) (container_exec_run w)
          (container_stats w) f (container_stop w) (container_remove w).

Definition with_stop (f : Trace -> Z -> option PyExc) (w : World) : World :=
  mkWorld (ast_parse w) (bytes_decode w) (subprocess_run w)
          (docker_from_env w) (images_get w) (images_pull w)
          (containers_create w) (container_start w) (container_exec_run w)
          (container_stats w) (container_update w) f (container_remove w).

(** [docker.errors.APIError], as the client raises it for an answer of the
    daemon with an error status. *)
Definition APIError (msg : string) : PyExc :=
  mkExc "APIError" ["HTTPError"; "DockerException"; "RequestException";
                    "OSError"; "Exception"] msg.

Definition ImageNotFound (msg : string) : PyExc :=
  mkExc "ImageNotFound" ["NotFound"; "APIError"; "HTTPError";
                         "DockerException"; "RequestException"; "OSError";
                         "Exception"] msg.

(** The image is not there yet, and can be pulled. *)
Definition no_image_world : World :=
  with_images_get
    (fun _ image => Some (ImageNotFound ("No such image: " ++ image)))
    calm_world.

(** The container is created and does not start. *)
Definition no_start_world : World :=
  with_start (fun _ => Some (APIError "OCI runtime create failed"))
    calm_world.

(** The daemon refuses every change of limits. *)
Definition no_update_world : World :=
  with_update (fun _ _ => Some (APIError "Minimum memory limit allowed is 6MB"))
    calm_world.

(** The container cannot be stopped: the daemon answers with an error, or
    does not answer in time. *)
Definition no_stop_world : World :=
  with_stop (fun _ _ => Some (APIError "cannot stop container")) cpython_world.

Definition stop_hangs_world : World :=
  with_stop (fun _ _ => Some ReadTimeout_5) cpython_world.

(** The daemon is not running. *)
Definition no_daemon_world : World :=
  with_from_env (fun _ => Some DockerException_down) cpython_world.

(** A daemon that fails on the first call to [images.get] and works from
    then on; and one that fails on the first call with a [DockerException]
    and on the next with an exception of the HTTP transport. *)
Definition waking_world : World :=
  with_images_get
    (fun tr _ => if existsb is_provision tr then None
                 else Some DockerException_down)
    cpython_world.

Definition failing_world : World :=
  with_images_get
    (fun tr _ => if existsb is_provision tr then Some ConnectionError_requests
                 else Some DockerException_down)
    cpython_world.

(** The status a method builds from the answer of a call that returns
    nothing. *)
Definition status_of (r : option PyExc) : Status :=
  match r with
  | None => mkStatus true None
  | Some e => mkStatus false (Some (exc_str e))
  end.

(** The invariant of a usage sample: a success carries the three measures
    and no message, a failure a message and no measure. *)
Definition usage_well_formed (u : Usage) : Prop :=
  if u_success u
  then cpu_percent u <> None /\ memory_mb u <> None
       /\ memory_percent u <> None /\ u_error u = None
  else cpu_percent u = None /\ memory_mb u = None
       /\ memory_percent u = None /\ u_error u <> None.

(** The entries [monitor_resources] reads with [stats[...]]. *)
Definition required_entries : list (list string) :=
  [["cpu_stats"; "cpu_usage"; "total_usage"];
   ["precpu_stats"; "cpu_usage"; "total_usage"];
   ["cpu_stats"; "system_cpu_usage"];
   ["precpu_stats"; "system_cpu_usage"];
   ["memory_stats"]].

Definition is_subprocess (ev : Event) : bool :=
  match ev with EvSubprocessRun _ _ _ => true | _ => false end.

Definition is_pull (ev : Event) : bool :=
  match ev with EvImagesPull _ _ => true | _ => false end.

(** [containers.create] returned a container. *)
Definition is_created (ev : Event) : bool :=
  match ev with EvContainersCreate _ None => true | _ => false end.


(** The calls an object makes to Docker when it provisions, runs commands,
    samples and tears down: on its own image, with its own limits and
    deadline, and a grace period of one second for [stop]. *)
Definition sandbox_call (cmd_ok : string -> Prop) (self : SandboxExecutor.t)
  (ev : Event) : Prop :=
  match ev with
  | EvImagesGet image _ | EvImagesPull image _ =>
      image = SandboxExecutor.image self
  | EvContainersCreate args _ => create_args_of self = Some args
  | EvExecRun cmd timeout _ =>
      cmd_ok cmd /\ timeout = SandboxExecutor.timeout self
  | EvStop timeout _ => timeout = 1%Z
  | EvStart _ | EvStats _ | EvRemove _ => True
  | EvUpdate _ _ | EvFromEnv _ | EvSubprocessRun _ _ _ => False
  end.

Definition same_settings (a b : SandboxExecutor.t) : Prop :=
  SandboxExecutor.image a = SandboxExecutor.image b
  /\ SandboxExecutor.timeout a = SandboxExecutor.timeout b
  /\ SandboxExecutor.memory_limit_mb a = SandboxExecutor.memory_limit_mb b
  /\ SandboxExecutor.cpu_limit a = SandboxExecutor.cpu_limit b.

(** [confined cmd_ok s s']: from [s] to [s'] the settings of the object
    stayed the same and the trace was extended by such calls only. *)
Definition confined (cmd_ok : string -> Prop) (s s' : SandboxExecutor.State)
  : Prop :=
  same_settings (fst s) (fst s')
  /\ exists evs,
       snd s' = (snd s ++ evs)%list
       /\ Forall (sandbox_call cmd_ok (fst s)) evs.

Definition confining {A} (cmd_ok : string -> Prop)
  (m : Py SandboxExecutor.State A) : Prop :=
  forall s, confined cmd_ok s (snd (m s)).

(** A source that [ast.parse] accepts and the compiler refuses: [return]
    outside a function.  The interpreter writes the [SyntaxError] to stderr
    and exits with status 1. *)
Definition return_1 : string := "return 1".

Definition double_quote : string :=
  String (Ascii.ascii_of_nat 34) EmptyString.

Definition line_feed : string := String (Ascii.ascii_of_nat 10) EmptyString.

Definition return_outside_function : string :=
  "  File " ++ double_quote ++ "<string>" ++ double_quote ++ ", line 1"
  ++ line_feed ++ "SyntaxError: 'return' outside function" ++ line_feed.

Definition late_error_world : World :=
  with_bytes_decode ascii_decode
    (with_subprocess_run
       (fun _ code _ =>
          if code =? return_1
          then RunCompleted 1 EmptyString return_outside_function
          else cpython_run code)
       (with_exec_run
          (fun _ cmd _ =>
             if cmd =? SandboxExecutor.python_c return_1
             then ExecReturned 1 None
                    (Some (list_byte_of_string return_outside_function))
             else ExecReturned 0 None None)
          cpython_world)).

(** The daemon fails on the first call to [images.get]; on the next
    attempt the container is created, and [start] does not answer in
    time. *)
Definition late_start_world : World :=
  with_start (fun _ => Some ReadTimeout_5) waking_world.

(** The container is created and [start] does not answer in time. *)
Definition hung_start_world : World :=
  with_start (fun _ => Some ReadTimeout_5) cpython_world.

(** The exception a call raised, when it raised. *)
Definition raised (ev : Event) : option PyExc :=
  match ev with
  | EvFromEnv r | EvImagesGet _ r | EvImagesPull _ r
  | EvContainersCreate _ r | EvStart r | EvUpdate _ r | EvStop _ r
  | EvRemove r => r
  | EvSubprocessRun _ _ (RunRaised e) => Some e
  | EvExecRun _ _ (ExecRaised e) => Some e
  | EvStats (inl e) => Some e
  | _ => None
  end.

(** The last of a list of calls. *)
Definition last_call (evs : list Event) : option Event :=
  last (map Some evs) None.

(** [e] is what the last of the calls [evs] raised, a call that
    provisions. *)
Definition provisioning_raised (evs : list Event) (e : PyExc) : Prop :=
  exists ev,
    last_call evs = Some ev /\ is_provision ev = true /\ raised ev = Some e.

(** [holds s s']: from [s] to [s'] the trace was extended, and when the
    object holds no container at the end it held none at the start and
    [containers.create] returned none. *)
Definition holds (s s' : SandboxExecutor.State) : Prop :=
  exists evs,
    snd s' = (snd s ++ evs)%list
    /\ (SandboxExecutor.container (fst s') = None ->
        SandboxExecutor.container (fst s) = None
        /\ existsb is_created evs = false).

Definition holding {A} (m : Py SandboxExecutor.State A) : Prop :=
  forall s, holds s (snd (m s)).

(** The number of mebibytes a size such as ["256m"] stands for, up to
    1024. *)
Definition size_mb (size : string) : option Z :=
  find (fun m => size =? str_of_Z m ++ "m") (map Z.of_nat (seq 0 1025)).

(** A Docker engine that keeps its word.  It refuses a memory limit under
    6 MiB.  The stats of the container report the ceiling of the last
    update the engine accepted, 128 MiB before any; the container holds
    64 MiB. *)
Definition engine_accepts (args : UpdateArgs) : bool :=
  match ua_mem_limit args with
  | Some size =>
      match size_mb size with
      | Some m => (6 <=? m)%Z
      | None => false
      end
  | None => true
  end.

Definition engine_ceiling_step (mb : Z) (ev : Event) : Z :=
  match ev with
  | EvUpdate args None =>
      match ua_mem_limit args with
      | Some size =>
          match size_mb size with
          | Some m => m
          | None => mb
          end
      | None => mb
      end
  | _ => mb
  end.

Definition engine_ceiling (tr : Trace) : Z :=
  fold_left engine_ceiling_step tr 128%Z.

Definition engine_world : World :=
  with_update
    (fun _ args =>
       if engine_accepts args then None
       else Some (APIError "Minimum memory limit allowed is 6MB"))
    (with_stats
       (fun tr =>
          inr (sample_stats 1 0 1024 0 (64 * 1048576)
                 (engine_ceiling tr * 1048576)))
       calm_world).

(** No alarm goes off outside the function. *)
Definition on_time : ResourceLimiter.Deliveries :=
  ResourceLimiter.mkDeliveries false false.

(** The alarm goes off when the function has just returned. *)
Definition just_late : ResourceLimiter.Deliveries :=
  ResourceLimiter.mkDeliveries false true.

(** The state in which [enforce_time_limit] starts the function. *)
Definition armed {S} (timeout : Z) (s : ResourceLimiter.Signals * S)
  : ResourceLimiter.Signals * S :=
  (ResourceLimiter.mkSignals (ResourceLimiter.timeout_handler timeout) timeout,
   snd s).

(** A function that works until the alarm goes off. *)
Definition overrunning {S} (work : Py (ResourceLimiter.Signals * S) unit)
  : Py (ResourceLimiter.Signals * S) Z :=
  work ;;; ResourceLimiter.on_signals ResourceLimiter.sigalrm ;;; ret 0%Z.

(** A function that catches what is raised in it, as a [try] statement
    with [except Exception] does. *)
Definition catching {S A} (func : Py S A) (recover : PyExc -> Py S A)
  : Py S A :=
  try_except func
    (fun e => if isinstance e "Exception" then recover e else raise e).

(** * Properties *)

Import SandboxExecutor.

(** Case analysis on the answers of the Docker engine and on the [except]
    clauses they meet. *)
Ltac crack :=
  repeat (match goal with
          | |- context [match ?x with _ => _ end] =>
              lazymatch x with
              | images_get _ _ _ => destruct x
              | images_pull _ _ _ => destruct x
              | containers_create _ _ _ => destruct x
              | container_start _ _ => destruct x
              | container_stop _ _ _ => destruct x
              | container_remove _ _ => destruct x
              | container_update _ _ _ => destruct x
              | py_int _ => destruct x eqn:?
              | isinstance _ _ => destruct x eqn:?
              end
          end; cbn).

(** The events a run appended to the trace. *)
Ltac emitted :=
  eexists; split; [rewrite <- ?app_assoc; reflexivity|]; cbn.

(** The same, for a run that keeps the limits. *)
Ltac kept :=
  split; [reflexivity|]; eexists;
  (split; [rewrite <- ?app_assoc; reflexivity|]);
  repeat constructor;
  try (cbn; unfold create_args_of, cpu_quota_of; cbn;
       match goal with H : py_int _ = _ |- _ => now rewrite H end).

(** ** Reasoning rules for the monad *)

Section Rules.
Context {S A B : Type}.

Lemma bind_ret_l (a : A) (k : A -> Py S B) s : bind (ret a) k s = k a s.
Proof. reflexivity. Qed.

Lemma bind_ret_r (m : Py S A) s : bind m ret s = m s.
Proof. unfold bind. now destruct (m s) as [[a|e] s']. Qed.

Lemma bind_raise e (k : A -> Py S B) s : bind (raise e) k s = raise e s.
Proof. reflexivity. Qed.

Lemma try_except_ret (a : A) h (s : S) : try_except (ret a) h s = ret a s.
Proof. reflexivity. Qed.

Lemma try_except_raise e (h : PyExc -> Py S A) s :
  try_except (raise e) h s = h e s.
Proof. reflexivity. Qed.

Lemma returns_only_ret (P : A -> Prop) a :
  P a -> returns_only P (@ret S A a).
Proof. intros H s a' s' E. inversion E. now subst. Qed.

Lemma returns_only_raise (P : A -> Prop) e :
  returns_only P (@raise S A e).
Proof. intros s a' s' E. discriminate E. Qed.

Lemma returns_only_bind (P : B -> Prop) (m : Py S A) k :
  (forall a, returns_only P (k a)) -> returns_only P (bind m k).
Proof.
  intros Hk s b s' E. unfold bind in E.
  destruct (m s) as [[a|e] s1]; [|discriminate]. eapply Hk, E.
Qed.

Lemma returns_only_bind_with (Q : A -> Prop) (P : B -> Prop)
  (m : Py S A) k :
  returns_only Q m -> (forall a, Q a -> returns_only P (k a)) ->
  returns_only P (bind m k).
Proof.
  intros Hm Hk s b s' E. unfold bind in E.
  destruct (m s) as [[a|e] s1] eqn:Em; [|discriminate].
  eapply Hk; [eapply Hm, Em | exact E].
Qed.

Lemma returns_only_try_except (P : A -> Prop) (m : Py S A) h :
  returns_only P m -> (forall e, returns_only P (h e)) ->
  returns_only P (try_except m h).
Proof.
  intros Hm Hh s a s' E. unfold try_except in E.
  destruct (m s) as [[a1|e] s1] eqn:Em.
  - inversion E; subst. eapply Hm, Em.
  - eapply Hh, E.
Qed.

Lemma stateless_ret (a : A) : stateless (@ret S A a).
Proof. now intros s. Qed.

Lemma stateless_raise e : stateless (@raise S A e).
Proof. now intros s. Qed.

Lemma stateless_of_sum (r : PyExc + A) : stateless (@of_sum S A r).
Proof. now destruct r. Qed.

Lemma stateless_bind (m : Py S A) (k : A -> Py S B) :
  stateless m -> (forall a, stateless (k a)) -> stateless (bind m k).
Proof.
  intros Hm Hk s. unfold bind. specialize (Hm s).
  destruct (m s) as [[a|e] s']; cbn in *; subst; auto. apply Hk.
Qed.

End Rules.

Lemma grows_refl s : grows s s.
Proof.
  exists []. rewrite app_nil_r. repeat split; auto.
Qed.

Lemma grows_trans s1 s2 s3 : grows s1 s2 -> grows s2 s3 -> grows s1 s3.
Proof.
  intros (e1 & H1 & T1 & Q1) (e2 & H2 & T2 & Q2).
  exists (e1 ++ e2)%list. split; [|split].
  - rewrite H2, H1. now rewrite app_assoc.
  - rewrite forallb_app. now rewrite T1, T2.
  - intros Hc. destruct (Q2 Hc) as [Hc2 Hq2]. destruct (Q1 Hc2) as [Hc1 Hq1].
    split; auto. rewrite forallb_app. now rewrite Hq1, Hq2.
Qed.

Lemma growing_ret {A} (a : A) : growing (ret a).
Proof. intros s. apply grows_refl. Qed.

Lemma growing_raise {A} e : growing (@raise State A e).
Proof. intros s. apply grows_refl. Qed.

Lemma growing_self : growing self_.
Proof. intros s. apply grows_refl. Qed.

Lemma growing_bind {A B} (m : Py State A) (k : A -> Py State B) :
  growing m -> (forall a, growing (k a)) -> growing (bind m k).
Proof.
  intros Hm Hk s. unfold bind. specialize (Hm s).
  destruct (m s) as [[a|e] s']; cbn in *; auto.
  eapply grows_trans; [exact Hm | apply Hk].
Qed.

Lemma growing_try_except {A} (m : Py State A) h :
  growing m -> (forall e, growing (h e)) -> growing (try_except m h).
Proof.
  intros Hm Hh s. unfold try_except. specialize (Hm s).
  destruct (m s) as [[a|e] s']; cbn in *; auto.
  eapply grows_trans; [exact Hm | apply Hh].
Qed.

Create HintDb growing.
#[local] Hint Resolve growing_ret growing_raise growing_self : growing.

Lemma forallb_impl {A} (f g : A -> bool) l :
  (forall x, f x = true -> g x = true) ->
  forallb f l = true -> forallb g l = true.
Proof.
  intros H. induction l as [|x l IH]; cbn; auto.
  intros Hl. apply andb_prop in Hl as [Hx Hl].
  now rewrite (H x Hx), (IH Hl).
Qed.

Lemma provision_not_started_quiet evs :
  forallb is_provision evs = true ->
  existsb is_started evs = false ->
  forallb is_quiet evs = true.
Proof.
  induction evs as [|ev evs IH]; cbn; auto.
  intros P S. apply andb_prop in P as [Hp P].
  apply orb_false_elim in S as [S1 S2].
  rewrite (IH P S2), andb_true_r. unfold is_quiet. rewrite S1.
  now destruct ev.
Qed.

Lemma quiet_no_exec evs :
  forallb is_quiet evs = true ->
  existsb is_exec_run evs = false /\ existsb is_started evs = false.
Proof.
  induction evs as [|ev evs IH]; cbn; auto.
  intros H. apply andb_prop in H as [Hq H]. destruct (IH H) as [-> ->].
  unfold is_quiet in Hq. apply andb_prop in Hq as [H1 H2].
  apply negb_true_iff in H1, H2. now rewrite H1, H2.
Qed.

Lemma kind_of_tag_internal tag :
  ~ In tag reserved_tags -> kind_of_tag tag = Internal.
Proof.
  intros H. unfold kind_of_tag.
  destruct (String.eqb_spec tag "SyntaxError") as [->|_];
    [exfalso; apply H; cbn; auto|].
  destruct (String.eqb_spec tag "RuntimeError") as [->|_];
    [exfalso; apply H; cbn; auto|].
  destruct (String.eqb_spec tag "TimeoutError") as [->|_];
    [exfalso; apply H; cbn; auto|].
  reflexivity.
Qed.

(** ** The syntax gate *)

Section SyntaxGate.
Variable w : World.

Lemma validate_syntax_invalid code lineno msg tr :
  ast_parse w code = SyntaxErr lineno msg ->
  exists err,
    CodeExecutor.validate_syntax w code tr
    = (Return (mkValidation false (Some err)), tr).
Proof.
  intros H. unfold CodeExecutor.validate_syntax. rewrite H.
  eexists. reflexivity.
Qed.

Lemma validate_syntax_valid code tr :
  ast_parse w code = Parsed ->
  CodeExecutor.validate_syntax w code tr
  = (Return (mkValidation true None), tr).
Proof.
  intros H. unfold CodeExecutor.validate_syntax. now rewrite H.
Qed.

Lemma validate_syntax_reports code :
  returns_only (fun v => valid v = false -> validation_error v <> None)
    (CodeExecutor.validate_syntax w code).
Proof.
  intros tr v tr' E. unfold CodeExecutor.validate_syntax in E.
  destruct (ast_parse w code); inversion E; subst; cbn; congruence.
Qed.

Lemma tool_execute_syntax_error self code sandbox timeout tr lineno msg :
  ast_parse w code = SyntaxErr lineno msg ->
  exists err,
    CodeExecutionTool.execute w self code sandbox timeout tr
    = (Return (mkResult false None (Some err) (Some "SyntaxError")
                 (Some false) None), tr).
Proof.
  intros H.
  destruct (validate_syntax_invalid code lineno msg tr H) as [err Hv].
  unfold CodeExecutionTool.execute, bind. rewrite Hv. cbn.
  eexists. reflexivity.
Qed.

End SyntaxGate.

(** C1, as stated, fails: [ast.parse] accepts sources that are no Python
    programs.  A [return] outside a function is refused later, by the
    compiler; [validate_syntax] lets [return 1] through and the source is
    executed.
    Without isolation [subprocess.run] is called, the interpreter exits with
    status 1 and the result is tagged ["RuntimeError"], its error the text
    the interpreter wrote, [SyntaxError: 'return' outside function]; with
    isolation a container is created, the command is run in it and the
    result is tagged ["RuntimeError"] with [sandboxed = True]. *)
Lemma late_syntax_error_is_a_runtime_failure :
  ast_parse late_error_world return_1 = Parsed
  /\ CodeExecutionTool.execute late_error_world (a_tool false) return_1 None
       None []
     = (Return (mkResult false (Some EmptyString)
                  (Some return_outside_function) (Some "RuntimeError")
                  (Some false) None),
        [EvSubprocessRun return_1 30
           (RunCompleted 1 EmptyString return_outside_function)])
  /\ error_kind (mkResult false (Some EmptyString)
                   (Some return_outside_function) (Some "RuntimeError")
                   (Some false) None)
     = Some Runtime
  /\ CodeExecutionTool.execute late_error_world (a_tool true) return_1 None
       None []
     = (Return (mkResult false (Some EmptyString)
                  (Some return_outside_function) (Some "RuntimeError")
                  (Some true) None),
        [EvFromEnv None;
         EvImagesGet default_image None;
         EvContainersCreate default_args None;
         EvStart None;
         EvExecRun (python_c return_1) 30
           (ExecReturned 1 None
              (Some (list_byte_of_string return_outside_function)));
         EvStats (inr (PDict []));
         EvStop 1 None;
         EvRemove None]).
Proof. repeat split; vm_compute; reflexivity. Qed.

(** C1, amended.  Whatever the mode (the tool's [use_sandbox] flag, the
    [sandbox] argument) and the timeout, [execute] on a source that
    [ast.parse] refuses with a [SyntaxError] returns a failed result tagged
    ["SyntaxError"] (the kind [Syntax]) with [sandboxed = False], and the
    trace of external calls is left as it was: neither [subprocess.run] nor
    any Docker call was made. *)
Theorem execute_syntax_error_short_circuits
  w self code sandbox timeout tr lineno msg :
  ast_parse w code = SyntaxErr lineno msg ->
  exists r,
    CodeExecutionTool.execute w self code sandbox timeout tr = (Return r, tr)
    /\ success r = false
    /\ error_type r = Some "SyntaxError"
    /\ error_kind r = Some Syntax
    /\ error r <> None
    /\ sandboxed r = Some false.
Proof.
  intros H.
  destruct (tool_execute_syntax_error w self code sandbox timeout tr
              lineno msg H) as [err Hr].
  eexists. split; [exact Hr|]. cbn. repeat split; congruence.
Qed.

Lemma execute_syntax_error_short_circuits_witness :
  exists r,
    CodeExecutionTool.execute cpython_world (a_tool true)
      "print('missing paren'" None None [] = (Return r, [])
    /\ success r = false
    /\ error_type r = Some "SyntaxError"
    /\ error_kind r = Some Syntax
    /\ error r <> None
    /\ sandboxed r = Some false.
Proof.
  apply (execute_syntax_error_short_circuits cpython_world (a_tool true)
           "print('missing paren'" None None [] (Some 1%Z)
           "'(' was never closed").
  reflexivity.
Defined.

(** ** The direct executor *)

Section Direct.
Variable w : World.

Lemma direct_execute_valid self code timeout tr :
  ast_parse w code = Parsed ->
  let t := match timeout with
           | None => CodeExecutor.default_timeout self
           | Some t => t
           end in
  let r := subprocess_run w tr code t in
  CodeExecutor.execute w self code timeout tr
  = (Return (direct_result t r), (tr ++ [EvSubprocessRun code t r])%list).
Proof.
  intros H t r.
  unfold CodeExecutor.execute, bind.
  rewrite (validate_syntax_valid w code tr H). cbn.
  unfold try_except, bind, CodeExecutor.run_subprocess.
  fold t. fold r. unfold direct_result.
  destruct r as [rc out err | e]; cbn.
  - destruct (rc =? 0)%Z; reflexivity.
  - destruct (isinstance e "TimeoutExpired"); reflexivity.
Qed.

Lemma tool_execute_direct self code sandbox timeout tr :
  ast_parse w code = Parsed ->
  CodeExecutionTool.use_sandbox self = false ->
  CodeExecutionTool.truthy sandbox = false ->
  let t := CodeExecutionTool.timeout_or timeout
             (CodeExecutionTool.timeout self) in
  let r := subprocess_run w tr code t in
  CodeExecutionTool.execute w self code sandbox timeout tr
  = (Return (set_sandboxed false (direct_result t r)),
     (tr ++ [EvSubprocessRun code t r])%list).
Proof.
  intros H Hu Hs t r.
  unfold CodeExecutionTool.execute, bind.
  rewrite (validate_syntax_valid w code tr H). cbn.
  rewrite Hu, Hs. cbn.
  rewrite (direct_execute_valid _ code (Some t) tr H). reflexivity.
Qed.

Lemma tool_execute_sandboxed self code sandbox timeout tr :
  ast_parse w code = Parsed ->
  CodeExecutionTool.use_sandbox self || CodeExecutionTool.truthy sandbox
  = true ->
  CodeExecutionTool.execute w self code sandbox timeout tr
  = CodeExecutionTool._execute_sandboxed w self code
      (CodeExecutionTool.timeout_or timeout (CodeExecutionTool.timeout self))
      tr.
Proof.
  intros H Hs.
  unfold CodeExecutionTool.execute, bind.
  rewrite (validate_syntax_valid w code tr H). cbn.
  now rewrite Hs.
Qed.

Lemma direct_timeout_is_reported ex code timeout tr e :
  ast_parse w code = Parsed ->
  subprocess_run w tr code
    match timeout with
    | None => CodeExecutor.default_timeout ex
    | Some t => t
    end
  = RunRaised e ->
  isinstance e "TimeoutExpired" = true ->
  exists r,
    fst (CodeExecutor.execute w ex code timeout tr) = Return r
    /\ success r = false
    /\ error_type r = Some "TimeoutError"
    /\ error_kind r = Some Timeout.
Proof.
  intros Hp Hr He.
  rewrite (direct_execute_valid ex code timeout tr Hp). cbn [fst].
  rewrite Hr. unfold direct_result. rewrite He.
  eexists. split; [reflexivity|]. cbn. repeat split.
Qed.

End Direct.

(** The interpreter prints [2] for [print(1+1)]; without isolation the
    result is a success that carries it. *)
Example print_1_plus_1 :
  fst (CodeExecutionTool.execute cpython_world (a_tool false) "print(1+1)"
         None None [])
  = Return (mkResult true (Some two_line) None None (Some false) None).
Proof. reflexivity. Qed.

(** C10.  At the orchestrator a timeout argument of [0] is treated like an
    absent one: the call is the same as with [None], and the deadline handed
    to the worker ([subprocess.run] in direct mode, the sandbox in isolated
    mode) is the tool's own [timeout].  The direct executor replaces only
    [None]: a [0] is handed to [subprocess.run] as it is. *)
Theorem zero_timeout_means_default w self ex code sandbox tr :
  ast_parse w code = Parsed ->
  CodeExecutionTool.execute w self code sandbox (Some 0%Z) tr
  = CodeExecutionTool.execute w self code sandbox None tr
  /\ (CodeExecutionTool.use_sandbox self = false ->
      CodeExecutionTool.truthy sandbox = false ->
      snd (CodeExecutionTool.execute w self code sandbox (Some 0%Z) tr)
      = (tr ++ [EvSubprocessRun code (CodeExecutionTool.timeout self)
                  (subprocess_run w tr code
                     (CodeExecutionTool.timeout self))])%list)
  /\ (CodeExecutionTool.use_sandbox self || CodeExecutionTool.truthy sandbox
      = true ->
      CodeExecutionTool.execute w self code sandbox (Some 0%Z) tr
      = CodeExecutionTool._execute_sandboxed w self code
          (CodeExecutionTool.timeout self) tr)
  /\ snd (CodeExecutor.execute w ex code (Some 0%Z) tr)
     = (tr ++ [EvSubprocessRun code 0 (subprocess_run w tr code 0)])%list
  /\ snd (CodeExecutor.execute w ex code None tr)
     = (tr ++ [EvSubprocessRun code (CodeExecutor.default_timeout ex)
                 (subprocess_run w tr code
                    (CodeExecutor.default_timeout ex))])%list.
Proof.
  intros H. split; [|split; [|split; [|split]]].
  - reflexivity.
  - intros Hu Hs.
    now rewrite (tool_execute_direct w self code sandbox (Some 0%Z) tr H Hu Hs).
  - intros Hs.
    now rewrite (tool_execute_sandboxed w self code sandbox (Some 0%Z) tr H Hs).
  - now rewrite (direct_execute_valid w ex code (Some 0%Z) tr H).
  - now rewrite (direct_execute_valid w ex code None tr H).
Qed.

Lemma zero_timeout_means_default_witness :
  snd (CodeExecutionTool.execute cpython_world (a_tool false) "print(1+1)"
         None (Some 0%Z) [])
  = [EvSubprocessRun "print(1+1)" 30 (RunCompleted 0 two_line EmptyString)]
  /\ snd (CodeExecutor.execute cpython_world (CodeExecutor.mk 30)
            "print(1+1)" (Some 0%Z) [])
     = [EvSubprocessRun "print(1+1)" 0 (RunCompleted 0 two_line EmptyString)].
Proof.
  pose proof (zero_timeout_means_default cpython_world (a_tool false)
                (CodeExecutor.mk 30) "print(1+1)" None [] eq_refl)
    as (_ & H2 & _ & H4 & _).
  split; [exact (H2 eq_refl eq_refl) | exact H4].
Defined.

(** ** The governor never raises *)

Section Governor.
Variable w : World.

Lemma stateless_getitem {S} v k : stateless (@ResourceLimiter.getitem S v k).
Proof.
  destruct v as [n|items]; cbn; [apply stateless_raise|].
  destruct (assoc k items); [apply stateless_ret | apply stateless_raise].
Qed.

Lemma stateless_dict_get {S} v k d :
  stateless (@ResourceLimiter.dict_get S v k d).
Proof.
  destruct v as [n|items]; cbn; [apply stateless_raise|].
  destruct (assoc k items); apply stateless_ret.
Qed.

Lemma stateless_py_sub {S} a b : stateless (@ResourceLimiter.py_sub S a b).
Proof.
  destruct a, b; cbn; (apply stateless_ret || apply stateless_raise).
Qed.

Lemma stateless_py_truediv {S} a b :
  stateless (@ResourceLimiter.py_truediv S a b).
Proof.
  destruct a, b; cbn; (apply stateless_of_sum || apply stateless_raise).
Qed.

Lemma stateless_py_gt0 {S} a : stateless (@ResourceLimiter.py_gt0 S a).
Proof.
  destruct a; cbn; (apply stateless_ret || apply stateless_raise).
Qed.

Lemma stateless_compute_usage {S} stats :
  stateless (@ResourceLimiter.compute_usage S stats).
Proof.
  unfold ResourceLimiter.compute_usage.
  repeat (apply stateless_bind;
          [first [apply stateless_getitem | apply stateless_dict_get
                 | apply stateless_py_sub | apply stateless_py_truediv
                 | apply stateless_py_gt0
                 | match goal with
                   | |- stateless (if ?b then _ else _) => destruct b
                   end;
                   [apply stateless_bind;
                    [first [apply stateless_of_sum
                           | apply stateless_py_truediv]
                    | intros ?; apply stateless_ret]
                   | apply stateless_ret] ]
          | intros ? ]).
  apply stateless_ret.
Qed.

(** [monitor_resources] makes one call, [stats], and returns. *)
Lemma monitor_resources_calls c tr :
  exists u,
    ResourceLimiter.monitor_resources w c tr
    = (Return u, (tr ++ [EvStats (container_stats w tr)])%list).
Proof.
  unfold ResourceLimiter.monitor_resources, try_except, bind,
    ResourceLimiter.container_stats_call.
  destruct (container_stats w tr) as [e|stats]; cbn.
  - eexists. reflexivity.
  - pose proof (stateless_compute_usage stats
                  (tr ++ [@EvStats (inr stats)])%list) as Hs.
    destruct (ResourceLimiter.compute_usage stats _) as [[u|e] tr'];
      cbn in *; subst; eexists; reflexivity.
Qed.

Lemma monitor_resources_returns c tr :
  exists u, fst (ResourceLimiter.monitor_resources w c tr) = Return u.
Proof.
  destruct (monitor_resources_calls c tr) as [u Hu].
  exists u. now rewrite Hu.
Qed.

Lemma set_cpu_limit_returns c q tr :
  exists st, fst (ResourceLimiter.set_cpu_limit w c q tr) = Return st.
Proof.
  unfold ResourceLimiter.set_cpu_limit, try_except, bind, of_sum,
    ResourceLimiter.container_update_call.
  destruct (py_int _); cbn; [eexists; reflexivity|].
  destruct (container_update w tr _); cbn; eexists; reflexivity.
Qed.

Lemma set_memory_limit_returns c m tr :
  exists st, fst (ResourceLimiter.set_memory_limit w c m tr) = Return st.
Proof.
  unfold ResourceLimiter.set_memory_limit, try_except, bind,
    ResourceLimiter.container_update_call.
  destruct (container_update w tr _); cbn; eexists; reflexivity.
Qed.

End Governor.

(** ** The sandbox: which calls a method makes *)

Section Sandbox.
Variable w : World.

(** The calls of [create_container]: provisioning only; the object keeps
    a container it already had; and when the container was started the
    method returned success and the object holds it. *)
Lemma create_container_calls s :
  exists evs,
    snd (snd (create_container w s)) = (snd s ++ evs)%list
    /\ forallb is_provision evs = true
    /\ (container (fst (snd (create_container w s))) = None ->
        container (fst s) = None)
    /\ (existsb is_started evs = true ->
        fst (create_container w s) = Return (mkStatus true None)
        /\ container (fst (snd (create_container w s))) = Some ContainerObj).
Proof.
  destruct s as [self tr].
  unfold create_container, try_except, bind, self_, gets, call, on_trace,
    modify, ret, raise, of_sum. cbn.
  crack; emitted; repeat split; auto; discriminate.
Qed.

(** [int] raises no [DockerException]. *)
Lemma py_int_raises a e :
  py_int a = inl e -> isinstance e "DockerException" = false.
Proof.
  unfold py_int. destruct a as [n|[sg|sg| |sg m ex]]; intros H;
    try discriminate H; now injection H as <-.
Qed.

(** [create_container] reports a failure for a [DockerException] only, and
    lets any other exception through.  The failure it reports is the one of
    the last call it made; the exception it lets through was raised by the
    last call it made, or by [int]. *)
Lemma create_container_failure s :
  match create_container w s with
  | (Return st, s') =>
      st_success st = false ->
      exists e evs,
        snd s' = (snd s ++ evs)%list
        /\ provisioning_raised evs e
        /\ isinstance e "DockerException" = true
        /\ st_error st = Some (exc_str e)
  | (Raise e, s') =>
      isinstance e "DockerException" = false
      /\ ((exists evs,
             snd s' = (snd s ++ evs)%list /\ provisioning_raised evs e)
          \/ cpu_quota_of (cpu_limit (fst s)) = inl e)
  end.
Proof.
  destruct s as [self tr].
  unfold create_container, try_except, bind, self_, gets, call, on_trace,
    modify, ret, raise, of_sum. cbn.
  crack;
    try match goal with
        | H : py_int _ = inl ?e, H' : isinstance ?e "DockerException" = true
          |- _ => rewrite (py_int_raises _ _ H) in H'; discriminate H'
        end;
    try (intros Hs; discriminate Hs);
    try (intros _; eexists _, _;
         split; [rewrite <- ?app_assoc; reflexivity|];
         split; [eexists; cbn; repeat split|]; now split);
    (split; [assumption|]);
    first [ right; assumption
          | left; eexists;
            split; [rewrite <- ?app_assoc; reflexivity|];
            eexists; cbn; now repeat split ].
Qed.

Lemma create_container_growing : growing (create_container w).
Proof.
  intros s. destruct (create_container_calls s) as (evs & H1 & H2 & H3 & H4).
  exists evs. split; [exact H1|]. split.
  - revert H2. apply forallb_impl. now intros [].
  - intros Hc. split; [auto|].
    apply provision_not_started_quiet; [exact H2|].
    destruct (existsb is_started evs); [|reflexivity].
    destruct (H4 eq_refl) as [_ Hc']. congruence.
Qed.

Lemma run_in_container_eq code self tr c :
  container self = Some c ->
  let r := container_exec_run w tr (python_c code) (timeout self) in
  run_in_container w code (self, tr)
  = (Return (container_result w r),
     (self, (tr ++ [EvExecRun (python_c code) (timeout self) r])%list)).
Proof.
  intros Hc r.
  unfold run_in_container, try_except, bind, exec_run, self_, gets, on_trace.
  cbn. rewrite Hc. cbn. fold r.
  unfold container_result, failure_of, of_sum.
  destruct r as [rc out err|e]; cbn; [|reflexivity].
  destruct (decode_or_empty w out); cbn; [reflexivity|].
  destruct (decode_or_empty w err); cbn; [reflexivity|].
  destruct (rc =? 0)%Z; reflexivity.
Qed.

Lemma run_in_container_growing code : growing (run_in_container w code).
Proof.
  intros [self tr]. destruct (container self) as [c|] eqn:Hc.
  - rewrite (run_in_container_eq code self tr c Hc). cbn [snd].
    eexists [_]. cbn. repeat split; auto; congruence.
  - unfold run_in_container, try_except, bind, exec_run, self_, gets.
    cbn. rewrite Hc. apply grows_refl.
Qed.

Lemma execute_in_container_live code self tr c :
  container self = Some c ->
  let r := container_exec_run w tr (python_c code) (timeout self) in
  execute_in_container w code (self, tr)
  = (Return (container_result w r),
     (self, (tr ++ [EvExecRun (python_c code) (timeout self) r])%list)).
Proof.
  intros Hc r. unfold execute_in_container, bind, self_, gets. cbn.
  rewrite Hc. now apply run_in_container_eq with (c := c).
Qed.

Lemma execute_in_container_unprovisioned code self tr st s' :
  container self = None ->
  create_container w (self, tr) = (Return st, s') ->
  st_success st = false ->
  execute_in_container w code (self, tr)
  = (Return (mkResult false None
               (Some ("Container creation failed: "
                      ++ match st_error st with
                         | Some s => s
                         | None => "None"
                         end))
               (Some "ContainerError") None None), s').
Proof.
  intros Hc Hcr Hs. unfold execute_in_container, bind, self_, gets. cbn.
  rewrite Hc, Hcr, Hs. reflexivity.
Qed.

Lemma execute_in_container_growing code :
  growing (execute_in_container w code).
Proof.
  unfold execute_in_container.
  apply growing_bind; [apply growing_self|]. intros self.
  destruct (container self).
  - apply run_in_container_growing.
  - apply growing_bind; [apply create_container_growing|]. intros r.
    destruct (negb (st_success r)); auto using run_in_container_growing
      with growing.
Qed.

Lemma get_resource_usage_live self tr c :
  container self = Some c ->
  get_resource_usage w (self, tr)
  = (fst (ResourceLimiter.monitor_resources w c tr),
     (self, snd (ResourceLimiter.monitor_resources w c tr))).
Proof.
  intros Hc. unfold get_resource_usage, bind, self_, gets, on_trace.
  cbn [fst snd]. rewrite Hc. cbn [fst snd].
  now destruct (ResourceLimiter.monitor_resources w c tr).
Qed.

Lemma get_resource_usage_growing : growing (get_resource_usage w).
Proof.
  intros [self tr]. destruct (container self) as [c|] eqn:Hc.
  - rewrite (get_resource_usage_live self tr c Hc).
    destruct (monitor_resources_calls w c tr) as [u Hu]. rewrite Hu. cbn.
    eexists [_]. cbn. repeat split; auto; congruence.
  - unfold get_resource_usage, bind, self_, gets. cbn. rewrite Hc.
    apply grows_refl.
Qed.

Lemma sandboxed_body_growing code :
  growing (CodeExecutionTool.sandboxed_body w code).
Proof.
  unfold CodeExecutionTool.sandboxed_body.
  apply growing_bind; [apply execute_in_container_growing|]. intros r.
  apply growing_bind; [apply get_resource_usage_growing|]. intros u.
  destruct (u_success u); [|auto with growing].
  destruct (cpu_percent u), (memory_mb u); auto with growing.
Qed.

(** [cleanup]: nothing to do without a container; otherwise [stop], and
    [remove] when [stop] went through. *)
Lemma cleanup_calls s :
  match container (fst s) with
  | None => snd (snd (cleanup w s)) = snd s
  | Some _ =>
      (exists e, snd (snd (cleanup w s))
                 = (snd s ++ [EvStop 1 (Some e)])%list)
      \/ (exists r, snd (snd (cleanup w s))
                    = (snd s ++ [EvStop 1 None; EvRemove r])%list)
  end.
Proof.
  destruct s as [self tr].
  unfold cleanup, try_except, bind, self_, gets, call, on_trace, modify,
    ret, raise. cbn.
  destruct (container self); cbn; [|reflexivity].
  crack; rewrite <- ?app_assoc; cbn; eauto.
Qed.

Lemma exit_trace s : snd (snd (exit w s)) = snd (snd (cleanup w s)).
Proof.
  unfold exit, bind. now destruct (cleanup w s) as [[st|e] s'].
Qed.

Lemma enter_create s :
  snd (enter w s) = snd (create_container w s)
  /\ (forall e,
         fst (enter w s) = Raise e <-> fst (create_container w s) = Raise e).
Proof.
  unfold enter, bind. destruct (create_container w s) as [[st|e] s']; cbn.
  - split; [reflexivity|]. intros e. split; intros H; discriminate H.
  - split; [reflexivity|]. intros e'. split; intros H; congruence.
Qed.

End Sandbox.

(** ** The life cycle *)

Lemma lifecycle_snoc evs ev :
  lifecycle (evs ++ [ev]) = lifecycle_step (lifecycle evs) ev.
Proof. unfold lifecycle. now rewrite fold_left_app. Qed.

Lemma lifecycle_ends_with_cleanup evs :
  ends_with_cleanup evs ->
  lifecycle evs = Destroyed \/ lifecycle evs = TeardownFailed.
Proof.
  intros [(pre & e & ->) | (pre & r & ->)].
  - rewrite lifecycle_snoc. now right.
  - change [EvStop 1 None; EvRemove r]
      with ([EvStop 1 None] ++ [EvRemove r])%list.
    rewrite app_assoc, lifecycle_snoc. destruct r; cbn; auto.
Qed.

(** Only a command whose call raised leaves an environment [Executing]. *)
Lemma lifecycle_executing evs :
  lifecycle evs = Executing -> existsb is_exec_run evs = true.
Proof.
  induction evs as [|ev evs IH] using rev_ind; [discriminate|].
  rewrite lifecycle_snoc, existsb_app. cbn.
  destruct ev as [| | ? [e|] | ? [e|] | ? [e|] | [e|] | ? ? [|] | | | ? [e|]
                 | [e|]];
    cbn; try discriminate; try (intros H; rewrite (IH H); reflexivity);
    try (intros _; apply orb_true_r).
  destruct (isinstance e "ImageNotFound"); discriminate.
Qed.

Lemma torn_down_quiet events :
  forallb is_quiet events = true -> torn_down events.
Proof.
  intros H. destruct (quiet_no_exec events H) as [He Hs].
  repeat split; try congruence.
  intros Hl. apply lifecycle_executing in Hl. congruence.
Qed.

Lemma torn_down_cleanup events :
  ends_with_cleanup events -> torn_down events.
Proof.
  intros H. pose proof (lifecycle_ends_with_cleanup events H) as Hl.
  repeat split; auto. destruct Hl as [Hl|Hl]; rewrite Hl; discriminate.
Qed.

Lemma settled_torn_down events : settled events -> torn_down events.
Proof.
  intros [H|H]; [now apply torn_down_quiet | now apply torn_down_cleanup].
Qed.

Lemma settled_after pre events :
  forallb is_quiet pre = true -> settled events -> settled (pre ++ events).
Proof.
  intros Hp [H|[(p & e & ->)|(p & r & ->)]].
  - left. rewrite forallb_app. now rewrite Hp, H.
  - right. left. exists (pre ++ p)%list, e. now rewrite app_assoc.
  - right. right. exists (pre ++ p)%list, r. now rewrite app_assoc.
Qed.

(** ** Scoped acquisition *)

Section Scoped.
Variable w : World.

(** [__enter__], the body and [__exit__], from an object without a
    container.  The body is any computation that makes no teardown call
    of its own; it may return or raise. *)
Lemma scoped_calls {A} (body : Py State A) s1 :
  growing body ->
  container (fst s1) = None ->
  exists evs,
    snd (match enter w s1 with
         | (Raise e, s2) => (@Raise A e, snd s2)
         | (Return _, s2) =>
             let '(o, s3) := body s2 in
             match exit w s3 with
             | (Raise e, s4) => (Raise e, snd s4)
             | (Return _, s4) => (o, snd s4)
             end
         end) = (snd s1 ++ evs)%list
    /\ settled evs.
Proof.
  intros Hbody Hnone.
  destruct (enter_create w s1) as [Hsnd Hfst].
  destruct (create_container_calls w s1) as (evs1 & E1 & P1 & _ & S1).
  pose proof (create_container_growing w s1) as G1.
  destruct (enter w s1) as [[[]|e1] s2]; cbn [snd] in Hsnd; subst s2.
  - pose proof (Hbody (snd (create_container w s1))) as G2.
    destruct (body (snd (create_container w s1))) as [ob s3].
    cbn [snd] in G2.
    destruct (grows_trans _ _ _ G1 G2) as (evs & E & _ & Q).
    pose proof (cleanup_calls w s3) as Hc. pose proof (exit_trace w s3) as Hx.
    assert (Hgoal : exists evs',
               snd (snd (cleanup w s3)) = (snd s1 ++ evs')%list
               /\ settled evs').
    { destruct (container (fst s3)).
      - destruct Hc as [(e' & Hc) | (r' & Hc)]; rewrite Hc, E, <- app_assoc;
          eexists; (split; [reflexivity|]); right; [left|right]; eauto.
      - rewrite Hc, E. exists evs; split; [reflexivity|]. left. now apply Q. }
    destruct (exit w s3) as [[[]|e] s4]; cbn [snd] in Hx |- *; now rewrite Hx.
  - cbn [snd]. exists evs1. split; [exact E1|]. left.
    apply provision_not_started_quiet; [exact P1|].
    destruct (existsb is_started evs1); [|reflexivity].
    destruct (S1 eq_refl) as [Hret _].
    pose proof (proj1 (Hfst e1) eq_refl) as Hr. congruence.
Qed.

Lemma with_sandbox_calls {A} image timeout mem cpu
  (body : Py State A) tr0 :
  growing body ->
  exists events,
    snd (with_sandbox w (init w image timeout mem cpu) body tr0)
    = (tr0 ++ events)%list
    /\ settled events.
Proof.
  intros Hbody. unfold with_sandbox, init.
  destruct (docker_from_env w tr0) as [e0|].
  - exists [EvFromEnv (Some e0)]. split; [reflexivity|]. now left.
  - destruct (scoped_calls body
                (mk image timeout mem cpu None, (tr0 ++ [EvFromEnv None])%list)
                Hbody eq_refl) as (evs & E & Hs).
    exists ([EvFromEnv None] ++ evs)%list. split.
    + cbn [fst snd] in E. rewrite app_assoc. exact E.
    + now apply settled_after.
Qed.

(** [_execute_sandboxed] returns a result on every path, and its calls are
    settled. *)
Lemma execute_sandboxed_calls self code timeout tr0 :
  exists r events,
    CodeExecutionTool._execute_sandboxed w self code timeout tr0
    = (Return r, (tr0 ++ events)%list)
    /\ settled events.
Proof.
  destruct (with_sandbox_calls default_image timeout
              (CodeExecutionTool.memory_limit_mb self)
              (CodeExecutionTool.cpu_limit self)
              (CodeExecutionTool.sandboxed_body w code) tr0
              (sandboxed_body_growing w code)) as (events & E & Hs).
  unfold CodeExecutionTool._execute_sandboxed, try_except.
  destruct (with_sandbox w _ _ tr0) as [[r|e] tr]; cbn [snd] in E; subst tr.
  - exists r, events. now split.
  - eexists _, events. now split.
Qed.

End Scoped.

(** ** The limits a container is created with *)

Lemma keeps_refl s : keeps s s.
Proof. split; [reflexivity|]. exists []. now rewrite app_nil_r. Qed.

Lemma keeps_trans s1 s2 s3 : keeps s1 s2 -> keeps s2 s3 -> keeps s1 s3.
Proof.
  intros (C1 & e1 & H1 & F1) (C2 & e2 & H2 & F2).
  split; [congruence|].
  exists (e1 ++ e2)%list. split.
  - rewrite H2, H1. now rewrite app_assoc.
  - apply Forall_app. split; [exact F1|]. now rewrite <- C1.
Qed.

Lemma keeping_ret {A} (a : A) : keeping (ret a).
Proof. intros s. apply keeps_refl. Qed.

Lemma keeping_raise {A} e : keeping (@raise State A e).
Proof. intros s. apply keeps_refl. Qed.

Lemma keeping_self : keeping self_.
Proof. intros s. apply keeps_refl. Qed.

Lemma keeping_bind {A B} (m : Py State A) (k : A -> Py State B) :
  keeping m -> (forall a, keeping (k a)) -> keeping (bind m k).
Proof.
  intros Hm Hk s. unfold bind. specialize (Hm s).
  destruct (m s) as [[a|e] s']; cbn in *; auto.
  eapply keeps_trans; [exact Hm | apply Hk].
Qed.

Lemma keeping_try_except {A} (m : Py State A) h :
  keeping m -> (forall e, keeping (h e)) -> keeping (try_except m h).
Proof.
  intros Hm Hh s. unfold try_except. specialize (Hm s).
  destruct (m s) as [[a|e] s']; cbn in *; auto.
  eapply keeps_trans; [exact Hm | apply Hh].
Qed.

Section Keeping.
Variable w : World.

Lemma create_container_keeping : keeping (create_container w).
Proof.
  intros [self tr].
  unfold create_container, try_except, bind, self_, gets, call, on_trace,
    modify, ret, raise, of_sum. cbn.
  crack; kept.
Qed.

Lemma cleanup_keeping : keeping (cleanup w).
Proof.
  intros [self tr].
  unfold cleanup, try_except, bind, self_, gets, call, on_trace, modify,
    ret, raise. cbn.
  destruct (container self); cbn; [|apply keeps_refl].
  crack; kept.
Qed.

Lemma run_in_container_keeping code : keeping (run_in_container w code).
Proof.
  intros [self tr]. destruct (container self) as [c|] eqn:Hc.
  - rewrite (run_in_container_eq w code self tr c Hc). cbn [snd]. kept.
  - unfold run_in_container, try_except, bind, exec_run, self_, gets.
    cbn. rewrite Hc. apply keeps_refl.
Qed.

Lemma execute_in_container_keeping code :
  keeping (execute_in_container w code).
Proof.
  unfold execute_in_container.
  apply keeping_bind; [apply keeping_self|]. intros self.
  destruct (container self).
  - apply run_in_container_keeping.
  - apply keeping_bind; [apply create_container_keeping|]. intros r.
    destruct (negb (st_success r));
      [apply keeping_ret | apply run_in_container_keeping].
Qed.

Lemma get_resource_usage_keeping : keeping (get_resource_usage w).
Proof.
  intros [self tr]. destruct (container self) as [c|] eqn:Hc.
  - rewrite (get_resource_usage_live w self tr c Hc).
    destruct (monitor_resources_calls w c tr) as [u Hu]. rewrite Hu. cbn.
    kept.
  - unfold get_resource_usage, bind, self_, gets. cbn. rewrite Hc.
    apply keeps_refl.
Qed.

Lemma sandboxed_body_keeping code :
  keeping (CodeExecutionTool.sandboxed_body w code).
Proof.
  unfold CodeExecutionTool.sandboxed_body.
  apply keeping_bind; [apply execute_in_container_keeping|]. intros r.
  apply keeping_bind; [apply get_resource_usage_keeping|]. intros u.
  destruct (u_success u); [|apply keeping_ret].
  destruct (cpu_percent u), (memory_mb u);
    (apply keeping_ret || apply keeping_raise).
Qed.

Lemma scoped_keeps {A} (body : Py State A) s1 :
  keeping body ->
  exists evs,
    snd (match enter w s1 with
         | (Raise e, s2) => (@Raise A e, snd s2)
         | (Return _, s2) =>
             let '(o, s3) := body s2 in
             match exit w s3 with
             | (Raise e, s4) => (Raise e, snd s4)
             | (Return _, s4) => (o, snd s4)
             end
         end) = (snd s1 ++ evs)%list
    /\ Forall (configured_by (create_args_of (fst s1))) evs.
Proof.
  intros Hbody.
  assert (K1 : keeps s1 (snd (enter w s1))).
  { apply (keeping_bind (create_container w) (fun _ => ret tt));
      [apply create_container_keeping | intros; apply keeping_ret]. }
  destruct (enter w s1) as [[[]|e1] s2]; cbn [snd] in K1.
  - pose proof (Hbody s2) as K2. destruct (body s2) as [ob s3]. cbn [snd] in K2.
    assert (K3 : keeps s3 (snd (exit w s3))).
    { apply (keeping_bind (cleanup w) (fun _ => ret tt));
        [apply cleanup_keeping | intros; apply keeping_ret]. }
    pose proof (keeps_trans _ _ _ (keeps_trans _ _ _ K1 K2) K3) as K.
    destruct (exit w s3) as [[[]|e] s4]; cbn [snd] in K |- *;
      now destruct K as (_ & evs & E & F); exists evs.
  - cbn [snd]. now destruct K1 as (_ & evs & E & F); exists evs.
Qed.

Lemma with_sandbox_keeps {A} image timeout mem cpu (body : Py State A) tr0 :
  keeping body ->
  exists events,
    snd (with_sandbox w (init w image timeout mem cpu) body tr0)
    = (tr0 ++ events)%list
    /\ Forall (configured_by (create_args_of (mk image timeout mem cpu None)))
         events.
Proof.
  intros Hbody. unfold with_sandbox, init.
  destruct (docker_from_env w tr0) as [e0|].
  - exists [EvFromEnv (Some e0)]. split; [reflexivity|]. now repeat constructor.
  - destruct (scoped_keeps body
                (mk image timeout mem cpu None, (tr0 ++ [EvFromEnv None])%list)
                Hbody) as (evs & E & F).
    exists ([EvFromEnv None] ++ evs)%list. split.
    + cbn [fst snd] in E. rewrite app_assoc. exact E.
    + apply Forall_app. split; [now repeat constructor | exact F].
Qed.

(** The containers [_execute_sandboxed] creates carry the limits of the
    tool, and it never calls [update]. *)
Lemma execute_sandboxed_configured self code timeout tr0 :
  exists events,
    snd (CodeExecutionTool._execute_sandboxed w self code timeout tr0)
    = (tr0 ++ events)%list
    /\ existsb is_update events = false
    /\ (forall args r,
          In (EvContainersCreate args r) events ->
          ca_mem_limit args
          = str_of_Z (CodeExecutionTool.memory_limit_mb self) ++ "m"
          /\ cpu_quota_of (CodeExecutionTool.cpu_limit self)
             = inr (ca_cpu_quota args)).
Proof.
  destruct (with_sandbox_keeps default_image timeout
              (CodeExecutionTool.memory_limit_mb self)
              (CodeExecutionTool.cpu_limit self)
              (CodeExecutionTool.sandboxed_body w code) tr0
              (sandboxed_body_keeping code)) as (events & E & F).
  exists events. split; [|split].
  - unfold CodeExecutionTool._execute_sandboxed, try_except.
    now destruct (with_sandbox w _ _ tr0) as [[r|e] tr].
  - clear E. induction F as [|ev evs Hev _ IH]; [reflexivity|]. cbn.
    rewrite IH. now destruct ev.
  - intros args r Hin. rewrite Forall_forall in F.
    specialize (F _ Hin). cbn in F. unfold create_args_of in F. cbn in F.
    destruct (cpu_quota_of (CodeExecutionTool.cpu_limit self));
      [discriminate|].
    injection F as <-. now split.
Qed.

End Keeping.

(** ** A container that was created is held by the object *)

Lemma holds_refl s : holds s s.
Proof. exists []. rewrite app_nil_r. now split. Qed.

Lemma holds_trans s1 s2 s3 : holds s1 s2 -> holds s2 s3 -> holds s1 s3.
Proof.
  intros (e1 & H1 & Q1) (e2 & H2 & Q2).
  exists (e1 ++ e2)%list. split.
  - rewrite H2, H1. now rewrite app_assoc.
  - intros Hc. destruct (Q2 Hc) as [Hc2 Hq2]. destruct (Q1 Hc2) as [Hc1 Hq1].
    split; auto. rewrite existsb_app. now rewrite Hq1, Hq2.
Qed.

Lemma holding_bind {A B} (m : Py State A) (k : A -> Py State B) :
  holding m -> (forall a, holding (k a)) -> holding (bind m k).
Proof.
  intros Hm Hk s. unfold bind. specialize (Hm s).
  destruct (m s) as [[a|e] s']; cbn in *; auto.
  eapply holds_trans; [exact Hm | apply Hk].
Qed.

Section Holding.
Variable w : World.

Lemma create_container_holding : holding (create_container w).
Proof.
  intros [self tr].
  unfold create_container, try_except, bind, self_, gets, call, on_trace,
    modify, ret, raise, of_sum. cbn.
  crack; (eexists; split; [rewrite <- ?app_assoc; reflexivity|]); cbn;
    intros Hc; try discriminate Hc; now split.
Qed.

Lemma run_in_container_holding code : holding (run_in_container w code).
Proof.
  intros [self tr]. destruct (container self) as [c|] eqn:Hc.
  - rewrite (run_in_container_eq w code self tr c Hc). cbn [snd].
    eexists. split; [reflexivity|]. cbn. now split.
  - unfold run_in_container, try_except, bind, exec_run, self_, gets.
    cbn. rewrite Hc. apply holds_refl.
Qed.

Lemma execute_in_container_holding code :
  holding (execute_in_container w code).
Proof.
  unfold execute_in_container.
  apply holding_bind; [intros s; apply holds_refl|]. intros self.
  destruct (container self).
  - apply run_in_container_holding.
  - apply holding_bind; [apply create_container_holding|]. intros r.
    destruct (negb (st_success r));
      [intros s; apply holds_refl | apply run_in_container_holding].
Qed.

Lemma get_resource_usage_holding : holding (get_resource_usage w).
Proof.
  intros [self tr]. destruct (container self) as [c|] eqn:Hc.
  - rewrite (get_resource_usage_live w self tr c Hc).
    destruct (monitor_resources_calls w c tr) as [u Hu]. rewrite Hu. cbn.
    eexists. split; [reflexivity|]. cbn. now split.
  - unfold get_resource_usage, bind, self_, gets. cbn. rewrite Hc.
    apply holds_refl.
Qed.

Lemma sandboxed_body_holding code :
  holding (CodeExecutionTool.sandboxed_body w code).
Proof.
  unfold CodeExecutionTool.sandboxed_body.
  apply holding_bind; [apply execute_in_container_holding|]. intros r.
  apply holding_bind; [apply get_resource_usage_holding|]. intros u.
  destruct (u_success u); [|intros s; apply holds_refl].
  destruct (cpu_percent u), (memory_mb u); intros s; apply holds_refl.
Qed.

(** Where the body of the [with] statement of [_execute_sandboxed] ends,
    whether it returns or raises: [docker.from_env] and the calls of
    [__enter__] and of the body were made, and a container that was created
    is held by the object. *)
Lemma sandboxed_body_exit image timeout mem cpu code tr0 sb tr1 s2 o s3 :
  init w image timeout mem cpu tr0 = (Return sb, tr1) ->
  enter w (sb, tr1) = (Return tt, s2) ->
  CodeExecutionTool.sandboxed_body w code s2 = (o, s3) ->
  exists evs,
    snd s3 = (tr0 ++ EvFromEnv None :: evs)%list
    /\ (container (fst s3) = None -> existsb is_created evs = false).
Proof.
  intros Hinit Henter Hbody. unfold init in Hinit.
  destruct (docker_from_env w tr0); [discriminate Hinit|].
  injection Hinit as <- <-.
  pose proof (create_container_holding
                (mk image timeout mem cpu None,
                 (tr0 ++ [EvFromEnv None])%list)) as H1.
  rewrite <- (proj1 (enter_create w _)) in H1. unfold Trace in *.
  rewrite Henter in H1. cbn [snd] in H1.
  pose proof (sandboxed_body_holding code s2) as H2.
  rewrite Hbody in H2. cbn [snd] in H2.
  destruct (holds_trans _ _ _ H1 H2) as (evs & E & Q).
  exists evs. cbn [snd] in E. rewrite <- app_assoc in E.
  split; [exact E|]. intros Hc. now apply Q.
Qed.

End Holding.

(** C4.  Every run of [_execute_sandboxed] returns a result, whatever the
    Docker engine answers (completion, non-zero exit, a deadline or any
    other exception raised by [exec_run], failures of provisioning or of
    teardown).  If a command was submitted to a container, the calls end
    with those of [cleanup]: [stop], then [remove] unless [stop] raised.  If
    a container was started, the environment ends [Destroyed] or
    [TeardownFailed].  In no case is it left [Executing].  And on every exit
    of the body of the [with] statement, whether it returns a result or an
    exception escapes it, [cleanup] is what runs next, on the object as the
    body left it, and it makes the last calls: [stop], then [remove], as
    soon as the object holds a container, which it does whenever
    [containers.create] returned one.  An exception that escaped the body
    is then reported as a failure tagged with its class name. *)
Theorem sandbox_always_torn_down w self code timeout tr0 :
  exists r events,
    CodeExecutionTool._execute_sandboxed w self code timeout tr0
    = (Return r, (tr0 ++ events)%list)
    /\ (existsb is_exec_run events = true -> ends_with_cleanup events)
    /\ (existsb is_started events = true ->
        ends_with_cleanup events
        /\ (lifecycle events = Destroyed \/ lifecycle events = TeardownFailed))
    /\ lifecycle events <> Executing
    /\ (forall sb tr1 s2 o s3,
          init w default_image timeout
            (CodeExecutionTool.memory_limit_mb self)
            (CodeExecutionTool.cpu_limit self) tr0 = (Return sb, tr1) ->
          enter w (sb, tr1) = (Return tt, s2) ->
          CodeExecutionTool.sandboxed_body w code s2 = (o, s3) ->
          (tr0 ++ events)%list = snd (snd (cleanup w s3))
          /\ (container (fst s3) <> None -> ends_with_cleanup events)
          /\ (existsb is_created events = true -> ends_with_cleanup events)
          /\ (forall e st s4,
                o = Raise e -> cleanup w s3 = (Return st, s4) ->
                r = mkResult false None (Some (exc_str e))
                      (Some (exc_name e)) (Some true) None)).
Proof.
  destruct (execute_sandboxed_calls w self code timeout tr0)
    as (r & events & Hr & Hs).
  exists r, events. split; [exact Hr|].
  destruct (settled_torn_down events Hs) as (T1 & T2 & T3).
  split; [exact T1|]. split; [exact T2|]. split; [exact T3|].
  intros sb tr1 s2 o s3 Hinit Henter Hbody.
  destruct (sandboxed_body_exit w _ _ _ _ _ _ _ _ _ _ _ Hinit Henter Hbody)
    as (evs & E & Q).
  assert (Htrace : (tr0 ++ events)%list = snd (snd (cleanup w s3))
                   /\ forall e st s4,
                        o = Raise e -> cleanup w s3 = (Return st, s4) ->
                        r = mkResult false None (Some (exc_str e))
                              (Some (exc_name e)) (Some true) None).
  { revert Hr.
    unfold CodeExecutionTool._execute_sandboxed, try_except, with_sandbox.
    rewrite Hinit, Henter, Hbody. unfold exit, bind.
    destruct (cleanup w s3) as [[st|e'] s4]; cbn [snd ret].
    - destruct o as [r0|e]; intros Hr; injection Hr as <- <-;
        (split; [reflexivity|]); intros e0 st0 s0 Ho _;
        [discriminate Ho | now injection Ho as <-].
    - intros Hr. injection Hr as <- <-. split; [reflexivity|].
      intros e0 st0 s0 _ Hcl. discriminate Hcl. }
  destruct Htrace as [Htrace Hraise].
  assert (Hheld : container (fst s3) <> None -> ends_with_cleanup events).
  { intros Hc. pose proof (cleanup_calls w s3) as Hcl.
    destruct (container (fst s3)); [|now destruct Hc].
    destruct Hcl as [(e & Hcl) | (x & Hcl)];
      rewrite Hcl, E, <- app_assoc in Htrace;
      apply app_inv_head in Htrace; rewrite Htrace;
      [left; exists (EvFromEnv None :: evs), e
      |right; exists (EvFromEnv None :: evs), x]; reflexivity. }
  split; [exact Htrace|]. split; [exact Hheld|]. split; [|exact Hraise].
  intros Hcreated. apply Hheld. intros Hc.
  pose proof (cleanup_calls w s3) as Hcl. rewrite Hc in Hcl.
  rewrite Hcl, E in Htrace. apply app_inv_head in Htrace.
  rewrite Htrace in Hcreated. cbn in Hcreated.
  rewrite (Q Hc) in Hcreated. discriminate Hcreated.
Qed.

Lemma sandbox_always_torn_down_witness :
  (exists r events,
      CodeExecutionTool._execute_sandboxed slow_world (a_tool true) sleep_10
        5 []
      = (Return r, events)
      /\ existsb is_exec_run events = true
      /\ ends_with_cleanup events
      /\ lifecycle events = Destroyed)
  /\ (exists r events,
         CodeExecutionTool._execute_sandboxed late_start_world (a_tool true)
           "print(1+1)" 30 []
         = (Return r, events)
         /\ error_type r = Some "ReadTimeout"
         /\ existsb is_exec_run events = false
         /\ existsb is_started events = false
         /\ existsb is_created events = true
         /\ ends_with_cleanup events).
Proof.
  split.
  - destruct (sandbox_always_torn_down slow_world (a_tool true) sleep_10 5 [])
      as (r & events & Hr & Hexec & _).
    exists r, events. split; [exact Hr|].
    vm_compute in Hr. injection Hr as _ <-.
    split; [reflexivity|]. split; [apply Hexec; reflexivity | reflexivity].
  - destruct (sandbox_always_torn_down late_start_world (a_tool true)
                "print(1+1)" 30 [])
      as (r & events & Hr & _ & _ & _ & Hexit).
    exists r, events. split; [exact Hr|].
    destruct (Hexit _ _ _ _ _ eq_refl eq_refl eq_refl)
      as (_ & _ & Hcreated & _).
    vm_compute in Hr. injection Hr as <- <-.
    repeat (split; [reflexivity|]). apply Hcreated. reflexivity.
Defined.

(** A run in which the exception escapes the body: the first attempt to
    provision fails, [__enter__] returns all the same, the body provisions
    again, and [start] raises after the container was created.  The calls
    end with [stop] and [remove]. *)
Example cleanup_follows_an_exception_of_the_body :
  CodeExecutionTool._execute_sandboxed late_start_world (a_tool true)
    "print(1+1)" 30 []
  = (Return (mkResult false None (Some (exc_str ReadTimeout_5))
               (Some "ReadTimeout") (Some true) None),
     [EvFromEnv None;
      EvImagesGet default_image (Some DockerException_down);
      EvImagesGet default_image None;
      EvContainersCreate default_args None;
      EvStart (Some ReadTimeout_5);
      EvStop 1 None;
      EvRemove None]).
Proof. vm_compute. reflexivity. Qed.

(** ** The invariant of results *)

Lemma well_formed_failure o msg tag sb u :
  well_formed (mkResult false o (Some msg) (Some tag) sb u).
Proof. split; cbn; intros H; [split|]; discriminate. Qed.

Lemma well_formed_success o sb u :
  well_formed (mkResult true o None None sb u).
Proof. split; cbn; intros H; [discriminate|split; reflexivity]. Qed.

Lemma well_formed_set_sandboxed b r :
  well_formed r -> well_formed (set_sandboxed b r).
Proof. now destruct r. Qed.

Lemma well_formed_set_resource_usage u r :
  well_formed r -> well_formed (set_resource_usage u r).
Proof. now destruct r. Qed.

Lemma well_formed_syntax_failure v sb :
  (valid v = false -> validation_error v <> None) ->
  negb (valid v) = true ->
  well_formed
    (mkResult false None (validation_error v) (Some "SyntaxError") sb None).
Proof.
  intros H Hv. apply negb_true_iff in Hv. specialize (H Hv).
  split; cbn; intros H'; [split|]; congruence.
Qed.

Section WellFormed.
Variable w : World.

Lemma direct_execute_well_formed ex code timeout :
  returns_only well_formed (CodeExecutor.execute w ex code timeout).
Proof.
  unfold CodeExecutor.execute.
  eapply returns_only_bind_with; [apply validate_syntax_reports|].
  intros v Hv. destruct (negb (valid v)) eqn:Hvalid.
  - apply returns_only_ret. now apply well_formed_syntax_failure.
  - apply returns_only_try_except.
    + apply returns_only_bind. intros [[rc out] err].
      destruct (rc =? 0)%Z; apply returns_only_ret;
        [apply well_formed_success | apply well_formed_failure].
    + intros e. destruct (isinstance e "TimeoutExpired");
        apply returns_only_ret, well_formed_failure.
Qed.

Lemma run_in_container_well_formed code :
  returns_only well_formed (run_in_container w code).
Proof.
  unfold run_in_container. apply returns_only_try_except.
  - apply returns_only_bind. intros [rc [out err]].
    apply returns_only_bind. intros stdout.
    apply returns_only_bind. intros stderr.
    destruct (rc =? 0)%Z; apply returns_only_ret;
      [apply well_formed_success | apply well_formed_failure].
  - intros e. apply returns_only_ret, well_formed_failure.
Qed.

Lemma execute_in_container_well_formed code :
  returns_only well_formed (execute_in_container w code).
Proof.
  unfold execute_in_container. apply returns_only_bind. intros self.
  destruct (container self).
  - apply run_in_container_well_formed.
  - apply returns_only_bind. intros st.
    destruct (negb (st_success st)).
    + apply returns_only_ret, well_formed_failure.
    + apply run_in_container_well_formed.
Qed.

Lemma with_sandbox_returns_only {A} (P : A -> Prop) ctor body :
  returns_only P body -> returns_only P (with_sandbox w ctor body).
Proof.
  intros Hb tr a tr' E. unfold with_sandbox in E.
  destruct (ctor tr) as [[sb|e] tr1]; [|discriminate].
  destruct (enter w (sb, tr1)) as [[[]|e] s2]; [|discriminate].
  destruct (body s2) as [o s3] eqn:Eb.
  destruct (exit w s3) as [[[]|e] s4]; [|discriminate].
  inversion E; subst. eapply Hb, Eb.
Qed.

Lemma execute_sandboxed_well_formed self code timeout :
  returns_only well_formed
    (CodeExecutionTool._execute_sandboxed w self code timeout).
Proof.
  unfold CodeExecutionTool._execute_sandboxed.
  apply returns_only_try_except.
  - apply with_sandbox_returns_only.
    unfold CodeExecutionTool.sandboxed_body.
    eapply returns_only_bind_with;
      [apply execute_in_container_well_formed|].
    intros r Hr. apply returns_only_bind. intros u.
    destruct (u_success u).
    + destruct (cpu_percent u), (memory_mb u);
        try apply returns_only_raise.
      apply returns_only_ret, well_formed_set_resource_usage,
        well_formed_set_sandboxed, Hr.
    + apply returns_only_ret, well_formed_set_sandboxed, Hr.
  - intros e. apply returns_only_ret, well_formed_failure.
Qed.

Lemma tool_execute_well_formed self code sandbox timeout :
  returns_only well_formed
    (CodeExecutionTool.execute w self code sandbox timeout).
Proof.
  unfold CodeExecutionTool.execute.
  eapply returns_only_bind_with; [apply validate_syntax_reports|].
  intros v Hv. destruct (negb (valid v)) eqn:Hvalid.
  - apply returns_only_ret. now apply well_formed_syntax_failure.
  - destruct (CodeExecutionTool.use_sandbox self
              || CodeExecutionTool.truthy sandbox).
    + apply execute_sandboxed_well_formed.
    + eapply returns_only_bind_with; [apply direct_execute_well_formed|].
      intros r Hr. apply returns_only_ret, well_formed_set_sandboxed, Hr.
Qed.

End WellFormed.

(** C2.  Every result returned by [CodeExecutor.execute], by
    [SandboxExecutor.execute_in_container] or by [CodeExecutionTool.execute]
    is well formed: with [success = False] the [error] message is not
    [None] and an error kind is set; with [success = True] both are
    [None]. *)
Theorem results_are_well_formed w :
  (forall ex code timeout tr r tr',
      CodeExecutor.execute w ex code timeout tr = (Return r, tr') ->
      well_formed r)
  /\ (forall code s r s',
         SandboxExecutor.execute_in_container w code s = (Return r, s') ->
         well_formed r)
  /\ (forall self code sandbox timeout tr r tr',
         CodeExecutionTool.execute w self code sandbox timeout tr
         = (Return r, tr') ->
         well_formed r).
Proof.
  split; [|split].
  - intros ex code timeout. apply direct_execute_well_formed.
  - intros code. apply execute_in_container_well_formed.
  - intros self code sandbox timeout. apply tool_execute_well_formed.
Qed.

Lemma results_are_well_formed_witness :
  well_formed (mkResult false None (Some (exc_str ReadTimeout_5))
                 (Some "ReadTimeout") None None)
  /\ well_formed (mkResult true (Some two_line) None None (Some false) None).
Proof.
  destruct (results_are_well_formed slow_world) as (_ & Hs & _).
  destruct (results_are_well_formed cpython_world) as (_ & _ & Ht).
  split.
  - apply (Hs sleep_10 (live_sandbox 5, []) _
              (live_sandbox 5,
               [EvExecRun (python_c sleep_10) 5 (ExecRaised ReadTimeout_5)])).
    reflexivity.
  - apply (Ht (a_tool false) "print(1+1)" None None [] _
              [EvSubprocessRun "print(1+1)" 30
                 (RunCompleted 0 two_line EmptyString)]).
    reflexivity.
Defined.

(** ** Exit status and captured output *)




(** ** Failures of the infrastructure *)

(** C6, as stated, fails in direct mode: the spawn fails with the built-in
    [TimeoutError]; the catch-all handler tags the result with the class
    name, which is the tag of a passed deadline: the kind reads [Timeout],
    not [Internal].  It fails in the sandbox as well: when provisioning fails
    with an exception that is no [DockerException], [execute_in_container]
    returns no result and raises. *)
Lemma spawn_failure_tagged_as_timeout :
  subprocess_run stalled_spawn_world [] "print(1+1)" 30
  = RunRaised OSError_timed_out
  /\ isinstance OSError_timed_out "TimeoutExpired" = false
  /\ fst (CodeExecutor.execute stalled_spawn_world (CodeExecutor.mk 30)
            "print(1+1)" None [])
     = Return (mkResult false None (Some "[Errno 110] Connection timed out")
                 (Some "TimeoutError") None None)
  /\ error_kind (mkResult false None
                   (Some "[Errno 110] Connection timed out")
                   (Some "TimeoutError") None None)
     = Some Timeout
  /\ fst (SandboxExecutor.execute_in_container unreachable_daemon_world
            "print(1)" (fresh_sandbox 30, []))
     = Raise ConnectionError_requests
  /\ ~ (forall w ex code tr e,
          ast_parse w code = Parsed ->
          subprocess_run w tr code (CodeExecutor.default_timeout ex)
          = RunRaised e ->
          isinstance e "TimeoutExpired" = false ->
          exists r,
            fst (CodeExecutor.execute w ex code None tr) = Return r
            /\ error_kind r = Some Internal).
Proof.
  repeat (split; [reflexivity|]).
  intros H.
  destruct (H stalled_spawn_world (CodeExecutor.mk 30) "print(1+1)" []
              OSError_timed_out eq_refl eq_refl eq_refl) as (r & Hr & Hk).
  vm_compute in Hr. injection Hr as <-. discriminate Hk.
Qed.

(** C6, amended.  When [subprocess.run] raises anything but
    [TimeoutExpired], the direct executor returns a failure whose message is
    [str(e)] and whose tag is the class name of [e]; its kind is [Internal]
    unless that name is one of the three tags the code writes itself.  When
    [create_container] reports a failure, which it does when the last of its
    calls to Docker raised a [DockerException] [e], [execute_in_container]
    returns a failure tagged ["ContainerError"], of kind [Internal], whose
    message is ["Container creation failed: "] followed by [str(e)] for
    that same [e].  When [create_container] raises, which it does for any
    other exception, raised by the last of its calls or by [int] on the
    share of a processor, [execute_in_container] raises it as well. *)
Theorem infrastructure_failures_are_reported :
  (forall w ex code timeout tr e,
      ast_parse w code = Parsed ->
      subprocess_run w tr code
        match timeout with
        | None => CodeExecutor.default_timeout ex
        | Some t => t
        end
      = RunRaised e ->
      isinstance e "TimeoutExpired" = false ->
      exists r,
        fst (CodeExecutor.execute w ex code timeout tr) = Return r
        /\ success r = false
        /\ output r = None
        /\ error r = Some (exc_str e)
        /\ error_type r = Some (exc_name e)
        /\ (~ In (exc_name e) reserved_tags -> error_kind r = Some Internal))
  /\ (forall w code self tr st s',
         container self = None ->
         create_container w (self, tr) = (Return st, s') ->
         st_success st = false ->
         exists r e evs,
           SandboxExecutor.execute_in_container w code (self, tr)
           = (Return r, s')
           /\ snd s' = (tr ++ evs)%list
           /\ provisioning_raised evs e
           /\ isinstance e "DockerException" = true
           /\ st_error st = Some (exc_str e)
           /\ success r = false
           /\ output r = None
           /\ error r = Some ("Container creation failed: " ++ exc_str e)
           /\ error_type r = Some "ContainerError"
           /\ error_kind r = Some Internal)
  /\ (forall w code self tr e s',
         container self = None ->
         create_container w (self, tr) = (Raise e, s') ->
         isinstance e "DockerException" = false
         /\ ((exists evs,
                snd s' = (tr ++ evs)%list /\ provisioning_raised evs e)
             \/ cpu_quota_of (cpu_limit self) = inl e)
         /\ SandboxExecutor.execute_in_container w code (self, tr)
            = (Raise e, s')).
Proof.
  split; [|split].
  - intros w ex code timeout tr e Hp Hr He.
    rewrite (direct_execute_valid w ex code timeout tr Hp). cbn [fst].
    rewrite Hr. unfold direct_result. rewrite He.
    eexists. split; [reflexivity|]. cbn. repeat split.
    intros Hn. unfold error_kind. cbn. now rewrite kind_of_tag_internal.
  - intros w code self tr st s' Hc Hcr Hs.
    rewrite (execute_in_container_unprovisioned w code self tr st s' Hc Hcr Hs).
    pose proof (create_container_failure w (self, tr)) as Hf.
    rewrite Hcr in Hf. destruct (Hf Hs) as (e & evs & Ht & Hp & Hd & He).
    rewrite He.
    eexists _, e, evs. split; [reflexivity|]. cbn. now repeat split.
  - intros w code self tr e s' Hc Hcr.
    pose proof (create_container_failure w (self, tr)) as Hf.
    rewrite Hcr in Hf. destruct Hf as [Hd Hwho].
    split; [exact Hd|]. split; [exact Hwho|].
    unfold execute_in_container, bind, self_, gets. cbn.
    now rewrite Hc, Hcr.
Qed.

Lemma infrastructure_failures_are_reported_witness :
  (exists r,
      fst (CodeExecutor.execute missing_python_world (CodeExecutor.mk 30)
             "print(1+1)" None []) = Return r
      /\ error_type r = Some "FileNotFoundError"
      /\ error_kind r = Some Internal)
  /\ (exists r,
         fst (SandboxExecutor.execute_in_container docker_down_world
                "print(1)" (fresh_sandbox 30, [])) = Return r
         /\ error r
            = Some ("Container creation failed: "
                    ++ exc_str DockerException_down)
         /\ error_type r = Some "ContainerError"
         /\ error_kind r = Some Internal).
Proof.
  destruct infrastructure_failures_are_reported as (Hd & Hs & _). split.
  - destruct (Hd missing_python_world (CodeExecutor.mk 30) "print(1+1)" None
                [] FileNotFoundError_python eq_refl eq_refl eq_refl)
      as (r & Hr & _ & _ & _ & Ht & Hk).
    exists r. split; [exact Hr|]. split; [exact Ht|]. apply Hk.
    cbn. intros [H|[H|[H|[]]]]; discriminate H.
  - destruct (Hs docker_down_world "print(1)" (fresh_sandbox 30) []
                (mkStatus false (Some "Error while fetching server API version"))
                (fresh_sandbox 30,
                 [EvImagesGet default_image (Some DockerException_down)])
                eq_refl eq_refl eq_refl)
      as (r & e & evs & Hr & Ht & (ev & Hl & _ & Hraised) & _ & _ & _ & _
          & Herr & Htag & Hk).
    exists r. split; [exact (f_equal fst Hr)|].
    cbn [snd app] in Ht. subst evs.
    cbn in Hl. injection Hl as <-. cbn in Hraised. injection Hraised as <-.
    split; [exact Herr|]. split; assumption.
Defined.

(** The share of a processor is not a number: [int] raises a [ValueError]
    once the image is there, no container is created, and the exception
    leaves [execute_in_container]. *)
Example quota_of_a_nan_raises :
  execute_in_container calm_world "print(1)"
    (mk default_image 30 128 (NFloat S754_nan) None, [])
  = (Raise (ValueError "cannot convert float NaN to integer"),
     (mk default_image 30 128 (NFloat S754_nan) None,
      [EvImagesGet default_image None])).
Proof. vm_compute. reflexivity. Qed.

(** ** Deadlines *)

Lemma sandbox_exception_is_passed_on w code self tr c e :
  container self = Some c ->
  container_exec_run w tr (python_c code) (timeout self) = ExecRaised e ->
  fst (execute_in_container w code (self, tr)) = Return (failure_of e).
Proof.
  intros Hc Hr.
  rewrite (execute_in_container_live w code self tr c Hc). cbn [fst].
  unfold container_result. now rewrite Hr.
Qed.

(** C3.  The code sleeps for 10 seconds under a deadline of 5.  In direct
    mode [subprocess.run] raises [TimeoutExpired] and the result is tagged
    ["TimeoutError"].  In the sandbox the exception [exec_run] raises at the
    deadline meets the catch-all handler only: the result is tagged with its
    class name, here ["ReadTimeout"], whose kind is [Internal]; the same
    result comes out of the orchestrator. *)
Theorem sandbox_deadline_is_not_tagged_timeout :
  fst (CodeExecutor.execute slow_world (CodeExecutor.mk 30) sleep_10
         (Some 5%Z) [])
  = Return (mkResult false None (Some "Execution timed out after 5 seconds")
              (Some "TimeoutError") None None)
  /\ fst (SandboxExecutor.execute_in_container slow_world sleep_10
            (live_sandbox 5, []))
     = Return (mkResult false None (Some (exc_str ReadTimeout_5))
                 (Some "ReadTimeout") None None)
  /\ error_kind (mkResult false None (Some (exc_str ReadTimeout_5))
                   (Some "ReadTimeout") None None)
     = Some Internal
  /\ (exists r,
         fst (CodeExecutionTool.execute slow_world (a_tool true) sleep_10
                None (Some 5%Z) []) = Return r
         /\ success r = false
         /\ error_type r = Some "ReadTimeout"
         /\ sandboxed r = Some true).
Proof.
  split; [reflexivity|]. split; [reflexivity|]. split; [reflexivity|].
  eexists. split; [vm_compute; reflexivity|]. repeat split.
Qed.

(** ** Exceptions that cross the boundary *)

(** C7.  [ast.parse] raises [ValueError] on a source that holds a NUL
    character; [validate_syntax] catches [SyntaxError] only, and nothing
    above it catches anything: the exception leaves [execute], in both
    modes, and leaves the direct executor. *)
Theorem parser_exception_escapes_execute :
  CodeExecutionTool.execute cpython_world (a_tool false) nul_source None None []
  = (Raise ValueError_nul, [])
  /\ CodeExecutionTool.execute cpython_world (a_tool true) nul_source None
       None []
     = (Raise ValueError_nul, [])
  /\ CodeExecutor.execute cpython_world (CodeExecutor.mk 30) nul_source None []
     = (Raise ValueError_nul, []).
Proof. repeat split. Qed.

(** Apart from that, [execute] always returns a result. *)
Lemma execute_returns_unless_parser_raises w self code sandbox timeout tr :
  (forall e, ast_parse w code <> ParseRaised e) ->
  exists r,
    fst (CodeExecutionTool.execute w self code sandbox timeout tr) = Return r.
Proof.
  intros Hp. destruct (ast_parse w code) as [|lineno msg|e] eqn:Hparse.
  - destruct (CodeExecutionTool.use_sandbox self
              || CodeExecutionTool.truthy sandbox) eqn:Hs.
    + rewrite (tool_execute_sandboxed w self code sandbox timeout tr Hparse Hs).
      destruct (execute_sandboxed_calls w self code
                  (CodeExecutionTool.timeout_or timeout
                     (CodeExecutionTool.timeout self)) tr)
        as (r & events & Hr & _).
      exists r. now rewrite Hr.
    + apply orb_false_elim in Hs as [Hu Ht].
      rewrite (tool_execute_direct w self code sandbox timeout tr Hparse Hu Ht).
      eexists. reflexivity.
  - destruct (tool_execute_syntax_error w self code sandbox timeout tr
                lineno msg Hparse) as (err & Hr).
    eexists. now rewrite Hr.
  - now destruct (Hp e).
Qed.

(** ** Usage samples *)

Lemma compute_usage_value {S} stats total pretotal system presystem mem
  usage limit (s : S) :
  lookup stats ["cpu_stats"; "cpu_usage"; "total_usage"] = Some (PInt total) ->
  lookup stats ["precpu_stats"; "cpu_usage"; "total_usage"]
  = Some (PInt pretotal) ->
  lookup stats ["cpu_stats"; "system_cpu_usage"] = Some (PInt system) ->
  lookup stats ["precpu_stats"; "system_cpu_usage"] = Some (PInt presystem) ->
  lookup stats ["memory_stats"] = Some (PDict mem) ->
  entry_or_zero mem "usage" = PInt usage ->
  entry_or_zero mem "limit" = PInt limit ->
  ResourceLimiter.compute_usage stats s
  = (match sample_of (total - pretotal) (system - presystem) usage limit with
     | inr u => Return u
     | inl e => Raise e
     end, s).
Proof.
  intros H1 H2 H3 H4 H5 Hu Hl.
  destruct stats as [n|items]; [discriminate|].
  cbn in H1, H2, H3, H4, H5.
  destruct (assoc "cpu_stats" items) as [[|cs]|] eqn:Ecs; try discriminate.
  destruct (assoc "precpu_stats" items) as [[|ps]|] eqn:Eps; try discriminate.
  destruct (assoc "memory_stats" items) as [ms|] eqn:Ems; try discriminate.
  injection H5 as ->.
  destruct (assoc "cpu_usage" cs) as [[|cu]|] eqn:Ecu; try discriminate.
  destruct (assoc "cpu_usage" ps) as [[|pu]|] eqn:Epu; try discriminate.
  destruct (assoc "total_usage" cu) as [v1|] eqn:E1; try discriminate.
  destruct (assoc "total_usage" pu) as [v2|] eqn:E2; try discriminate.
  destruct (assoc "system_cpu_usage" cs) as [v3|] eqn:E3; try discriminate.
  destruct (assoc "system_cpu_usage" ps) as [v4|] eqn:E4; try discriminate.
  injection H1 as ->. injection H2 as ->. injection H3 as ->.
  injection H4 as ->.
  unfold entry_or_zero in Hu, Hl.
  unfold ResourceLimiter.compute_usage, bind, ResourceLimiter.getitem,
    ResourceLimiter.dict_get, ret.
  rewrite Ecs, Eps, Ems, Ecu, Epu, E1, E2, E3, E4. cbn.
  unfold sample_of, cpu_percent_of, mebibytes_of, memory_percent_of.
  change (1024 * 1024)%Z with 1048576%Z.
  destruct (assoc "usage" mem) as [vu|]; destruct (assoc "limit" mem) as [vl|];
    repeat match goal with
           | H : PInt _ = PInt _ |- _ => injection H as <-
           | H : ?v = PInt _ |- _ => subst v
           end;
    (destruct (0 <? system - presystem)%Z; unfold of_sum;
     [destruct (int_truediv (total - pretotal) (system - presystem))
        as [e|q]; [reflexivity|]|]);
    cbn; unfold of_sum, bind, ret, raise;
    repeat (match goal with
            | |- context [int_truediv ?u ?l] => destruct (int_truediv u l)
            | |- context [(0 <? ?l)%Z] => destruct (0 <? l)%Z
            end; cbn);
    reflexivity.
Qed.

Lemma monitor_resources_value w c tr stats total pretotal system presystem
  mem usage limit :
  container_stats w tr = inr stats ->
  lookup stats ["cpu_stats"; "cpu_usage"; "total_usage"] = Some (PInt total) ->
  lookup stats ["precpu_stats"; "cpu_usage"; "total_usage"]
  = Some (PInt pretotal) ->
  lookup stats ["cpu_stats"; "system_cpu_usage"] = Some (PInt system) ->
  lookup stats ["precpu_stats"; "system_cpu_usage"] = Some (PInt presystem) ->
  lookup stats ["memory_stats"] = Some (PDict mem) ->
  entry_or_zero mem "usage" = PInt usage ->
  entry_or_zero mem "limit" = PInt limit ->
  ResourceLimiter.monitor_resources w c tr
  = (Return
       match sample_of (total - pretotal) (system - presystem) usage limit
       with
       | inr u => u
       | inl e => failed_sample e
       end,
     (tr ++ [EvStats (inr stats)])%list).
Proof.
  intros Hs H1 H2 H3 H4 H5 Hu Hl.
  unfold ResourceLimiter.monitor_resources, try_except, bind,
    ResourceLimiter.container_stats_call.
  rewrite Hs.
  rewrite (compute_usage_value stats total pretotal system presystem mem
             usage limit _ H1 H2 H3 H4 H5 Hu Hl).
  now destruct (sample_of _ _ _ _).
Qed.

(** A sample whose stats lack a counter is a failure, not a 0: the
    [KeyError] is caught and its text returned. *)
Lemma sample_without_baseline_fails :
  fst (ResourceLimiter.monitor_resources first_sample_world ContainerObj [])
  = Return (mkUsage false None None None (Some "'system_cpu_usage'")).
Proof. reflexivity. Qed.

(** The numbers of three runs of CPython: [round(107 / 4000 * 100.0, 2)]
    is [2.67], not [2.68]; [round(1075 / 100000 * 100, 2)] is [1.07]; and
    [int(0.29 * 100000)] is [28999]. *)
Example round_of_a_product_below_the_tie :
  cpu_percent_of 107 4000 = inr (float_literal 267 2)
  /\ float_literal 267 2 <> float_literal 268 2
  /\ memory_percent_of 1075 100000 = inr (float_literal 107 2)
  /\ cpu_quota_of (NFloat (float_literal 29 2)) = inr 28999%Z.
Proof.
  split; [vm_compute; reflexivity|]. split; [vm_compute; discriminate|].
  split; vm_compute; reflexivity.
Qed.

(** A quotient of two integers is a float or an [OverflowError], when the
    divisor is not 0. *)
Lemma int_truediv_raises a b e :
  int_truediv a b = inl e -> b <> 0%Z ->
  e = OverflowError "integer division result too large for a float".
Proof.
  unfold int_truediv. intros H Hb.
  destruct (Z.eqb_spec b 0) as [->|_]; [now destruct Hb|].
  destruct (nearest_quotient _ _ _); congruence.
Qed.

(** C8, as stated, fails: with 1 unit of CPU time out of 1024 the sample
    reports the float next to 0.1, not 100/1024; with 1 byte under a ceiling
    of 3 it reports the float next to 33.33, not 100/3. *)
Lemma percentages_are_rounded :
  fst (ResourceLimiter.monitor_resources sampled_world ContainerObj [])
  = Return (mkUsage true (Some (float_literal 1 1)) (Some float_zero)
              (Some (float_literal 3333 2)) None)
  /\ float_value (float_literal 1 1)
     = Some (7205759403792794 # 72057594037927936)
  /\ ~ (7205759403792794 # 72057594037927936
        == inject_Z (1 - 0) / inject_Z (1024 - 0) * 100)%Q
  /\ float_value (float_literal 3333 2)
     = Some (4690780486883082 # 140737488355328)
  /\ ~ (4690780486883082 # 140737488355328
        == inject_Z 1 / inject_Z 3 * 100)%Q
  /\ ~ (forall w c tr stats total pretotal system presystem,
          container_stats w tr = inr stats ->
          lookup stats ["cpu_stats"; "cpu_usage"; "total_usage"]
          = Some (PInt total) ->
          lookup stats ["precpu_stats"; "cpu_usage"; "total_usage"]
          = Some (PInt pretotal) ->
          lookup stats ["cpu_stats"; "system_cpu_usage"]
          = Some (PInt system) ->
          lookup stats ["precpu_stats"; "system_cpu_usage"]
          = Some (PInt presystem) ->
          (0 < system - presystem)%Z ->
          exists u p v,
            fst (ResourceLimiter.monitor_resources w c tr) = Return u
            /\ cpu_percent u = Some p
            /\ float_value p = Some v
            /\ (v == inject_Z (total - pretotal)
                      / inject_Z (system - presystem) * 100)%Q).
Proof.
  split; [vm_compute; reflexivity|].
  split; [vm_compute; reflexivity|].
  split; [intros H; vm_compute in H; discriminate H|].
  split; [vm_compute; reflexivity|].
  split; [intros H; vm_compute in H; discriminate H|].
  intros H.
  destruct (H sampled_world ContainerObj [] (sample_stats 1 0 1024 0 1 3)
              1%Z 0%Z 1024%Z 0%Z eq_refl eq_refl eq_refl eq_refl eq_refl
              eq_refl) as (u & p & v & Hu & Hp & Hv & Heq).
  vm_compute in Hu. injection Hu as <-. cbn in Hp. injection Hp as <-.
  vm_compute in Hv. injection Hv as <-.
  vm_compute in Heq. discriminate Heq.
Qed.

(** C8, amended.  On stats that hold the four CPU counters as integers and
    a [memory_stats] dictionary whose [usage] and [limit] are integers (or
    absent, then 0), [monitor_resources] returns the sample [sample_of]
    computes in double precision.  When the sample is a success,
    [cpu_percent] is [round(q * 100.0, 2)] for the float [q] next to the
    quotient of the two deltas, and [0.0] when the system delta is not
    positive; [memory_percent] is [round(q * 100, 2)] for the float [q] next
    to usage over limit, and [0.0] when the limit is not positive.  The
    sample is a failure when one of the three quotients is too large for a
    float: its message is that of the [OverflowError]. *)
Theorem usage_percentages w c tr stats total pretotal system presystem
  mem usage limit :
  container_stats w tr = inr stats ->
  lookup stats ["cpu_stats"; "cpu_usage"; "total_usage"] = Some (PInt total) ->
  lookup stats ["precpu_stats"; "cpu_usage"; "total_usage"]
  = Some (PInt pretotal) ->
  lookup stats ["cpu_stats"; "system_cpu_usage"] = Some (PInt system) ->
  lookup stats ["precpu_stats"; "system_cpu_usage"] = Some (PInt presystem) ->
  lookup stats ["memory_stats"] = Some (PDict mem) ->
  entry_or_zero mem "usage" = PInt usage ->
  entry_or_zero mem "limit" = PInt limit ->
  exists u,
    fst (ResourceLimiter.monitor_resources w c tr) = Return u
    /\ u = match sample_of (total - pretotal) (system - presystem) usage limit
           with
           | inr sample => sample
           | inl e => failed_sample e
           end
    /\ (u_success u = true ->
        ((0 < system - presystem)%Z ->
         exists q,
           int_truediv (total - pretotal) (system - presystem) = inr q
           /\ cpu_percent u
              = Some (py_round2 (float_mul q (float_literal 1000 1))))
        /\ ((system - presystem <= 0)%Z -> cpu_percent u = Some float_zero)
        /\ ((0 < limit)%Z ->
            exists q,
              int_truediv usage limit = inr q
              /\ memory_percent u
                 = Some (py_round2 (float_mul q (float_literal 100 0))))
        /\ ((limit <= 0)%Z -> memory_percent u = Some float_zero))
    /\ (u_success u = false ->
        u = failed_sample
              (OverflowError "integer division result too large for a float")
        /\ (((0 < system - presystem)%Z
             /\ exists e,
                  int_truediv (total - pretotal) (system - presystem) = inl e)
            \/ (exists e, int_truediv usage (1024 * 1024) = inl e)
            \/ ((0 < limit)%Z /\ exists e, int_truediv usage limit = inl e))).
Proof.
  intros Hs H1 H2 H3 H4 H5 Hu Hl.
  rewrite (monitor_resources_value w c tr stats total pretotal system
             presystem mem usage limit Hs H1 H2 H3 H4 H5 Hu Hl).
  eexists. split; [reflexivity|]. split; [reflexivity|].
  unfold sample_of, cpu_percent_of, mebibytes_of, memory_percent_of.
  destruct (Z.ltb_spec 0 (system - presystem)) as [Hsd|Hsd];
    [destruct (int_truediv (total - pretotal) (system - presystem))
       as [e|q] eqn:Eq|];
    (destruct (int_truediv usage (1024 * 1024)) as [e1|q1] eqn:Eq1;
     [|destruct (Z.ltb_spec 0 limit) as [Hl0|Hl0];
       [destruct (int_truediv usage limit) as [e2|q2] eqn:Eq2|]]);
    cbn [u_success cpu_percent memory_percent failed_sample];
    (split; [intros Hok; try discriminate Hok;
             repeat split; intros; try lia; eauto
            |intros Hko; try discriminate Hko]);
    repeat match goal with
           | H : int_truediv _ ?b = inl _ |- _ =>
               apply int_truediv_raises in H as ->; [|lia]
           end;
    (split; [reflexivity|]); eauto 6.
Qed.

Lemma usage_percentages_witness :
  exists u,
    fst (ResourceLimiter.monitor_resources sampled_world ContainerObj [])
    = Return u
    /\ cpu_percent u = Some (float_literal 1 1)
    /\ memory_percent u = Some (float_literal 3333 2).
Proof.
  destruct (usage_percentages sampled_world ContainerObj []
              (sample_stats 1 0 1024 0 1 3) 1 0 1024 0
              [("usage", PInt 1); ("limit", PInt 3)] 1 3
              eq_refl eq_refl eq_refl eq_refl eq_refl eq_refl eq_refl eq_refl)
    as (u & Hu & Hsample & _).
  exists u. split; [exact Hu|]. rewrite Hsample.
  split; vm_compute; reflexivity.
Defined.

(** ** Updating the limits *)

Lemma update_limits_live w self tr c memory_mb cpu_limit :
  container self = Some c ->
  exists results,
    update_limits w memory_mb cpu_limit (self, tr)
    = (Return (mkLimitsUpdate true None (Some results)),
       (self, (tr ++ update_calls w tr memory_mb cpu_limit)%list)).
Proof.
  intros Hc.
  unfold update_limits, bind, self_, gets, on_trace, update_calls,
    memory_update_calls, cpu_update_calls, cpu_quota_of. cbn. rewrite Hc.
  unfold ResourceLimiter.set_memory_limit, ResourceLimiter.set_cpu_limit,
    try_except, bind, ResourceLimiter.container_update_call, ret, raise,
    of_sum.
  unfold memory_update, cpu_update.
  destruct memory_mb as [m|], cpu_limit as [q|]; cbn; rewrite ?app_nil_r;
    repeat match goal with
           | |- context [py_int ?x] => destruct (py_int x); cbn
           | |- context [container_update ?w ?t ?a] =>
               destruct (container_update w t a); cbn
           end;
    rewrite <- ?app_assoc, ?app_nil_r; cbn; eexists; reflexivity.
Qed.

(** [CodeExecutionTool.update_limits] rewrites two fields of the tool and
    calls nothing; the new memory limit reaches Docker when the next
    [execute] creates a new container with it, and no [update] call is ever
    made. *)
Example tool_update_limits_waits_for_the_next_container :
  CodeExecutionTool.update_limits (a_tool true) (Some 256%Z) None
  = (CodeExecutionTool.init true 256 half 30,
     mkToolLimits true 256 half)
  /\ snd (CodeExecutionTool.execute calm_world tool_after_update "print(1)"
            None None [])
     = [EvFromEnv None;
        EvImagesGet default_image None;
        EvContainersCreate
          (mkCreateArgs default_image "sleep infinity" true "256m" 50000
             100000 "none") None;
        EvStart None;
        EvExecRun (python_c "print(1)") 30 (ExecReturned 0 None None);
        EvStats (inr (PDict []));
        EvStop 1 None;
        EvRemove None]
  /\ existsb is_update
       (snd (CodeExecutionTool.execute calm_world tool_after_update
               "print(1)" None None [])) = false
  /\ existsb is_create
       (snd (CodeExecutionTool.execute calm_world tool_after_update
               "print(1)" None None [])) = true.
Proof. repeat split; vm_compute; reflexivity. Qed.

(** C9, as stated, fails on a live environment.  The container holds
    64 MiB under a ceiling of 128 MiB: a usage sample reports 50 percent.
    [update_limits(memory_mb=1)] sends the new limit, Docker refuses it, and
    the call reports success all the same; the usage sample that follows is
    still computed against 128 MiB, not against the ceiling that was asked
    for.  And for a share of a processor that is not a number, nothing is
    sent at all. *)
Lemma refused_quota_is_not_applied :
  fst (SandboxExecutor.get_resource_usage engine_world (live_sandbox 30, []))
  = Return (mkUsage true (Some (float_literal 1 1)) (Some (float_literal 64 0))
              (Some (float_literal 50 0)) None)
  /\ SandboxExecutor.update_limits engine_world (Some 1%Z) None
       (live_sandbox 30, [])
     = (Return (mkLimitsUpdate true None
                  (Some (Some (mkStatus false
                                 (Some "Minimum memory limit allowed is 6MB")),
                         None))),
        (live_sandbox 30,
         [EvUpdate (memory_update 1)
            (Some (APIError "Minimum memory limit allowed is 6MB"))]))
  /\ fst (SandboxExecutor.get_resource_usage engine_world
            (snd (SandboxExecutor.update_limits engine_world (Some 1%Z) None
                    (live_sandbox 30, []))))
     = Return (mkUsage true (Some (float_literal 1 1))
                 (Some (float_literal 64 0)) (Some (float_literal 50 0)) None)
  /\ memory_percent_of (64 * 1048576) (1 * 1048576)
     = inr (float_literal 6400 0)
  /\ float_literal 50 0 <> float_literal 6400 0
  /\ snd (SandboxExecutor.update_limits engine_world None
            (Some (NFloat S754_nan)) (live_sandbox 30, []))
     = (live_sandbox 30, []).
Proof.
  repeat split; try (vm_compute; reflexivity). vm_compute; discriminate.
Qed.

(** C9, amended.  [SandboxExecutor.update_limits] on an object that holds a
    container makes one [update] call for each argument that is given
    (memory as ["<mb>m"]; CPU as a quota of [int(cpu * 100000)] over a period
    of 100000, and no call when that [int] raises), makes no call for an
    argument that is left out, creates no container, keeps the object as it
    is and reports success, whatever Docker answers.  When Docker accepted
    the memory limit and the stats of the container then report it as their
    [limit], the [get_resource_usage] that follows [update_limits] computes
    [memory_percent] against it: [round(q * 100, 2)] for the float [q] next
    to usage over the new ceiling.  [CodeExecutionTool.update_limits] stores
    the given values in the tool and leaves its other fields alone; a later
    isolated execution calls no [update] and creates its container with the
    stored limits. *)
Theorem update_limits_reaches_the_live_container :
  (forall w self tr c memory_mb cpu_limit,
      container self = Some c ->
      exists res,
        SandboxExecutor.update_limits w memory_mb cpu_limit (self, tr)
        = (Return res,
           (self, (tr ++ update_calls w tr memory_mb cpu_limit)%list))
        /\ lu_success res = true
        /\ existsb is_create (update_calls w tr memory_mb cpu_limit) = false
        /\ (memory_mb = None ->
            update_calls w tr memory_mb cpu_limit
            = cpu_update_calls w tr cpu_limit)
        /\ (cpu_limit = None ->
            update_calls w tr memory_mb cpu_limit
            = memory_update_calls w tr memory_mb)
        /\ (forall m,
              memory_mb = Some m ->
              exists rest,
                update_calls w tr memory_mb cpu_limit
                = EvUpdate (memory_update m)
                    (container_update w tr (memory_update m)) :: rest)
        /\ (forall q n,
              cpu_limit = Some q -> cpu_quota_of q = inr n ->
              exists pre,
                update_calls w tr memory_mb cpu_limit
                = (pre ++ [EvUpdate (cpu_update n)
                             (container_update w (tr ++ pre)
                                (cpu_update n))])%list)
        /\ (forall q e,
              cpu_limit = Some q -> cpu_quota_of q = inl e ->
              update_calls w tr memory_mb cpu_limit
              = memory_update_calls w tr memory_mb))
  /\ (forall w self tr c m cpu_limit stats total pretotal system presystem
        mem usage,
         container self = Some c ->
         container_update w tr (memory_update m) = None ->
         let s1 :=
           snd (SandboxExecutor.update_limits w (Some m) cpu_limit (self, tr))
         in
         container_stats w (snd s1) = inr stats ->
         lookup stats ["cpu_stats"; "cpu_usage"; "total_usage"]
         = Some (PInt total) ->
         lookup stats ["precpu_stats"; "cpu_usage"; "total_usage"]
         = Some (PInt pretotal) ->
         lookup stats ["cpu_stats"; "system_cpu_usage"]
         = Some (PInt system) ->
         lookup stats ["precpu_stats"; "system_cpu_usage"]
         = Some (PInt presystem) ->
         lookup stats ["memory_stats"] = Some (PDict mem) ->
         entry_or_zero mem "usage" = PInt usage ->
         entry_or_zero mem "limit" = PInt (m * 1048576) ->
         (0 < m)%Z ->
         exists u,
           fst (SandboxExecutor.get_resource_usage w s1) = Return u
           /\ u = match sample_of (total - pretotal) (system - presystem)
                          usage (m * 1048576)
                  with
                  | inr sample => sample
                  | inl e => failed_sample e
                  end
           /\ (u_success u = true ->
               exists q,
                 int_truediv usage (m * 1048576) = inr q
                 /\ memory_percent u
                    = Some (py_round2 (float_mul q (float_literal 100 0)))))
  /\ (forall tool memory_mb cpu_limit,
         let tool' :=
           fst (CodeExecutionTool.update_limits tool memory_mb cpu_limit) in
         CodeExecutionTool.memory_limit_mb tool'
         = match memory_mb with
           | Some m => m
           | None => CodeExecutionTool.memory_limit_mb tool
           end
         /\ CodeExecutionTool.cpu_limit tool'
            = match cpu_limit with
              | Some q => q
              | None => CodeExecutionTool.cpu_limit tool
              end
         /\ CodeExecutionTool.use_sandbox tool'
            = CodeExecutionTool.use_sandbox tool
         /\ CodeExecutionTool.timeout tool' = CodeExecutionTool.timeout tool)
  /\ (forall w tool memory_mb cpu_limit code timeout tr0,
         let tool' :=
           fst (CodeExecutionTool.update_limits tool memory_mb cpu_limit) in
         exists events,
           snd (CodeExecutionTool._execute_sandboxed w tool' code timeout tr0)
           = (tr0 ++ events)%list
           /\ existsb is_update events = false
           /\ (forall args r,
                 In (EvContainersCreate args r) events ->
                 ca_mem_limit args
                 = str_of_Z (CodeExecutionTool.memory_limit_mb tool') ++ "m"
                 /\ cpu_quota_of (CodeExecutionTool.cpu_limit tool')
                    = inr (ca_cpu_quota args))).
Proof.
  split; [|split; [|split]].
  - intros w self tr c memory_mb cpu_limit Hc.
    destruct (update_limits_live w self tr c memory_mb cpu_limit Hc)
      as [results Hr].
    eexists. split; [exact Hr|]. split; [reflexivity|].
    unfold update_calls, memory_update_calls, cpu_update_calls.
    split; [|split; [|split; [|split; [|split]]]].
    + destruct memory_mb, cpu_limit as [q|]; try reflexivity;
        destruct (cpu_quota_of q); reflexivity.
    + intros ->. cbn. now rewrite app_nil_r.
    + intros ->. apply app_nil_r.
    + intros m ->. eexists. reflexivity.
    + intros q n -> ->. eexists. reflexivity.
    + intros q e -> ->. apply app_nil_r.
  - intros w self tr c m cpu_limit stats total pretotal system presystem mem
      usage Hc Hacc s1 Hs H1 H2 H3 H4 H5 Hu Hl Hpos.
    destruct (update_limits_live w self tr c (Some m) cpu_limit Hc)
      as [results Hr].
    subst s1. rewrite Hr in Hs |- *. cbn [snd] in Hs |- *.
    rewrite (get_resource_usage_live w self _ c Hc).
    rewrite (monitor_resources_value w c _ stats total pretotal system
               presystem mem usage (m * 1048576) Hs H1 H2 H3 H4 H5 Hu Hl).
    eexists. split; [reflexivity|]. split; [reflexivity|].
    unfold sample_of, memory_percent_of.
    destruct (cpu_percent_of _ _); [discriminate|].
    destruct (mebibytes_of _); [discriminate|].
    destruct (Z.ltb_spec 0 (m * 1048576)) as [_|Hle]; [|lia].
    destruct (int_truediv usage (m * 1048576)) as [e|q];
      [discriminate|].
    intros _. now exists q.
  - intros tool memory_mb cpu_limit tool'. subst tool'.
    now destruct memory_mb, cpu_limit.
  - intros w tool memory_mb cpu_limit code timeout tr0 tool'.
    apply execute_sandboxed_configured.
Qed.

Lemma update_limits_reaches_the_live_container_witness :
  (exists res,
      SandboxExecutor.update_limits engine_world (Some 256%Z) None
        (live_sandbox 30, [])
      = (Return res,
         (live_sandbox 30,
          [EvUpdate (mkUpdateArgs (Some "256m") None None) None]))
      /\ lu_success res = true)
  /\ (exists u,
         fst (SandboxExecutor.get_resource_usage engine_world
                (live_sandbox 30, []))
         = Return u
         /\ memory_percent u = Some (float_literal 50 0))
  /\ (exists u,
         fst (SandboxExecutor.get_resource_usage engine_world
                (snd (SandboxExecutor.update_limits engine_world
                        (Some 256%Z) None (live_sandbox 30, []))))
         = Return u
         /\ memory_percent u = Some (float_literal 25 0)).
Proof.
  destruct update_limits_reaches_the_live_container as (Hu & Hg & _).
  split; [|split].
  - destruct (Hu engine_world (live_sandbox 30) [] ContainerObj
                (Some 256%Z) None eq_refl) as (res & Hr & Hs & _).
    exists res. split; [exact Hr | exact Hs].
  - eexists. split; vm_compute; reflexivity.
  - destruct (Hg engine_world (live_sandbox 30) [] ContainerObj 256%Z None
                (sample_stats 1 0 1024 0 (64 * 1048576) (256 * 1048576))
                1%Z 0%Z 1024%Z 0%Z
                [("usage", PInt (64 * 1048576));
                 ("limit", PInt (256 * 1048576))]
                (64 * 1048576)%Z
                eq_refl eq_refl eq_refl eq_refl eq_refl eq_refl eq_refl
                eq_refl eq_refl eq_refl eq_refl) as (u & Hr & Hsample & _).
    exists u. split; [exact Hr|]. rewrite Hsample. vm_compute. reflexivity.
Defined.

(** * Further properties, method by method *)

(** ** The limiter *)

Section Limiter.
Variable w : World.

Lemma set_memory_limit_eq c limit_mb tr :
  ResourceLimiter.set_memory_limit w c limit_mb tr
  = (Return (status_of (container_update w tr (memory_update limit_mb))),
     (tr ++ [EvUpdate (memory_update limit_mb)
               (container_update w tr (memory_update limit_mb))])%list).
Proof.
  unfold ResourceLimiter.set_memory_limit, try_except, bind,
    ResourceLimiter.container_update_call, memory_update.
  now destruct (container_update w tr _).
Qed.

Lemma set_cpu_limit_eq c cpu_quota tr :
  ResourceLimiter.set_cpu_limit w c cpu_quota tr
  = match cpu_quota_of cpu_quota with
    | inr n =>
        (Return (status_of (container_update w tr (cpu_update n))),
         (tr ++ [EvUpdate (cpu_update n)
                   (container_update w tr (cpu_update n))])%list)
    | inl e => (Return (mkStatus false (Some (exc_str e))), tr)
    end.
Proof.
  unfold ResourceLimiter.set_cpu_limit, try_except, bind, of_sum,
    ResourceLimiter.container_update_call, cpu_update, cpu_quota_of.
  destruct (py_int _); [reflexivity|]. cbn.
  now destruct (container_update w tr _).
Qed.

Lemma usage_well_formed_compute {S} stats :
  returns_only usage_well_formed (@ResourceLimiter.compute_usage S stats).
Proof.
  unfold ResourceLimiter.compute_usage.
  repeat (apply returns_only_bind; intros ?).
  apply returns_only_ret. cbn. repeat split; discriminate.
Qed.

Lemma monitor_resources_well_formed c :
  returns_only usage_well_formed (ResourceLimiter.monitor_resources w c).
Proof.
  unfold ResourceLimiter.monitor_resources.
  apply returns_only_try_except.
  - apply returns_only_bind. intros stats. apply usage_well_formed_compute.
  - intros e. apply returns_only_ret. cbn. repeat split. discriminate.
Qed.

(** When an entry is missing, [compute_usage] raises. *)
Lemma compute_usage_needs_entries {S} stats (s : S) u s' :
  ResourceLimiter.compute_usage stats s = (Return u, s') ->
  Forall (fun path => lookup stats path <> None) required_entries.
Proof.
  intros H. destruct stats as [n|items]; [discriminate H|].
  unfold ResourceLimiter.compute_usage, bind in H. cbn in H.
  destruct (assoc "cpu_stats" items) as [[|cs]|] eqn:Ecs;
    try discriminate H; cbn in H.
  destruct (assoc "cpu_usage" cs) as [[|cu]|] eqn:Ecu;
    try discriminate H; cbn in H.
  destruct (assoc "total_usage" cu) as [v1|] eqn:E1;
    try discriminate H; cbn in H.
  destruct (assoc "precpu_stats" items) as [[|ps]|] eqn:Eps;
    try discriminate H; cbn in H.
  destruct (assoc "cpu_usage" ps) as [[|pu]|] eqn:Epu;
    try discriminate H; cbn in H.
  destruct (assoc "total_usage" pu) as [v2|] eqn:E2;
    try discriminate H; cbn in H.
  destruct (ResourceLimiter.py_sub v1 v2 s) as [[d|e] s1];
    try discriminate H.
  destruct (assoc "system_cpu_usage" cs) as [v3|] eqn:E3;
    try discriminate H; cbn in H.
  destruct (assoc "system_cpu_usage" ps) as [v4|] eqn:E4;
    try discriminate H; cbn in H.
  destruct (ResourceLimiter.py_sub v3 v4 s1) as [[d'|e] s2];
    try discriminate H.
  destruct (assoc "memory_stats" items) as [ms|] eqn:Ems.
  2: { revert H. destruct (0 <? d')%Z; unfold of_sum, ret, raise;
         [destruct (int_truediv d d')|]; discriminate. }
  unfold required_entries.
  repeat constructor; cbn;
    rewrite ?Ecs, ?Eps, ?Ems, ?Ecu, ?Epu, ?E1, ?E2, ?E3, ?E4; discriminate.
Qed.

End Limiter.

(** X1.  The two setters of the limiter never raise.
    [set_memory_limit] makes one call to [container.update], with the limit
    as ["<mb>m"].  [set_cpu_limit] computes the quota [int(cpu * 100000)] in
    double precision: when that is an integer it makes one call to
    [container.update], with that quota over a period of 100000; when it
    raises (the share is infinite or not a number) no call is made.  The
    status they return tells what happened: success, or the text of the
    exception.  An integer share is multiplied exactly; the share [0.5]
    gives the quota 50000, and [0.29] gives 28999, the product being the
    float below 29000. *)
Theorem limiter_setters_report_the_answer w c tr :
  (forall limit_mb,
      ResourceLimiter.set_memory_limit w c limit_mb tr
      = (Return (status_of
                   (container_update w tr
                      (mkUpdateArgs (Some (str_of_Z limit_mb ++ "m")) None
                         None))),
         (tr ++ [EvUpdate
                   (mkUpdateArgs (Some (str_of_Z limit_mb ++ "m")%string)
                      None None)
                   (container_update w tr
                      (mkUpdateArgs (Some (str_of_Z limit_mb ++ "m")%string)
                         None None))])%list))
  /\ (forall cpu_quota n,
         py_int (mul_literal cpu_quota 100000) = inr n ->
         ResourceLimiter.set_cpu_limit w c cpu_quota tr
         = (Return (status_of
                      (container_update w tr
                         (mkUpdateArgs None (Some n) (Some 100000%Z)))),
            (tr ++ [EvUpdate
                      (mkUpdateArgs None (Some n) (Some 100000%Z))
                      (container_update w tr
                         (mkUpdateArgs None (Some n)
                            (Some 100000%Z)))])%list))
  /\ (forall cpu_quota e,
         py_int (mul_literal cpu_quota 100000) = inl e ->
         ResourceLimiter.set_cpu_limit w c cpu_quota tr
         = (Return (mkStatus false (Some (exc_str e))), tr))
  /\ (forall n, py_int (mul_literal (NInt n) 100000) = inr (n * 100000)%Z)
  /\ py_int (mul_literal (NFloat (float_literal 5 1)) 100000) = inr 50000%Z
  /\ py_int (mul_literal (NFloat (float_literal 29 2)) 100000) = inr 28999%Z
  /\ py_int (mul_literal (NFloat S754_nan) 100000)
     = inl (ValueError "cannot convert float NaN to integer")
  /\ py_int (mul_literal (NFloat (S754_infinity false)) 100000)
     = inl (OverflowError "cannot convert float infinity to integer").
Proof.
  split; [|split; [|split; [|split; [|split; [|split; [|split]]]]]];
    try (vm_compute; reflexivity).
  - intros limit_mb. apply set_memory_limit_eq.
  - intros cpu_quota n Hn. rewrite set_cpu_limit_eq.
    unfold cpu_quota_of. now rewrite Hn.
  - intros cpu_quota e He. rewrite set_cpu_limit_eq.
    unfold cpu_quota_of. now rewrite He.
Qed.

(** X2.  [monitor_resources] never raises and makes one call,
    [container.stats]; the sample it returns is well formed: a success
    carries the three measures and no message, a failure carries a message
    and no measure.  When [stats] itself raises, the message is the text of
    that exception. *)
Theorem usage_samples_are_well_formed w c tr :
  exists u,
    ResourceLimiter.monitor_resources w c tr
    = (Return u, (tr ++ [EvStats (container_stats w tr)])%list)
    /\ usage_well_formed u
    /\ (forall e, container_stats w tr = inl e ->
                  u = mkUsage false None None None (Some (exc_str e))).
Proof.
  destruct (monitor_resources_calls w c tr) as [u Hu].
  exists u. split; [exact Hu|]. split.
  - eapply monitor_resources_well_formed, Hu.
  - intros e He. revert Hu.
    unfold ResourceLimiter.monitor_resources, try_except, bind,
      ResourceLimiter.container_stats_call.
    rewrite He. cbn. intros H. now injection H as <-.
Qed.

(** X3.  A sample succeeds only on stats that hold the four CPU counters
    and the [memory_stats] dictionary: when one of them is missing, the
    [KeyError] is caught and the sample is a failure, not a 0. *)
Theorem successful_sample_had_every_counter w c tr stats u :
  container_stats w tr = inr stats ->
  fst (ResourceLimiter.monitor_resources w c tr) = Return u ->
  u_success u = true ->
  lookup stats ["cpu_stats"; "cpu_usage"; "total_usage"] <> None
  /\ lookup stats ["precpu_stats"; "cpu_usage"; "total_usage"] <> None
  /\ lookup stats ["cpu_stats"; "system_cpu_usage"] <> None
  /\ lookup stats ["precpu_stats"; "system_cpu_usage"] <> None
  /\ lookup stats ["memory_stats"] <> None.
Proof.
  intros Hs Hu Hok.
  unfold ResourceLimiter.monitor_resources, try_except, bind,
    ResourceLimiter.container_stats_call in Hu.
  rewrite Hs in Hu.
  destruct (ResourceLimiter.compute_usage stats _) as [[u'|e] tr'] eqn:Hc.
  - pose proof (compute_usage_needs_entries _ _ _ _ Hc) as F.
    unfold required_entries in F.
    repeat match goal with
           | H : Forall _ (_ :: _) |- _ => inversion H; subst; clear H
           end.
    repeat split; assumption.
  - cbn in Hu. injection Hu as <-. discriminate Hok.
Qed.

Lemma successful_sample_had_every_counter_witness :
  lookup (sample_stats 1 0 1024 0 1 3) ["precpu_stats"; "system_cpu_usage"]
  <> None
  /\ lookup (sample_stats 1 0 1024 0 1 3) ["memory_stats"] <> None.
Proof.
  destruct (successful_sample_had_every_counter sampled_world ContainerObj []
              (sample_stats 1 0 1024 0 1 3)
              (mkUsage true (Some (float_literal 1 1)) (Some float_zero)
                 (Some (float_literal 3333 2)) None)
              eq_refl eq_refl eq_refl) as (_ & _ & _ & H4 & H5).
  split; assumption.
Defined.

(** ** The sandbox, method by method *)

Section Methods.
Variable w : World.

Lemma cleanup_cases s :
  match cleanup w s with
  | (Return st, s') =>
      (st_success st = true <-> container (fst s') = None)
      /\ (st_success st = false -> fst s' = fst s)
      /\ (st_success st = true ->
          cleanup w s' = (Return (mkStatus true None), s'))
  | (Raise e, s') =>
      isinstance e "DockerException" = false
      /\ fst s' = fst s
      /\ container (fst s) <> None
  end.
Proof.
  destruct s as [self tr].
  unfold cleanup, try_except, bind, self_, gets, call, on_trace, modify,
    ret, raise. cbn.
  destruct (container self) eqn:Hc; cbn.
  - crack; repeat split; intros; try reflexivity; try discriminate;
      try congruence.
  - rewrite Hc. cbn. repeat split; intros; try reflexivity; try discriminate;
      try congruence.
Qed.

Lemma get_resource_usage_returns s :
  exists u,
    get_resource_usage w s
    = (Return u,
       (fst s,
        (snd s ++ match container (fst s) with
                  | Some _ => [EvStats (container_stats w (snd s))]
                  | None => []
                  end)%list))
    /\ usage_well_formed u
    /\ (container (fst s) = None ->
        u = mkUsage false None None None (Some "No container running")).
Proof.
  destruct s as [self tr]. cbn [fst snd].
  destruct (container self) as [c|] eqn:Hc.
  - rewrite (get_resource_usage_live w self tr c Hc).
    destruct (monitor_resources_calls w c tr) as [u Hu].
    exists u. rewrite Hu. cbn [fst snd]. split; [reflexivity|].
    split; [|discriminate]. eapply monitor_resources_well_formed, Hu.
  - unfold get_resource_usage, bind, self_, gets. cbn. rewrite Hc.
    eexists. rewrite app_nil_r. split; [reflexivity|].
    split; [|reflexivity]. cbn. repeat split. discriminate.
Qed.

End Methods.

(** X4.  [create_container] reports success exactly when the call to
    [container.start] returned, and the status is then
    [{"success": True, "error": None}].  The object holds the new container
    as soon as [containers.create] returned, also when [start] fails
    afterwards; otherwise the object is left as it was. *)
Theorem create_container_reports_a_started_container w self tr :
  exists evs,
    snd (snd (create_container w (self, tr))) = (tr ++ evs)%list
    /\ (fst (create_container w (self, tr)) = Return (mkStatus true None)
        <-> existsb is_started evs = true)
    /\ (forall st, fst (create_container w (self, tr)) = Return st ->
                   st_success st = true -> st = mkStatus true None)
    /\ fst (snd (create_container w (self, tr)))
       = (if existsb is_created evs
          then set_container (Some ContainerObj) self
          else self)
    /\ (existsb is_started evs = true -> existsb is_created evs = true).
Proof.
  unfold create_container, try_except, bind, self_, gets, call, on_trace,
    modify, ret, raise, of_sum. cbn.
  crack; emitted; repeat split; intros; try reflexivity; try discriminate;
    try congruence;
    match goal with
    | H : Return _ = Return _ |- _ => injection H as <-; discriminate
    end.
Qed.

(** X5.  [create_container] first asks for the image of the object.  It
    pulls that image, once, when [images.get] raised [ImageNotFound], and
    only then; when [images.get] raised anything else, no further call is
    made. *)
Theorem image_is_pulled_only_when_missing w self tr :
  let image := SandboxExecutor.image self in
  let got := images_get w tr image in
  exists evs,
    snd (snd (create_container w (self, tr)))
    = (tr ++ EvImagesGet image got :: evs)%list
    /\ match got with
       | None => existsb is_pull evs = false
       | Some e =>
           if isinstance e "ImageNotFound"
           then exists rest,
               evs = EvImagesPull image
                       (images_pull w (tr ++ [EvImagesGet image got])%list
                          image)
                     :: rest
               /\ existsb is_pull rest = false
           else evs = []
       end.
Proof.
  unfold create_container, try_except, bind, self_, gets, call, on_trace,
    modify, ret, raise, of_sum. cbn.
  destruct (images_get w tr (SandboxExecutor.image self)) as [e|]; cbn.
  - destruct (isinstance e "ImageNotFound") eqn:He; cbn.
    + crack; eexists; (split; [rewrite <- ?app_assoc; reflexivity|]);
        eexists; split; reflexivity.
    + crack; eexists; (split; [reflexivity|]); reflexivity.
  - crack; eexists; (split; [rewrite <- ?app_assoc; reflexivity|]);
      reflexivity.
Qed.

(** The image is missing: it is pulled, then the container is created and
    started. *)
Example missing_image_is_pulled :
  snd (snd (create_container no_image_world (fresh_sandbox 30, [])))
  = [EvImagesGet default_image
       (Some (ImageNotFound "No such image: python:3.11-slim"));
     EvImagesPull default_image None;
     EvContainersCreate default_args None;
     EvStart None]
  /\ create_args_of (fresh_sandbox 30) = Some default_args.
Proof. split; vm_compute; reflexivity. Qed.

(** X6.  When [cleanup] returns, it reports success exactly when the
    object holds no container afterwards; after a failure the object is as
    it was, container included.  A [cleanup] that follows a successful one
    makes no call and succeeds again.  [cleanup] raises only an exception
    that is no [DockerException], and then too the object keeps its
    container. *)
Theorem cleanup_reports_whether_the_container_is_gone w s :
  match cleanup w s with
  | (Return st, s') =>
      (st_success st = true <-> container (fst s') = None)
      /\ (st_success st = false -> fst s' = fst s)
      /\ (st_success st = true ->
          cleanup w s' = (Return (mkStatus true None), s'))
  | (Raise e, s') =>
      isinstance e "DockerException" = false
      /\ fst s' = fst s
      /\ container (fst s) <> None
  end.
Proof. apply cleanup_cases. Qed.

(** X7.  [get_resource_usage] never raises and leaves the object as it is.
    Without a container it makes no call and fails with
    ["No container running"]; with one it makes the single call [stats].
    The sample is well formed in both cases. *)
Theorem get_resource_usage_never_raises w s :
  exists u,
    get_resource_usage w s
    = (Return u,
       (fst s,
        (snd s ++ match container (fst s) with
                  | Some _ => [EvStats (container_stats w (snd s))]
                  | None => []
                  end)%list))
    /\ usage_well_formed u
    /\ (container (fst s) = None ->
        u = mkUsage false None None None (Some "No container running")).
Proof. apply get_resource_usage_returns. Qed.

(** X8.  [SandboxExecutor.update_limits] never raises and leaves the
    object as it is.  Without a container it makes no call and fails with
    ["No container running"].  With one, it reports success whatever Docker
    answers: the status of each update is found under [results], a failure
    with the text of the exception when Docker refused. *)
Theorem update_limits_reports_success_whatever_docker_answers
  w self tr memory_mb cpu_limit :
  update_limits w memory_mb cpu_limit (self, tr)
  = match container self with
    | None =>
        (Return (mkLimitsUpdate false (Some "No container running") None),
         (self, tr))
    | Some _ =>
        (Return
           (mkLimitsUpdate true None
              (Some
                 (option_map
                    (fun m =>
                       status_of (container_update w tr (memory_update m)))
                    memory_mb,
                  option_map
                    (fun q =>
                       match cpu_quota_of q with
                       | inr n =>
                           status_of
                             (container_update w
                                (tr ++ memory_update_calls w tr memory_mb)%list
                                (cpu_update n))
                       | inl e => mkStatus false (Some (exc_str e))
                       end)
                    cpu_limit))),
         (self, (tr ++ update_calls w tr memory_mb cpu_limit)%list))
    end.
Proof.
  unfold update_limits, bind, self_, gets, on_trace. cbn.
  destruct (container self) as [c|]; [|reflexivity].
  destruct memory_mb as [m|], cpu_limit as [q|]; cbn;
    rewrite ?set_memory_limit_eq; cbn; rewrite ?set_cpu_limit_eq; cbn;
    unfold update_calls; cbn;
    try (destruct (cpu_quota_of q); cbn);
    rewrite <- ?app_assoc, ?app_nil_r; reflexivity.
Qed.

(** Docker refuses both updates, and [update_limits] reports success. *)
Example refused_updates_are_reported_as_a_success :
  fst (update_limits no_update_world (Some 1%Z) (Some half)
         (live_sandbox 30, []))
  = Return (mkLimitsUpdate true None
              (Some (Some (mkStatus false
                             (Some "Minimum memory limit allowed is 6MB")),
                     Some (mkStatus false
                             (Some "Minimum memory limit allowed is 6MB"))))).
Proof. reflexivity. Qed.



(** X10.  [execute_in_container] never stops or removes a container.  When
    it ran a command or started a container, the object holds the container
    afterwards: outside a [with] statement it is left to the caller to call
    [cleanup]. *)
Theorem execute_in_container_leaves_the_container_running w code s :
  exists evs,
    snd (snd (execute_in_container w code s)) = (snd s ++ evs)%list
    /\ existsb is_teardown evs = false
    /\ (existsb is_exec_run evs = true \/ existsb is_started evs = true ->
        container (fst (snd (execute_in_container w code s))) <> None).
Proof.
  destruct (execute_in_container_growing w code s) as (evs & E & T & Q).
  exists evs. split; [exact E|]. split.
  - clear E Q. induction evs as [|ev evs IH]; [reflexivity|].
    cbn in T |- *. apply andb_prop in T as [T1 T2].
    unfold no_teardown in T1. apply negb_true_iff in T1.
    now rewrite T1, (IH T2).
  - intros H Hc. destruct (Q Hc) as [_ Hq].
    destruct (quiet_no_exec evs Hq) as [He Hs].
    destruct H as [H|H]; congruence.
Qed.

(** X11.  When the container was created and [start] raised a
    [DockerException], [create_container] reports the failure and the
    object keeps the container.  A later [execute_in_container] then takes
    the object for provisioned: it calls [exec_run] straight away, without
    creating or starting anything. *)
Theorem failed_start_is_not_retried w self tr args e :
  container self = None ->
  create_args_of self = Some args ->
  images_get w tr (image self) = None ->
  containers_create w (tr ++ [EvImagesGet (image self) None])%list args
  = None ->
  container_start w
    (tr ++ [EvImagesGet (image self) None;
            EvContainersCreate args None])%list = Some e ->
  isinstance e "DockerException" = true ->
  let self' := set_container (Some ContainerObj) self in
  create_container w (self, tr)
  = (Return (mkStatus false (Some (exc_str e))),
     (self',
      (tr ++ [EvImagesGet (image self) None;
              EvContainersCreate args None;
              EvStart (Some e)])%list))
  /\ forall code tr',
       snd (execute_in_container w code (self', tr'))
       = (self',
          (tr' ++ [EvExecRun (python_c code) (timeout self)
                     (container_exec_run w tr' (python_c code)
                        (timeout self))])%list).
Proof.
  intros Hc Hargs Hget Hcreate Hstart He self'. split.
  - unfold create_container, try_except, bind, self_, gets, call, on_trace,
      modify, ret, raise, of_sum. cbn.
    rewrite Hget. cbn. unfold create_args_of, cpu_quota_of in Hargs.
    destruct (py_int _) as [e0|quota]; [discriminate Hargs|].
    injection Hargs as <-. cbn.
    rewrite Hcreate. cbn. rewrite <- app_assoc. cbn.
    rewrite Hstart. cbn. rewrite He. rewrite <- app_assoc. reflexivity.
  - intros code tr'.
    now rewrite (execute_in_container_live w code self' tr' ContainerObj
                   eq_refl).
Qed.

Lemma failed_start_is_not_retried_witness :
  create_container no_start_world (fresh_sandbox 30, [])
  = (Return (mkStatus false (Some "OCI runtime create failed")),
     (live_sandbox 30,
      [EvImagesGet default_image None;
       EvContainersCreate default_args None;
       EvStart (Some (APIError "OCI runtime create failed"))]))
  /\ snd (execute_in_container no_start_world "print(1)" (live_sandbox 30, []))
     = (live_sandbox 30,
        [EvExecRun (python_c "print(1)") 30 (ExecReturned 0 None None)]).
Proof.
  destruct (failed_start_is_not_retried no_start_world (fresh_sandbox 30) []
              default_args (APIError "OCI runtime create failed")
              eq_refl eq_refl eq_refl eq_refl eq_refl eq_refl) as [H1 H2].
  split; [exact H1 | exact (H2 "print(1)" [])].
Defined.

(** ** The calls of an isolated execution *)

Lemma same_settings_refl a : same_settings a a.
Proof. now repeat split. Qed.

Lemma same_settings_trans a b c :
  same_settings a b -> same_settings b c -> same_settings a c.
Proof.
  intros (A1 & A2 & A3 & A4) (B1 & B2 & B3 & B4). repeat split; congruence.
Qed.

Lemma sandbox_call_settings cmd_ok a b ev :
  same_settings a b -> sandbox_call cmd_ok a ev -> sandbox_call cmd_ok b ev.
Proof.
  intros (H1 & H2 & H3 & H4). unfold sandbox_call, create_args_of.
  destruct ev; auto; try congruence.
  now rewrite <- H1, <- H3, <- H4.
Qed.

Lemma confined_refl cmd_ok s : confined cmd_ok s s.
Proof.
  split; [apply same_settings_refl|]. exists []. now rewrite app_nil_r.
Qed.

Lemma confined_trans cmd_ok s1 s2 s3 :
  confined cmd_ok s1 s2 -> confined cmd_ok s2 s3 -> confined cmd_ok s1 s3.
Proof.
  intros (C1 & e1 & H1 & F1) (C2 & e2 & H2 & F2).
  split; [eapply same_settings_trans; eassumption|].
  exists (e1 ++ e2)%list. split.
  - rewrite H2, H1. now rewrite app_assoc.
  - apply Forall_app. split; [exact F1|].
    eapply Forall_impl; [|exact F2]. intros ev.
    apply sandbox_call_settings.
    destruct C1 as (A1 & A2 & A3 & A4). repeat split; congruence.
Qed.

Lemma confining_ret {A} cmd_ok (a : A) : confining cmd_ok (ret a).
Proof. intros s. apply confined_refl. Qed.

Lemma confining_raise {A} cmd_ok e : confining cmd_ok (@raise State A e).
Proof. intros s. apply confined_refl. Qed.

Lemma confining_self cmd_ok : confining cmd_ok self_.
Proof. intros s. apply confined_refl. Qed.

Lemma confining_bind {A B} cmd_ok (m : Py State A) (k : A -> Py State B) :
  confining cmd_ok m -> (forall a, confining cmd_ok (k a)) ->
  confining cmd_ok (bind m k).
Proof.
  intros Hm Hk s. unfold bind. specialize (Hm s).
  destruct (m s) as [[a|e] s']; cbn in *; auto.
  eapply confined_trans; [exact Hm | apply Hk].
Qed.

(** The events a run appended, each of them a call of the object. *)
Ltac confine :=
  split; [now repeat split|]; eexists;
  (split; [rewrite <- ?app_assoc; reflexivity|]);
  repeat first [apply Forall_nil | apply Forall_cons]; cbn; auto;
  try (unfold create_args_of, cpu_quota_of; cbn;
       match goal with H : py_int _ = _ |- _ => now rewrite H end).

Section Confining.
Variable w : World.
Variable cmd_ok : string -> Prop.

Lemma create_container_confining : confining cmd_ok (create_container w).
Proof.
  intros [self tr].
  unfold create_container, try_except, bind, self_, gets, call, on_trace,
    modify, ret, raise, of_sum. cbn.
  crack; confine.
Qed.

Lemma cleanup_confining : confining cmd_ok (cleanup w).
Proof.
  intros [self tr].
  unfold cleanup, try_except, bind, self_, gets, call, on_trace, modify,
    ret, raise. cbn.
  destruct (container self); cbn; [|apply confined_refl].
  crack; confine.
Qed.

Lemma run_in_container_confining code :
  cmd_ok (python_c code) -> confining cmd_ok (run_in_container w code).
Proof.
  intros Hok [self tr]. destruct (container self) as [c|] eqn:Hc.
  - rewrite (run_in_container_eq w code self tr c Hc). cbn [snd]. confine.
  - unfold run_in_container, try_except, bind, exec_run, self_, gets.
    cbn. rewrite Hc. apply confined_refl.
Qed.

Lemma execute_in_container_confining code :
  cmd_ok (python_c code) -> confining cmd_ok (execute_in_container w code).
Proof.
  intros Hok. unfold execute_in_container.
  apply confining_bind; [apply confining_self|]. intros self.
  destruct (container self).
  - now apply run_in_container_confining.
  - apply confining_bind; [apply create_container_confining|]. intros r.
    destruct (negb (st_success r));
      [apply confining_ret | now apply run_in_container_confining].
Qed.

Lemma get_resource_usage_confining : confining cmd_ok (get_resource_usage w).
Proof.
  intros s. destruct (get_resource_usage_returns w s) as (u & Hu & _).
  rewrite Hu. destruct s as [self tr]. cbn [fst snd].
  destruct (container self); [confine | rewrite app_nil_r; apply confined_refl].
Qed.

Lemma sandboxed_body_confining code :
  cmd_ok (python_c code) ->
  confining cmd_ok (CodeExecutionTool.sandboxed_body w code).
Proof.
  intros Hok. unfold CodeExecutionTool.sandboxed_body.
  apply confining_bind; [now apply execute_in_container_confining|].
  intros r.
  apply confining_bind; [apply get_resource_usage_confining|]. intros u.
  destruct (u_success u); [|apply confining_ret].
  destruct (cpu_percent u), (memory_mb u);
    (apply confining_ret || apply confining_raise).
Qed.

Lemma monitoring_body_confining code :
  cmd_ok (python_c code) ->
  confining cmd_ok (CodeExecutionTool.monitoring_body w code).
Proof.
  intros Hok. unfold CodeExecutionTool.monitoring_body.
  apply confining_bind; [now apply execute_in_container_confining|].
  intros r.
  apply confining_bind; [apply get_resource_usage_confining|]. intros u.
  apply confining_ret.
Qed.

Lemma scoped_confined {A} (body : Py State A) s1 :
  confining cmd_ok body ->
  exists evs,
    snd (match enter w s1 with
         | (Raise e, s2) => (@Raise A e, snd s2)
         | (Return _, s2) =>
             let '(o, s3) := body s2 in
             match exit w s3 with
             | (Raise e, s4) => (Raise e, snd s4)
             | (Return _, s4) => (o, snd s4)
             end
         end) = (snd s1 ++ evs)%list
    /\ Forall (sandbox_call cmd_ok (fst s1)) evs.
Proof.
  intros Hbody.
  assert (K1 : confined cmd_ok s1 (snd (enter w s1))).
  { apply (confining_bind cmd_ok (create_container w) (fun _ => ret tt));
      [apply create_container_confining | intros; apply confining_ret]. }
  destruct (enter w s1) as [[[]|e1] s2]; cbn [snd] in K1.
  - pose proof (Hbody s2) as K2. destruct (body s2) as [ob s3]. cbn [snd] in K2.
    assert (K3 : confined cmd_ok s3 (snd (exit w s3))).
    { apply (confining_bind cmd_ok (cleanup w) (fun _ => ret tt));
        [apply cleanup_confining | intros; apply confining_ret]. }
    pose proof (confined_trans _ _ _ _ (confined_trans _ _ _ _ K1 K2) K3) as K.
    destruct (exit w s3) as [[[]|e] s4]; cbn [snd] in K |- *;
      now destruct K as (_ & evs & E & F); exists evs.
  - cbn [snd]. now destruct K1 as (_ & evs & E & F); exists evs.
Qed.

(** A [with] statement on a new object: [docker.from_env], then calls of
    that object only. *)
Lemma with_sandbox_confined {A} image timeout mem cpu (body : Py State A)
  tr0 :
  confining cmd_ok body ->
  exists events,
    snd (with_sandbox w (init w image timeout mem cpu) body tr0)
    = (tr0 ++ EvFromEnv (docker_from_env w tr0) :: events)%list
    /\ Forall (sandbox_call cmd_ok (mk image timeout mem cpu None)) events.
Proof.
  intros Hbody. unfold with_sandbox, init.
  destruct (docker_from_env w tr0) as [e0|].
  - exists []. split; [reflexivity | constructor].
  - destruct (scoped_confined body
                (mk image timeout mem cpu None, (tr0 ++ [EvFromEnv None])%list)
                Hbody) as (evs & E & F).
    exists evs. split; [|exact F].
    cbn [fst snd] in E. rewrite <- app_assoc in E. exact E.
Qed.

End Confining.

(** What [CodeExecutionTool.execute] calls, mode by mode. *)
Lemma tool_execute_calls w self code sandbox timeout tr :
  let t := CodeExecutionTool.timeout_or timeout
             (CodeExecutionTool.timeout self) in
  exists events,
    snd (CodeExecutionTool.execute w self code sandbox timeout tr)
    = (tr ++ events)%list
    /\ (events = []
        \/ if CodeExecutionTool.use_sandbox self
              || CodeExecutionTool.truthy sandbox
           then exists rest,
               events = EvFromEnv (docker_from_env w tr) :: rest
               /\ Forall (sandbox_call (eq (python_c code))
                            (mk default_image t
                               (CodeExecutionTool.memory_limit_mb self)
                               (CodeExecutionTool.cpu_limit self) None))
                    rest
           else events = [EvSubprocessRun code t (subprocess_run w tr code t)]).
Proof.
  intros t. destruct (ast_parse w code) as [|lineno msg|e] eqn:Hparse.
  - destruct (CodeExecutionTool.use_sandbox self
              || CodeExecutionTool.truthy sandbox) eqn:Hs.
    + rewrite (tool_execute_sandboxed w self code sandbox timeout tr Hparse Hs).
      fold t.
      destruct (with_sandbox_confined w (eq (python_c code)) default_image t
                  (CodeExecutionTool.memory_limit_mb self)
                  (CodeExecutionTool.cpu_limit self)
                  (CodeExecutionTool.sandboxed_body w code) tr
                  (sandboxed_body_confining w _ code eq_refl))
        as (rest & E & F).
      exists (EvFromEnv (docker_from_env w tr) :: rest). split.
      * unfold CodeExecutionTool._execute_sandboxed, try_except.
        now destruct (with_sandbox w _ _ tr) as [[r|e] tr'].
      * right. now exists rest.
    + apply orb_false_elim in Hs as [Hu Ht].
      rewrite (tool_execute_direct w self code sandbox timeout tr Hparse Hu Ht).
      eexists. split; [reflexivity|]. now right.
  - destruct (tool_execute_syntax_error w self code sandbox timeout tr
                lineno msg Hparse) as (err & Hr).
    exists []. rewrite Hr, app_nil_r. split; [reflexivity | now left].
  - exists []. rewrite app_nil_r. split; [|now left].
    unfold CodeExecutionTool.execute, bind, CodeExecutor.validate_syntax.
    now rewrite Hparse.
Qed.

(** What [execute_with_monitoring] calls. *)
Lemma monitoring_calls w self code tr :
  CodeExecutionTool.use_sandbox self = true ->
  exists rest,
    snd (CodeExecutionTool.execute_with_monitoring w self code tr)
    = (tr ++ EvFromEnv (docker_from_env w tr) :: rest)%list
    /\ Forall (sandbox_call (eq (python_c code))
                 (mk default_image (CodeExecutionTool.timeout self)
                    (CodeExecutionTool.memory_limit_mb self)
                    (CodeExecutionTool.cpu_limit self) None))
         rest.
Proof.
  intros Hu.
  destruct (with_sandbox_confined w (eq (python_c code)) default_image
              (CodeExecutionTool.timeout self)
              (CodeExecutionTool.memory_limit_mb self)
              (CodeExecutionTool.cpu_limit self)
              (CodeExecutionTool.monitoring_body w code) tr
              (monitoring_body_confining w _ code eq_refl))
    as (rest & E & F).
  exists rest. split; [|exact F].
  unfold CodeExecutionTool.execute_with_monitoring, try_except.
  rewrite Hu. cbn [negb].
  now destruct (with_sandbox w _ _ tr) as [[r|e] tr'].
Qed.

Lemma sandbox_calls_spawn_nothing cmd_ok self evs :
  Forall (sandbox_call cmd_ok self) evs ->
  existsb is_subprocess evs = false /\ existsb is_update evs = false.
Proof.
  induction 1 as [|ev evs Hev _ [IH1 IH2]]; [now split|].
  cbn. rewrite IH1, IH2. now destruct ev.
Qed.

(** X12.  The two modes do not mix.  An execution that is isolated, because
    the tool was built with [use_sandbox] or because the [sandbox] argument
    is true, never spawns a process on the host and never calls [update]; in
    particular [sandbox=False] does not take a tool built with
    [use_sandbox=True] out of isolation.  An execution that is not isolated
    makes no Docker call: it makes the single call [subprocess.run], or no
    call at all when the source does not parse. *)
Theorem modes_do_not_mix w self code sandbox timeout tr :
  exists events,
    snd (CodeExecutionTool.execute w self code sandbox timeout tr)
    = (tr ++ events)%list
    /\ (CodeExecutionTool.use_sandbox self || CodeExecutionTool.truthy sandbox
        = true ->
        existsb is_subprocess events = false
        /\ existsb is_update events = false)
    /\ (CodeExecutionTool.use_sandbox self || CodeExecutionTool.truthy sandbox
        = false ->
        forallb is_subprocess events = true /\ (length events <= 1)%nat).
Proof.
  destruct (tool_execute_calls w self code sandbox timeout tr)
    as (events & E & H).
  exists events. split; [exact E|].
  destruct H as [->|H]; [repeat split; auto|].
  destruct (CodeExecutionTool.use_sandbox self
            || CodeExecutionTool.truthy sandbox).
  - split; [|discriminate]. intros _.
    destruct H as (rest & -> & F). cbn.
    now apply sandbox_calls_spawn_nothing in F.
  - split; [discriminate|]. intros _. subst events. cbn. split; auto.
Qed.

Lemma create_args_of_quota image timeout mem cpu c args :
  create_args_of (mk image timeout mem cpu c) = Some args ->
  exists quota,
    py_int (mul_literal cpu 100000) = inr quota
    /\ args = mkCreateArgs image "sleep infinity" true (str_of_Z mem ++ "m")
                quota 100000 "none".
Proof.
  unfold create_args_of, cpu_quota_of. cbn.
  destruct (py_int _) as [e|quota]; [discriminate|].
  intros H. injection H as <-. now exists quota.
Qed.

(** X13.  The containers of the orchestrator are cut off from the network
    and sized by the tool: every call to [containers.create] made by
    [execute] or by [execute_with_monitoring] asks for the image
    [python:3.11-slim] running [sleep infinity], detached, with
    [network_mode="none"], the memory limit of the tool as ["<mb>m"] and its
    CPU limit as a quota over a period of 100000; the quota is
    [int(cpu * 100000)], computed in double precision.  When that [int]
    raises, no container is created. *)
Theorem containers_are_created_without_network w self code :
  let sized args :=
    exists quota,
      py_int (mul_literal (CodeExecutionTool.cpu_limit self) 100000)
      = inr quota
      /\ args
         = mkCreateArgs "python:3.11-slim" "sleep infinity" true
             (str_of_Z (CodeExecutionTool.memory_limit_mb self) ++ "m")
             quota 100000 "none" in
  (forall sandbox timeout tr,
      exists events,
        snd (CodeExecutionTool.execute w self code sandbox timeout tr)
        = (tr ++ events)%list
        /\ forall args r,
             In (EvContainersCreate args r) events -> sized args)
  /\ (forall tr,
         exists events,
           snd (CodeExecutionTool.execute_with_monitoring w self code tr)
           = (tr ++ events)%list
           /\ forall args r,
                In (EvContainersCreate args r) events -> sized args).
Proof.
  intros sized. split.
  - intros sandbox timeout tr.
    destruct (tool_execute_calls w self code sandbox timeout tr)
      as (events & E & H).
    exists events. split; [exact E|]. intros args r Hin.
    destruct H as [->|H]; [destruct Hin|].
    destruct (CodeExecutionTool.use_sandbox self
              || CodeExecutionTool.truthy sandbox).
    + destruct H as (rest & -> & F).
      destruct Hin as [Hin|Hin]; [discriminate Hin|].
      rewrite Forall_forall in F.
      exact (create_args_of_quota _ _ _ _ _ _ (F _ Hin)).
    + subst events. destruct Hin as [Hin|[]]. discriminate Hin.
  - intros tr.
    destruct (CodeExecutionTool.use_sandbox self) eqn:Hu.
    + destruct (monitoring_calls w self code tr Hu) as (rest & E & F).
      eexists. split; [exact E|]. intros args r Hin.
      destruct Hin as [Hin|Hin]; [discriminate Hin|].
      rewrite Forall_forall in F.
      exact (create_args_of_quota _ _ _ _ _ _ (F _ Hin)).
    + exists []. rewrite app_nil_r. split; [|intros ? ? []].
      unfold CodeExecutionTool.execute_with_monitoring. now rewrite Hu.
Qed.


(** ** Execution with monitoring *)

Section Monitoring.
Variable w : World.

Lemma monitoring_body_growing code :
  growing (CodeExecutionTool.monitoring_body w code).
Proof.
  unfold CodeExecutionTool.monitoring_body.
  apply growing_bind; [apply execute_in_container_growing|]. intros r.
  apply growing_bind; [apply get_resource_usage_growing|]. intros u.
  apply growing_ret.
Qed.

(** A result as [execute_in_container] builds it: without the keys
    [sandboxed] and [resource_usage]. *)
Lemma execute_in_container_bare code :
  returns_only (fun r => sandboxed r = None /\ resource_usage r = None)
    (execute_in_container w code).
Proof.
  unfold execute_in_container. apply returns_only_bind. intros self.
  assert (Hrun : returns_only
                   (fun r => sandboxed r = None /\ resource_usage r = None)
                   (run_in_container w code)).
  { unfold run_in_container. apply returns_only_try_except.
    - apply returns_only_bind. intros [rc [out err]].
      apply returns_only_bind. intros stdout.
      apply returns_only_bind. intros stderr.
      destruct (rc =? 0)%Z; now apply returns_only_ret.
    - intros e. now apply returns_only_ret. }
  destruct (container self); [exact Hrun|].
  apply returns_only_bind. intros st.
  destruct (negb (st_success st)); [now apply returns_only_ret | exact Hrun].
Qed.

Lemma get_resource_usage_well_formed :
  returns_only usage_well_formed (get_resource_usage w).
Proof.
  intros s u s' E. destruct (get_resource_usage_returns w s) as (u' & Hu & H & _).
  rewrite Hu in E. now injection E as <- _.
Qed.

(** The calls of a [with] statement depend on the calls of its body
    only. *)
Lemma with_sandbox_same_calls {A B} ctor (body1 : Py State A)
  (body2 : Py State B) tr :
  (forall s, snd (body1 s) = snd (body2 s)) ->
  snd (with_sandbox w ctor body1 tr) = snd (with_sandbox w ctor body2 tr).
Proof.
  intros H. unfold with_sandbox.
  destruct (ctor tr) as [[sb|e] tr1]; [|reflexivity].
  destruct (enter w (sb, tr1)) as [[[]|e] s2]; [|reflexivity].
  specialize (H s2).
  destruct (body1 s2) as [o1 s3], (body2 s2) as [o2 s3']. cbn in H. subst s3'.
  now destruct (exit w s3) as [[[]|e] s4].
Qed.

Lemma bodies_make_the_same_calls code s :
  snd (CodeExecutionTool.monitoring_body w code s)
  = snd (CodeExecutionTool.sandboxed_body w code s).
Proof.
  unfold CodeExecutionTool.monitoring_body, CodeExecutionTool.sandboxed_body,
    bind.
  destruct (execute_in_container w code s) as [[r|e] s1]; [|reflexivity].
  destruct (get_resource_usage w s1) as [[u|e] s2]; [|reflexivity].
  destruct (u_success u); [|reflexivity].
  now destruct (cpu_percent u), (memory_mb u).
Qed.

Lemma monitoring_same_calls self code tr :
  CodeExecutionTool.use_sandbox self = true ->
  snd (CodeExecutionTool.execute_with_monitoring w self code tr)
  = snd (CodeExecutionTool._execute_sandboxed w self code
           (CodeExecutionTool.timeout self) tr).
Proof.
  intros Hu.
  pose proof (with_sandbox_same_calls
                (init w default_image (CodeExecutionTool.timeout self)
                   (CodeExecutionTool.memory_limit_mb self)
                   (CodeExecutionTool.cpu_limit self))
                (CodeExecutionTool.monitoring_body w code)
                (CodeExecutionTool.sandboxed_body w code) tr
                (bodies_make_the_same_calls code)) as H.
  unfold CodeExecutionTool.execute_with_monitoring,
    CodeExecutionTool._execute_sandboxed, try_except.
  rewrite Hu. cbn [negb].
  destruct (with_sandbox w _ (CodeExecutionTool.monitoring_body w code) tr)
    as [[m|e] tr1];
    destruct (with_sandbox w _ (CodeExecutionTool.sandboxed_body w code) tr)
      as [[r|e'] tr2]; exact H.
Qed.

End Monitoring.

(** X15.  [execute_with_monitoring] returns a dictionary on every path,
    whatever the Docker engine answers.  On a tool built without
    [use_sandbox] it makes no call and returns the error
    ["Monitoring requires sandbox mode"].  If a command was submitted to a
    container, the calls end with those of [cleanup]; if a container was
    started, the environment ends [Destroyed] or [TeardownFailed]; in no
    case is it left [Executing]. *)
Theorem monitoring_always_returns_and_tears_down w self code tr0 :
  exists m events,
    CodeExecutionTool.execute_with_monitoring w self code tr0
    = (Return m, (tr0 ++ events)%list)
    /\ (CodeExecutionTool.use_sandbox self = false ->
        m = MonitoringError "Monitoring requires sandbox mode"
        /\ events = [])
    /\ (existsb is_exec_run events = true -> ends_with_cleanup events)
    /\ (existsb is_started events = true ->
        ends_with_cleanup events
        /\ (lifecycle events = Destroyed \/ lifecycle events = TeardownFailed))
    /\ lifecycle events <> Executing.
Proof.
  unfold CodeExecutionTool.execute_with_monitoring.
  destruct (CodeExecutionTool.use_sandbox self); cbn [negb].
  - destruct (with_sandbox_calls w default_image
                (CodeExecutionTool.timeout self)
                (CodeExecutionTool.memory_limit_mb self)
                (CodeExecutionTool.cpu_limit self)
                (CodeExecutionTool.monitoring_body w code) tr0
                (monitoring_body_growing w code)) as (events & E & Hs).
    unfold try_except.
    destruct (with_sandbox w _ _ tr0) as [[m|e] tr]; cbn [snd] in E; subst tr;
      eexists _, events; (split; [reflexivity|]);
      (split; [discriminate|]); now apply settled_torn_down.
  - exists (MonitoringError "Monitoring requires sandbox mode"), [].
    rewrite app_nil_r. split; [reflexivity|]. split; [now split|].
    repeat split; discriminate.
Qed.

(** X16.  In the dictionary [execute_with_monitoring] returns, the
    [execution] is a well-formed result as [execute_in_container] builds it,
    without the keys [sandboxed] and [resource_usage]; and [resources], when
    it is not [None], is a successful sample that holds [cpu_percent],
    [memory_mb] and [memory_percent]. *)
Theorem monitored_run_is_well_formed w self code tr m tr' :
  CodeExecutionTool.execute_with_monitoring w self code tr = (Return m, tr') ->
  match m with
  | MonitoringError _ => True
  | MonitoredRun r resources =>
      well_formed r
      /\ sandboxed r = None
      /\ resource_usage r = None
      /\ forall u, resources = Some u ->
                   u_success u = true
                   /\ cpu_percent u <> None
                   /\ memory_mb u <> None
                   /\ memory_percent u <> None
  end.
Proof.
  revert tr m tr'.
  change (returns_only
            (fun m =>
               match m with
               | MonitoringError _ => True
               | MonitoredRun r resources =>
                   well_formed r
                   /\ sandboxed r = None
                   /\ resource_usage r = None
                   /\ forall u, resources = Some u ->
                                u_success u = true
                                /\ cpu_percent u <> None
                                /\ memory_mb u <> None
                                /\ memory_percent u <> None
               end)
            (CodeExecutionTool.execute_with_monitoring w self code)).
  unfold CodeExecutionTool.execute_with_monitoring.
  destruct (negb (CodeExecutionTool.use_sandbox self));
    [now apply returns_only_ret|].
  apply returns_only_try_except; [|intros e; now apply returns_only_ret].
  apply with_sandbox_returns_only.
  unfold CodeExecutionTool.monitoring_body.
  intros s m s' E. unfold bind in E.
  destruct (execute_in_container w code s) as [[r|e] s1] eqn:Er;
    [|discriminate E].
  destruct (get_resource_usage w s1) as [[u|e] s2] eqn:Eu; [|discriminate E].
  injection E as <- _.
  pose proof (execute_in_container_well_formed w code _ _ _ Er) as Hwf.
  destruct (execute_in_container_bare w code _ _ _ Er) as [Hs Hr].
  pose proof (get_resource_usage_well_formed w _ _ _ Eu) as Hu.
  split; [exact Hwf|]. split; [exact Hs|]. split; [exact Hr|].
  intros u0 Hres. unfold usage_well_formed in Hu.
  destruct (u_success u) eqn:Hok; [|discriminate Hres].
  injection Hres as <-. destruct Hu as (H1 & H2 & H3 & _).
  now repeat split.
Qed.

Lemma monitored_run_is_well_formed_witness :
  well_formed (mkResult true (Some "") None None None None)
  /\ forall u,
       Some (mkUsage true (Some (float_literal 1 1)) (Some float_zero)
               (Some (float_literal 3333 2)) None) = Some u ->
       u_success u = true /\ cpu_percent u <> None /\ memory_mb u <> None
       /\ memory_percent u <> None.
Proof.
  pose proof (monitored_run_is_well_formed sampled_world (a_tool true)
                "print(1)" []
                (MonitoredRun (mkResult true (Some "") None None None None)
                   (Some (mkUsage true (Some (float_literal 1 1))
                            (Some float_zero) (Some (float_literal 3333 2))
                            None)))
                _ eq_refl) as (H1 & _ & _ & H4).
  split; [exact H1 | exact H4].
Defined.

(** X17.  [execute_with_monitoring] checks no syntax.  It makes the calls
    of an isolated execution under the timeout of the tool, whatever the
    parser says of the source: [execute] makes the same calls when the
    source parses, and none when [ast.parse] raises [SyntaxError], where
    [execute_with_monitoring] still reaches for Docker. *)
Theorem monitoring_skips_the_syntax_check w self code tr :
  CodeExecutionTool.use_sandbox self = true ->
  snd (CodeExecutionTool.execute_with_monitoring w self code tr)
  = snd (CodeExecutionTool._execute_sandboxed w self code
           (CodeExecutionTool.timeout self) tr)
  /\ (ast_parse w code = Parsed ->
      snd (CodeExecutionTool.execute w self code None None tr)
      = snd (CodeExecutionTool.execute_with_monitoring w self code tr))
  /\ (forall lineno msg,
         ast_parse w code = SyntaxErr lineno msg ->
         snd (CodeExecutionTool.execute w self code None None tr) = tr
         /\ exists rest,
             snd (CodeExecutionTool.execute_with_monitoring w self code tr)
             = (tr ++ EvFromEnv (docker_from_env w tr) :: rest)%list).
Proof.
  intros Hu. split; [now apply monitoring_same_calls|]. split.
  - intros Hp.
    rewrite (tool_execute_sandboxed w self code None None tr Hp)
      by now rewrite Hu.
    symmetry. now apply monitoring_same_calls.
  - intros lineno msg Hp. split.
    + destruct (tool_execute_syntax_error w self code None None tr lineno msg
                  Hp) as (err & Hr).
      now rewrite Hr.
    + destruct (monitoring_calls w self code tr Hu) as (rest & E & _).
      now exists rest.
Qed.

Lemma monitoring_skips_the_syntax_check_witness :
  snd (CodeExecutionTool.execute cpython_world (a_tool true)
         "print('missing paren'" None None []) = []
  /\ exists rest,
      snd (CodeExecutionTool.execute_with_monitoring cpython_world
             (a_tool true) "print('missing paren'" [])
      = EvFromEnv None :: rest
      /\ In (EvExecRun (python_c "print('missing paren'") 30
               (ExecReturned 0 None None)) rest.
Proof.
  destruct (monitoring_skips_the_syntax_check cpython_world (a_tool true)
              "print('missing paren'" [] eq_refl) as (_ & _ & H).
  destruct (H (Some 1%Z) "'(' was never closed" eq_refl)
    as (H1 & rest & H2).
  split; [exact H1|]. exists rest. split; [exact H2|].
  vm_compute in H2. injection H2 as <-. cbn. tauto.
Defined.

(** X18.  When the Docker daemon cannot be reached, so that
    [docker.from_env] raises, nothing else is called and nothing is raised:
    an isolated execution returns a failure tagged with the class name of
    the exception and flagged [sandboxed], and [execute_with_monitoring]
    returns the text of the exception under [error]. *)
Theorem unreachable_daemon_is_reported w self code timeout tr e :
  docker_from_env w tr = Some e ->
  CodeExecutionTool._execute_sandboxed w self code timeout tr
  = (Return (mkResult false None (Some (exc_str e)) (Some (exc_name e))
               (Some true) None),
     (tr ++ [EvFromEnv (Some e)])%list)
  /\ (CodeExecutionTool.use_sandbox self = true ->
      CodeExecutionTool.execute_with_monitoring w self code tr
      = (Return (MonitoringError (exc_str e)),
         (tr ++ [EvFromEnv (Some e)])%list)).
Proof.
  intros He. split.
  - unfold CodeExecutionTool._execute_sandboxed, try_except, with_sandbox,
      init. now rewrite He.
  - intros Hu.
    unfold CodeExecutionTool.execute_with_monitoring. rewrite Hu.
    cbn [negb]. unfold try_except, with_sandbox, init. now rewrite He.
Qed.

Lemma unreachable_daemon_is_reported_witness :
  CodeExecutionTool.execute no_daemon_world (a_tool true) "print(1+1)" None
    None []
  = (Return (mkResult false None
               (Some "Error while fetching server API version")
               (Some "DockerException") (Some true) None),
     [EvFromEnv (Some DockerException_down)])
  /\ CodeExecutionTool.execute_with_monitoring no_daemon_world (a_tool true)
       "print(1+1)" []
     = (Return (MonitoringError "Error while fetching server API version"),
        [EvFromEnv (Some DockerException_down)]).
Proof.
  destruct (unreachable_daemon_is_reported no_daemon_world (a_tool true)
              "print(1+1)" 30 [] DockerException_down eq_refl) as [H1 H2].
  split; [exact H1 | exact (H2 eq_refl)].
Defined.

(** ** Provisioning and teardown inside the [with] statement *)

Section Scope.
Variable w : World.

Lemma confined_extends cmd_ok s s' :
  confined cmd_ok s s' -> exists evs, snd s' = (snd s ++ evs)%list.
Proof. intros (_ & evs & E & _). now exists evs. Qed.

(** [create_container] starts by asking for the image. *)
Lemma create_container_asks_first self tr :
  exists evs,
    snd (snd (create_container w (self, tr)))
    = (tr ++ EvImagesGet (image self) (images_get w tr (image self))
          :: evs)%list.
Proof.
  unfold create_container, try_except, bind, self_, gets, call, on_trace,
    modify, ret, raise, of_sum. cbn.
  destruct (images_get w tr (image self)) as [e|]; cbn;
    crack; eexists; rewrite <- ?app_assoc; reflexivity.
Qed.

(** On an object without a container, both bodies start by
    provisioning. *)
Lemma execute_in_container_asks_first code self tr :
  container self = None ->
  exists evs,
    snd (snd (execute_in_container w code (self, tr)))
    = (tr ++ EvImagesGet (image self) (images_get w tr (image self))
          :: evs)%list.
Proof.
  intros Hc. destruct (create_container_asks_first self tr) as (evs & E).
  unfold execute_in_container, bind, self_, gets. cbn. rewrite Hc.
  destruct (create_container w (self, tr)) as [[st|e] s1] eqn:Hcr;
    cbn [snd] in E.
  - destruct (negb (st_success st)).
    + exists evs. exact E.
    + destruct (confined_extends (fun _ => True) _ _
                  (run_in_container_confining w _ code I s1)) as (evs' & E').
      exists (evs ++ evs')%list. rewrite E', E, <- app_assoc. reflexivity.
  - exists evs. exact E.
Qed.

Lemma sandboxed_body_asks_first code self tr :
  container self = None ->
  exists evs,
    snd (snd (CodeExecutionTool.sandboxed_body w code (self, tr)))
    = (tr ++ EvImagesGet (image self) (images_get w tr (image self))
          :: evs)%list.
Proof.
  intros Hc.
  destruct (execute_in_container_asks_first code self tr Hc) as (evs & E).
  unfold CodeExecutionTool.sandboxed_body, bind.
  destruct (execute_in_container w code (self, tr)) as [[r|e] s1];
    cbn [snd] in E; [|now exists evs].
  destruct (get_resource_usage_returns w s1) as (u & Hu & _).
  rewrite Hu.
  eexists (evs ++ _)%list.
  destruct (u_success u);
    [destruct (cpu_percent u), (memory_mb u)|]; cbn [snd ret raise];
    rewrite E, <- app_assoc; reflexivity.
Qed.

(** The outcome of a [with] statement, from the outcome of its body and
    of [cleanup]. *)
Lemma with_sandbox_exit {A} ctor (body : Py State A) tr sb tr1 s2 o s3 :
  ctor tr = (Return sb, tr1) ->
  enter w (sb, tr1) = (Return tt, s2) ->
  body s2 = (o, s3) ->
  with_sandbox w ctor body tr
  = match cleanup w s3 with
    | (Return _, s4) => (o, snd s4)
    | (Raise e, s4) => (Raise e, snd s4)
    end.
Proof.
  intros Hctor Henter Hbody. unfold with_sandbox.
  rewrite Hctor, Henter, Hbody. unfold exit, bind.
  now destruct (cleanup w s3) as [[st|e] s4].
Qed.

Lemma body_and_cleanup_ask_first code self tr o s3 :
  container self = None ->
  CodeExecutionTool.sandboxed_body w code (self, tr) = (o, s3) ->
  exists rest,
    snd (snd (cleanup w s3))
    = (tr ++ EvImagesGet (image self) (images_get w tr (image self))
          :: rest)%list.
Proof.
  intros Hc Hb.
  destruct (sandboxed_body_asks_first code self tr Hc) as (evs & E).
  rewrite Hb in E. cbn [snd] in E.
  destruct (confined_extends (fun _ => True) _ _
              (cleanup_confining w _ s3)) as (evs' & E').
  exists (evs ++ evs')%list. rewrite E', E, <- app_assoc. reflexivity.
Qed.

End Scope.

(** X19.  [__enter__] drops the status of [create_container].  When the
    first call to [images.get] raises a [DockerException] other than
    [ImageNotFound], the body of the [with] statement runs all the same, and
    [execute_in_container], finding no container, provisions once more: a
    second call to [images.get] follows the first. *)
Theorem provisioning_is_attempted_twice w self code timeout tr e :
  docker_from_env w tr = None ->
  images_get w (tr ++ [EvFromEnv None])%list default_image = Some e ->
  isinstance e "ImageNotFound" = false ->
  isinstance e "DockerException" = true ->
  exists rest,
    snd (CodeExecutionTool._execute_sandboxed w self code timeout tr)
    = (tr ++ EvFromEnv None
          :: EvImagesGet default_image (Some e)
          :: EvImagesGet default_image
               (images_get w
                  (tr ++ [EvFromEnv None;
                          EvImagesGet default_image (Some e)])%list
                  default_image)
          :: rest)%list.
Proof.
  intros Henv Hget Hnf Hde.
  assert (Hinit : init w default_image timeout
                    (CodeExecutionTool.memory_limit_mb self)
                    (CodeExecutionTool.cpu_limit self) tr
                  = (Return (mk default_image timeout
                               (CodeExecutionTool.memory_limit_mb self)
                               (CodeExecutionTool.cpu_limit self) None),
                     (tr ++ [EvFromEnv None])%list)).
  { unfold init. now rewrite Henv. }
  assert (Henter : enter w
                     (mk default_image timeout
                        (CodeExecutionTool.memory_limit_mb self)
                        (CodeExecutionTool.cpu_limit self) None,
                      (tr ++ [EvFromEnv None])%list)
                   = (Return tt,
                      (mk default_image timeout
                         (CodeExecutionTool.memory_limit_mb self)
                         (CodeExecutionTool.cpu_limit self) None,
                       (tr ++ [EvFromEnv None;
                               EvImagesGet default_image (Some e)])%list))).
  { unfold enter, create_container, try_except, bind, self_, gets, call,
      on_trace, modify, ret, raise, of_sum. cbn.
    rewrite Hget. cbn. rewrite Hnf. cbn. rewrite Hde.
    now rewrite <- app_assoc. }
  destruct (CodeExecutionTool.sandboxed_body w code
              (mk default_image timeout
                 (CodeExecutionTool.memory_limit_mb self)
                 (CodeExecutionTool.cpu_limit self) None,
               (tr ++ [EvFromEnv None;
                       EvImagesGet default_image (Some e)])%list))
    as [o s3] eqn:Hb.
  pose proof (fun Hc => body_and_cleanup_ask_first w code _ _ o s3 Hc Hb)
    as Hrest.
  destruct (Hrest eq_refl) as (rest & E).
  exists rest.
  unfold CodeExecutionTool._execute_sandboxed, try_except.
  rewrite (with_sandbox_exit w _ _ tr _ _ _ o s3 Hinit Henter Hb).
  cbn [image] in E. rewrite <- app_assoc in E. cbn [app] in E.
  destruct (cleanup w s3) as [[st|e'] s4]; cbn [snd] in E |- *;
    destruct o; exact E.
Qed.

Lemma provisioning_is_attempted_twice_witness :
  exists rest,
    snd (CodeExecutionTool._execute_sandboxed waking_world (a_tool true)
           "print(1+1)" 30 [])
    = EvFromEnv None
      :: EvImagesGet default_image (Some DockerException_down)
      :: EvImagesGet default_image None
      :: rest.
Proof.
  destruct (provisioning_is_attempted_twice waking_world (a_tool true)
              "print(1+1)" 30 [] DockerException_down
              eq_refl eq_refl eq_refl eq_refl) as (rest & H).
  exists rest. exact H.
Defined.

(** X20.  When the body of the [with] statement of an isolated execution
    has returned a result, [cleanup] decides what the caller gets.  When
    [cleanup] returns, with a success or with a failure (a
    [DockerException] raised by [stop] or [remove]), the result of the body
    is returned as it is: a teardown that Docker refused is not reported.
    When [cleanup] raises, which it does for any other exception, the result
    of the body is dropped, and a failure tagged with the class name of
    that exception is returned in its place. *)
Theorem teardown_decides_what_is_returned
  w self code timeout tr sb tr1 s2 r s3 :
  init w default_image timeout (CodeExecutionTool.memory_limit_mb self)
    (CodeExecutionTool.cpu_limit self) tr = (Return sb, tr1) ->
  enter w (sb, tr1) = (Return tt, s2) ->
  CodeExecutionTool.sandboxed_body w code s2 = (Return r, s3) ->
  match cleanup w s3 with
  | (Return st, s4) =>
      CodeExecutionTool._execute_sandboxed w self code timeout tr
      = (Return r, snd s4)
  | (Raise e, s4) =>
      isinstance e "DockerException" = false
      /\ CodeExecutionTool._execute_sandboxed w self code timeout tr
         = (Return (mkResult false None (Some (exc_str e))
                      (Some (exc_name e)) (Some true) None),
            snd s4)
  end.
Proof.
  intros Hinit Henter Hbody.
  unfold CodeExecutionTool._execute_sandboxed, try_except.
  rewrite (with_sandbox_exit w _ _ tr sb tr1 s2 (Return r) s3 Hinit Henter
             Hbody).
  pose proof (cleanup_cases w s3) as Hc.
  destruct (cleanup w s3) as [[st|e] s4]; [reflexivity|].
  split; [apply Hc | reflexivity].
Qed.

Lemma teardown_decides_what_is_returned_witness :
  fst (CodeExecutionTool._execute_sandboxed no_stop_world (a_tool true)
         "print(1+1)" 30 [])
  = Return (mkResult true (Some "") None None (Some true) None)
  /\ fst (CodeExecutionTool._execute_sandboxed stop_hangs_world (a_tool true)
            "print(1+1)" 30 [])
     = Return (mkResult false None (Some (exc_str ReadTimeout_5))
                 (Some "ReadTimeout") (Some true) None).
Proof.
  split.
  - pose proof (teardown_decides_what_is_returned no_stop_world (a_tool true)
                  "print(1+1)" 30 [] _ _ _ _ _ eq_refl eq_refl eq_refl) as H.
    cbn in H. now rewrite H.
  - pose proof (teardown_decides_what_is_returned stop_hangs_world
                  (a_tool true) "print(1+1)" 30 [] _ _ _ _ _
                  eq_refl eq_refl eq_refl) as H.
    cbn in H. destruct H as [_ H]. now rewrite H.
Defined.

(** X30.  When [__enter__] raises, which it does when provisioning fails
    with an exception that is no [DockerException], the [with] statement
    runs neither its body nor [__exit__]: [_execute_sandboxed] returns a
    failure tagged with the class name of the exception, after calls that
    provision only.  No container was started, and none is stopped or
    removed: a container that [containers.create] had returned stays with
    Docker, created and never started. *)
Theorem failed_acquisition_skips_cleanup w self code timeout tr0 sb tr1 e s2 :
  init w default_image timeout (CodeExecutionTool.memory_limit_mb self)
    (CodeExecutionTool.cpu_limit self) tr0 = (Return sb, tr1) ->
  enter w (sb, tr1) = (Raise e, s2) ->
  exists evs,
    CodeExecutionTool._execute_sandboxed w self code timeout tr0
    = (Return (mkResult false None (Some (exc_str e)) (Some (exc_name e))
                 (Some true) None),
       (tr0 ++ EvFromEnv None :: evs)%list)
    /\ isinstance e "DockerException" = false
    /\ forallb is_provision evs = true
    /\ existsb is_started evs = false
    /\ existsb is_teardown evs = false
    /\ (existsb is_created evs = true -> container (fst s2) <> None).
Proof.
  intros Hinit Henter.
  unfold CodeExecutionTool._execute_sandboxed, try_except, with_sandbox.
  rewrite Hinit, Henter. cbn [snd ret].
  unfold init in Hinit.
  destruct (docker_from_env w tr0); [discriminate Hinit|].
  injection Hinit as <- <-.
  destruct (enter_create w (mk default_image timeout
                              (CodeExecutionTool.memory_limit_mb self)
                              (CodeExecutionTool.cpu_limit self) None,
                            (tr0 ++ [EvFromEnv None])%list))
    as [Hsnd Hfst].
  unfold Trace in *. rewrite Henter in Hsnd, Hfst. cbn [fst snd] in Hsnd, Hfst.
  pose proof (proj1 (Hfst e) eq_refl) as Hraise.
  destruct (create_container_calls w
              (mk default_image timeout
                 (CodeExecutionTool.memory_limit_mb self)
                 (CodeExecutionTool.cpu_limit self) None,
               (tr0 ++ [EvFromEnv None])%list))
    as (evs & E & P & _ & St).
  pose proof (create_container_failure w
                (mk default_image timeout
                   (CodeExecutionTool.memory_limit_mb self)
                   (CodeExecutionTool.cpu_limit self) None,
                 (tr0 ++ [EvFromEnv None])%list)) as Hf.
  destruct (create_container_holding w
              (mk default_image timeout
                 (CodeExecutionTool.memory_limit_mb self)
                 (CodeExecutionTool.cpu_limit self) None,
               (tr0 ++ [EvFromEnv None])%list))
    as (evs' & E' & Q).
  unfold Trace in *. rewrite <- Hsnd in E, E', Q.
  destruct (create_container w _) as [[st|e'] s'];
    [discriminate Hraise|].
  cbn [fst] in Hraise. injection Hraise as ->.
  cbn [snd] in E, E'. rewrite E in E'. apply app_inv_head in E'. subst evs'.
  exists evs. rewrite E, <- app_assoc. split; [reflexivity|].
  split; [exact (proj1 Hf)|]. split; [exact P|].
  assert (Hst : existsb is_started evs = false).
  { destruct (existsb is_started evs); [|reflexivity].
    destruct (St eq_refl) as [Hret _]. discriminate Hret. }
  split; [exact Hst|]. split.
  - clear - P. induction evs as [|ev evs IH]; [reflexivity|].
    cbn in P |- *. apply andb_prop in P as [P1 P2]. rewrite (IH P2).
    now destruct ev.
  - intros Hc Hnone. destruct (Q Hnone) as [_ Hq]. congruence.
Qed.

Lemma failed_acquisition_skips_cleanup_witness :
  CodeExecutionTool._execute_sandboxed hung_start_world (a_tool true)
    "print(1+1)" 30 []
  = (Return (mkResult false None (Some (exc_str ReadTimeout_5))
               (Some "ReadTimeout") (Some true) None),
     [EvFromEnv None;
      EvImagesGet default_image None;
      EvContainersCreate default_args None;
      EvStart (Some ReadTimeout_5)]).
Proof.
  destruct (failed_acquisition_skips_cleanup hung_start_world (a_tool true)
              "print(1+1)" 30 [] _ _ ReadTimeout_5 _ eq_refl eq_refl)
    as (evs & H & _).
  pose proof H as H'. vm_compute in H'. injection H' as <-. exact H.
Defined.

(** ** What a result tells, and which exceptions leave *)

Section Results.
Variable w : World.

Lemma execute_sandboxed_flagged self code timeout :
  returns_only (fun r => sandboxed r = Some true)
    (CodeExecutionTool._execute_sandboxed w self code timeout).
Proof.
  unfold CodeExecutionTool._execute_sandboxed.
  apply returns_only_try_except; [|intros e; now apply returns_only_ret].
  apply with_sandbox_returns_only.
  unfold CodeExecutionTool.sandboxed_body.
  apply returns_only_bind. intros r. apply returns_only_bind. intros u.
  destruct (u_success u); [|now apply returns_only_ret].
  destruct (cpu_percent u), (memory_mb u);
    (now apply returns_only_ret) || apply returns_only_raise.
Qed.

Lemma run_in_container_returns code s :
  exists r s', run_in_container w code s = (Return r, s').
Proof.
  unfold run_in_container, try_except.
  match goal with |- context [match ?m s with _ => _ end] =>
    destruct (m s) as [[r|e] s']
  end; eexists _, _; reflexivity.
Qed.

Lemma execute_in_container_raises code s e s' :
  execute_in_container w code s = (Raise e, s') ->
  container (fst s) = None
  /\ create_container w s = (Raise e, s')
  /\ isinstance e "DockerException" = false.
Proof.
  unfold execute_in_container, bind, self_, gets. cbn.
  destruct (container (fst s)) eqn:Hc.
  - destruct (run_in_container_returns code s) as (r & s1 & Hr).
    rewrite Hr. discriminate.
  - pose proof (create_container_failure w s) as Hf.
    destruct (create_container w s) as [[st|e1] s1].
    + destruct (negb (st_success st)); [discriminate|].
      destruct (run_in_container_returns code s1) as (r & s2 & Hr).
      rewrite Hr. discriminate.
    + intros H. injection H as <- <-. now repeat split.
Qed.

Lemma sandboxed_body_raises code s e s' :
  CodeExecutionTool.sandboxed_body w code s = (Raise e, s') ->
  execute_in_container w code s = (Raise e, s').
Proof.
  unfold CodeExecutionTool.sandboxed_body, bind.
  destruct (execute_in_container w code s) as [[r|e1] s1]; [|auto].
  destruct (get_resource_usage_returns w s1) as (u & Hu & Hwf & _).
  rewrite Hu. unfold usage_well_formed in Hwf.
  destruct (u_success u); [|discriminate].
  destruct Hwf as (H1 & H2 & _).
  destruct (cpu_percent u); [|contradiction].
  destruct (memory_mb u); [discriminate | contradiction].
Qed.

End Results.

(** X21.  The flag [sandboxed] of a result of [execute] tells how the code
    was run: [True] when the source parsed and the execution was isolated
    (the tool was built with [use_sandbox], or the [sandbox] argument is
    true), [False] otherwise, a rejected source included.  A result
    flagged [False] carries no [resource_usage]. *)
Theorem the_result_tells_the_mode w self code sandbox timeout tr r tr' :
  CodeExecutionTool.execute w self code sandbox timeout tr = (Return r, tr') ->
  sandboxed r
  = Some match ast_parse w code with
         | Parsed =>
             CodeExecutionTool.use_sandbox self
             || CodeExecutionTool.truthy sandbox
         | _ => false
         end
  /\ (sandboxed r = Some false -> resource_usage r = None).
Proof.
  intros H. destruct (ast_parse w code) as [|lineno msg|e] eqn:Hparse.
  - destruct (CodeExecutionTool.use_sandbox self
              || CodeExecutionTool.truthy sandbox) eqn:Hs.
    + rewrite (tool_execute_sandboxed w self code sandbox timeout tr Hparse Hs)
        in H.
      rewrite (execute_sandboxed_flagged w _ _ _ _ _ _ H).
      split; [reflexivity | discriminate].
    + apply orb_false_elim in Hs as [Hu Ht].
      rewrite (tool_execute_direct w self code sandbox timeout tr Hparse Hu Ht)
        in H.
      injection H as <- _. split; [reflexivity|]. intros _.
      unfold direct_result.
      destruct (subprocess_run w tr code _) as [rc out err|e]; cbn.
      * now destruct (rc =? 0)%Z.
      * now destruct (isinstance e "TimeoutExpired").
  - destruct (tool_execute_syntax_error w self code sandbox timeout tr
                lineno msg Hparse) as (err & Hr).
    rewrite Hr in H. injection H as <- _. now split.
  - unfold CodeExecutionTool.execute, bind, CodeExecutor.validate_syntax in H.
    rewrite Hparse in H. discriminate H.
Qed.

Lemma the_result_tells_the_mode_witness :
  sandboxed (mkResult true (Some two_line) None None (Some false) None)
  = Some false
  /\ sandboxed (mkResult true (Some "") None None (Some true) None)
     = Some true.
Proof.
  split.
  - apply (the_result_tells_the_mode cpython_world (a_tool false)
             "print(1+1)" None None [] _ _ eq_refl).
  - apply (the_result_tells_the_mode cpython_world (a_tool false)
             "print(1+1)" (Some true) None [] _ _ eq_refl).
Defined.

(** X22.  Only the parser makes [execute] raise.  [CodeExecutionTool.execute]
    and [CodeExecutor.execute] raise exactly when [ast.parse] raises an
    exception that is no [SyntaxError]; they raise that exception, and no
    external call has been made.  Every other failure, of the process
    spawner or of Docker, comes back as a result. *)
Theorem only_the_parser_makes_execute_raise w self ex code sandbox timeout tr :
  (forall e tr',
      CodeExecutionTool.execute w self code sandbox timeout tr = (Raise e, tr')
      -> ast_parse w code = ParseRaised e /\ tr' = tr)
  /\ (forall e tr',
         CodeExecutor.execute w ex code timeout tr = (Raise e, tr')
         -> ast_parse w code = ParseRaised e /\ tr' = tr)
  /\ (forall e,
         ast_parse w code = ParseRaised e ->
         CodeExecutionTool.execute w self code sandbox timeout tr
         = (Raise e, tr)
         /\ CodeExecutor.execute w ex code timeout tr = (Raise e, tr)).
Proof.
  split; [|split].
  - intros e tr' H. destruct (ast_parse w code) as [|lineno msg|e0] eqn:Hparse.
    + exfalso.
      destruct (CodeExecutionTool.use_sandbox self
                || CodeExecutionTool.truthy sandbox) eqn:Hs.
      * rewrite (tool_execute_sandboxed w self code sandbox timeout tr Hparse
                   Hs) in H.
        destruct (execute_sandboxed_calls w self code
                    (CodeExecutionTool.timeout_or timeout
                       (CodeExecutionTool.timeout self)) tr)
          as (r & events & Hr & _).
        rewrite Hr in H. discriminate H.
      * apply orb_false_elim in Hs as [Hu Ht].
        rewrite (tool_execute_direct w self code sandbox timeout tr Hparse Hu
                   Ht) in H.
        discriminate H.
    + destruct (tool_execute_syntax_error w self code sandbox timeout tr
                  lineno msg Hparse) as (err & Hr).
      rewrite Hr in H. discriminate H.
    + unfold CodeExecutionTool.execute, bind, CodeExecutor.validate_syntax in H.
      rewrite Hparse in H. now injection H as <- <-.
  - intros e tr' H. destruct (ast_parse w code) as [|lineno msg|e0] eqn:Hparse.
    + rewrite (direct_execute_valid w ex code timeout tr Hparse) in H.
      discriminate H.
    + unfold CodeExecutor.execute, bind, CodeExecutor.validate_syntax in H.
      rewrite Hparse in H. discriminate H.
    + unfold CodeExecutor.execute, bind, CodeExecutor.validate_syntax in H.
      rewrite Hparse in H. now injection H as <- <-.
  - intros e Hparse. split.
    + unfold CodeExecutionTool.execute, bind, CodeExecutor.validate_syntax.
      now rewrite Hparse.
    + unfold CodeExecutor.execute, bind, CodeExecutor.validate_syntax.
      now rewrite Hparse.
Qed.

(** X23.  [CodeExecutor.execute] spawns a process exactly when the source
    parses: it then makes the single call [subprocess.run] on the code, with
    the [timeout] argument for a deadline, or its [default_timeout] when the
    argument is [None].  A source that [ast.parse] refuses with a
    [SyntaxError] is answered without any call, by a failure tagged
    ["SyntaxError"] whose message gives the line and the text of the
    error. *)
Theorem the_direct_executor_spawns_what_parses w ex code timeout tr :
  let t := match timeout with
           | None => CodeExecutor.default_timeout ex
           | Some t => t
           end in
  snd (CodeExecutor.execute w ex code timeout tr)
  = match ast_parse w code with
    | Parsed =>
        (tr ++ [EvSubprocessRun code t (subprocess_run w tr code t)])%list
    | _ => tr
    end
  /\ (forall lineno msg,
         ast_parse w code = SyntaxErr lineno msg ->
         fst (CodeExecutor.execute w ex code timeout tr)
         = Return (mkResult false None
                     (Some ("Syntax error at line "
                            ++ match lineno with
                               | Some n => str_of_Z n
                               | None => "None"
                               end
                            ++ ": " ++ msg))
                     (Some "SyntaxError") None None)).
Proof.
  intros t. split.
  - destruct (ast_parse w code) as [|lineno msg|e] eqn:Hparse.
    + now rewrite (direct_execute_valid w ex code timeout tr Hparse).
    + unfold CodeExecutor.execute, bind, CodeExecutor.validate_syntax.
      now rewrite Hparse.
    + unfold CodeExecutor.execute, bind, CodeExecutor.validate_syntax.
      now rewrite Hparse.
  - intros lineno msg Hparse.
    unfold CodeExecutor.execute, bind, CodeExecutor.validate_syntax.
    now rewrite Hparse.
Qed.

(** X24.  [CodeExecutionTool.update_limits] stores each limit that is
    given, as it is given (0 included), keeps a limit that is not given, and
    leaves the other fields of the tool alone; it returns the limits the
    tool holds after the call.  Without arguments it changes nothing; a
    second call overrides the first argument by argument, a limit that is
    not given again being kept. *)
Theorem tool_update_limits_composes tool m1 c1 m2 c2 :
  let tool1 := fst (CodeExecutionTool.update_limits tool m1 c1) in
  tool1
  = CodeExecutionTool.mk (CodeExecutionTool.use_sandbox tool)
      match m1 with
      | Some m => m
      | None => CodeExecutionTool.memory_limit_mb tool
      end
      match c1 with
      | Some c => c
      | None => CodeExecutionTool.cpu_limit tool
      end
      (CodeExecutionTool.timeout tool) (CodeExecutionTool.code_executor tool)
  /\ snd (CodeExecutionTool.update_limits tool m1 c1)
     = mkToolLimits true
         match m1 with
         | Some m => m
         | None => CodeExecutionTool.memory_limit_mb tool
         end
         match c1 with
         | Some c => c
         | None => CodeExecutionTool.cpu_limit tool
         end
  /\ fst (CodeExecutionTool.update_limits tool None None) = tool
  /\ CodeExecutionTool.update_limits tool1 m2 c2
     = CodeExecutionTool.update_limits tool
         match m2 with Some _ => m2 | None => m1 end
         match c2 with Some _ => c2 | None => c1 end
  /\ CodeExecutionTool.memory_limit_mb
       (fst (CodeExecutionTool.update_limits tool (Some 0%Z) c1)) = 0%Z
  /\ CodeExecutionTool.cpu_limit
       (fst (CodeExecutionTool.update_limits tool m1 (Some (NInt 0))))
     = NInt 0.
Proof.
  intros tool1. subst tool1. destruct tool.
  split; [now destruct m1, c1|]. split; [now destruct m1, c1|].
  split; [reflexivity|]. split; [now destruct m1, c1, m2, c2|].
  split; [now destruct c1 | now destruct m1].
Qed.

(** X25.  Inside the [with] statement nothing raises but provisioning:
    [execute_in_container] raises only on an object without a container,
    and only the exception that [create_container] raised, which is no
    [DockerException]; and the body of [_execute_sandboxed] raises only what
    [execute_in_container] raised.  Reading [cpu_percent] and [memory_mb] off
    a usage sample never raises [KeyError]. *)
Theorem only_provisioning_raises_in_the_body w code s e s' :
  CodeExecutionTool.sandboxed_body w code s = (Raise e, s') ->
  execute_in_container w code s = (Raise e, s')
  /\ container (fst s) = None
  /\ create_container w s = (Raise e, s')
  /\ isinstance e "DockerException" = false.
Proof.
  intros H. apply sandboxed_body_raises in H. split; [exact H|].
  now apply execute_in_container_raises with (code := code).
Qed.

Lemma only_provisioning_raises_in_the_body_witness :
  create_container failing_world
    (fresh_sandbox 30,
     [EvFromEnv None; EvImagesGet default_image (Some DockerException_down)])
  = (Raise ConnectionError_requests,
     (fresh_sandbox 30,
      [EvFromEnv None; EvImagesGet default_image (Some DockerException_down);
       EvImagesGet default_image (Some ConnectionError_requests)]))
  /\ isinstance ConnectionError_requests "DockerException" = false.
Proof.
  destruct (only_provisioning_raises_in_the_body failing_world "print(1)"
              (fresh_sandbox 30,
               [EvFromEnv None;
                EvImagesGet default_image (Some DockerException_down)])
              ConnectionError_requests _ eq_refl) as (_ & _ & H3 & H4).
  split; [exact H3 | exact H4].
Defined.

(** ** The time limit *)

Section TimeLimit.
Context {S A : Type}.
Variable d : ResourceLimiter.Deliveries.
Variable func : Py (ResourceLimiter.Signals * S) A.
Variable timeout : Z.
Variable s : ResourceLimiter.Signals * S.

(** [enforce_time_limit] when no alarm goes off before the function is
    called: the function runs in the state [armed]. *)
Lemma enforce_time_limit_armed :
  ResourceLimiter.before_try d = false ->
  ResourceLimiter.enforce_time_limit d func timeout s
  = try_except
      (result <- func ;;
       ResourceLimiter.on_signals
         (ResourceLimiter.may_deliver (ResourceLimiter.before_cancel d)) ;;;
       ResourceLimiter.on_signals (ResourceLimiter.signal_alarm 0) ;;;
       ret (inl result))
      (fun e =>
         if isinstance e "TimeoutError"
         then ret (inr (ResourceLimiter.mkTimeLimitFailure false (exc_str e)
                          "TimeoutError"))
         else raise e)
      (armed timeout s).
Proof.
  intros Hd.
  unfold ResourceLimiter.enforce_time_limit, ResourceLimiter.may_deliver.
  rewrite Hd. reflexivity.
Qed.

Lemma enforce_time_limit_raised e s2 :
  ResourceLimiter.before_try d = false ->
  func (armed timeout s) = (Raise e, s2) ->
  ResourceLimiter.enforce_time_limit d func timeout s
  = if isinstance e "TimeoutError"
    then (Return (inr (ResourceLimiter.mkTimeLimitFailure false (exc_str e)
                         "TimeoutError")), s2)
    else (Raise e, s2).
Proof.
  intros Hd H. rewrite (enforce_time_limit_armed Hd).
  unfold try_except, bind. rewrite H.
  now destruct (isinstance e "TimeoutError").
Qed.

End TimeLimit.

(** X26.  When the function returns and the alarm has not gone off by the
    time it is cancelled, [enforce_time_limit] returns the result of the
    function as it is, and no alarm is left pending.  The handler is not put
    back: unless the function changed it, [timeout_handler] stays installed
    for [SIGALRM]. *)
Theorem time_limit_returns_the_result S A d
  (func : Py (ResourceLimiter.Signals * S) A) timeout s a s2 :
  ResourceLimiter.before_try d = false ->
  func (armed timeout s) = (Return a, s2) ->
  ResourceLimiter.before_cancel d = false
  \/ ResourceLimiter.alarm (fst s2) = 0%Z ->
  ResourceLimiter.enforce_time_limit d func timeout s
  = (Return (inl a),
     (ResourceLimiter.mkSignals (ResourceLimiter.sigalrm_handler (fst s2)) 0,
      snd s2))
  /\ (ResourceLimiter.sigalrm_handler (fst s2)
      = ResourceLimiter.sigalrm_handler (fst (armed timeout s)) ->
      fst (snd (ResourceLimiter.enforce_time_limit d func timeout s))
      = ResourceLimiter.mkSignals (ResourceLimiter.timeout_handler timeout) 0).
Proof.
  intros Hd H Hlate.
  assert (E : ResourceLimiter.enforce_time_limit d func timeout s
              = (Return (inl a),
                 (ResourceLimiter.mkSignals
                    (ResourceLimiter.sigalrm_handler (fst s2)) 0, snd s2))).
  { rewrite (enforce_time_limit_armed d func timeout s Hd).
    unfold try_except, bind. rewrite H.
    unfold ResourceLimiter.on_signals, ResourceLimiter.may_deliver,
      ResourceLimiter.signal_alarm, modify.
    destruct Hlate as [-> | ->]; [reflexivity|].
    rewrite andb_false_r. reflexivity. }
  split; [exact E|]. rewrite E. cbn. now intros ->.
Qed.

Lemma time_limit_returns_the_result_witness :
  ResourceLimiter.enforce_time_limit on_time (ret 42%Z) 5
    (ResourceLimiter.mkSignals (Return tt) 0, tt)
  = (Return (inl 42%Z),
     (ResourceLimiter.mkSignals (ResourceLimiter.timeout_handler 5) 0, tt)).
Proof.
  destruct (time_limit_returns_the_result unit Z on_time (ret 42%Z) 5
              (ResourceLimiter.mkSignals (Return tt) 0, tt) 42%Z _
              eq_refl eq_refl (or_introl eq_refl))
    as [H _].
  exact H.
Defined.

(** X27.  When the function raises, [enforce_time_limit] does not cancel
    the alarm: the state is the one the function left, a pending alarm
    included.  A [TimeoutError], whoever raised it, is turned into the
    dictionary of a failure that carries its text and the tag
    ["TimeoutError"]; any other exception goes on to the caller. *)
Theorem time_limit_leaves_the_alarm_on_exceptions S A d
  (func : Py (ResourceLimiter.Signals * S) A) timeout s e s2 :
  ResourceLimiter.before_try d = false ->
  func (armed timeout s) = (Raise e, s2) ->
  snd (ResourceLimiter.enforce_time_limit d func timeout s) = s2
  /\ fst (ResourceLimiter.enforce_time_limit d func timeout s)
     = if isinstance e "TimeoutError"
       then Return (inr (ResourceLimiter.mkTimeLimitFailure false (exc_str e)
                           "TimeoutError"))
       else Raise e.
Proof.
  intros Hd H. rewrite (enforce_time_limit_raised d func timeout s e s2 Hd H).
  now destruct (isinstance e "TimeoutError").
Qed.

Lemma time_limit_leaves_the_alarm_on_exceptions_witness :
  (snd (ResourceLimiter.enforce_time_limit on_time (@raise _ Z ValueError_nul)
          5 (ResourceLimiter.mkSignals (Return tt) 0, tt))
   = (ResourceLimiter.mkSignals (ResourceLimiter.timeout_handler 5) 5, tt)
   /\ fst (ResourceLimiter.enforce_time_limit on_time
              (@raise _ Z ValueError_nul) 5
              (ResourceLimiter.mkSignals (Return tt) 0, tt))
      = Raise ValueError_nul)
  /\ (snd (ResourceLimiter.enforce_time_limit on_time
              (@raise _ Z OSError_timed_out) 5
              (ResourceLimiter.mkSignals (Return tt) 0, tt))
      = (ResourceLimiter.mkSignals (ResourceLimiter.timeout_handler 5) 5, tt)
      /\ fst (ResourceLimiter.enforce_time_limit on_time
                 (@raise _ Z OSError_timed_out) 5
                 (ResourceLimiter.mkSignals (Return tt) 0, tt))
         = Return (inr (ResourceLimiter.mkTimeLimitFailure false
                          "[Errno 110] Connection timed out"
                          "TimeoutError"))).
Proof.
  split.
  - exact (time_limit_leaves_the_alarm_on_exceptions unit Z on_time
             (raise ValueError_nul) 5
             (ResourceLimiter.mkSignals (Return tt) 0, tt) ValueError_nul _
             eq_refl eq_refl).
  - exact (time_limit_leaves_the_alarm_on_exceptions unit Z on_time
             (raise OSError_timed_out) 5
             (ResourceLimiter.mkSignals (Return tt) 0, tt) OSError_timed_out
             _ eq_refl eq_refl).
Defined.

(** X28.  When the alarm goes off while the function is at work, with the
    handler still in place, the handler raises
    [TimeoutError("Execution exceeded <timeout> seconds")] inside the
    function.  When the function lets that exception through,
    [enforce_time_limit] returns the dictionary of a failure tagged
    ["TimeoutError"] with that message, and no alarm is left pending.  When
    the function catches it, as a [try] statement with [except Exception]
    does, [enforce_time_limit] returns what the function then returns: the
    passed deadline is not reported. *)
Theorem time_limit_reports_a_passed_deadline S d
  (work : Py (ResourceLimiter.Signals * S) unit) timeout s s2 :
  ResourceLimiter.before_try d = false ->
  work (armed timeout s) = (Return tt, s2) ->
  ResourceLimiter.sigalrm_handler (fst s2)
  = ResourceLimiter.timeout_handler timeout ->
  let late :=
    ResourceLimiter.TimeoutError
      ("Execution exceeded " ++ str_of_Z timeout ++ " seconds") in
  let s3 :=
    (ResourceLimiter.mkSignals (ResourceLimiter.timeout_handler timeout) 0,
     snd s2) in
  overrunning work (armed timeout s) = (Raise late, s3)
  /\ ResourceLimiter.enforce_time_limit d (overrunning work) timeout s
     = (Return (inr (ResourceLimiter.mkTimeLimitFailure false
                       ("Execution exceeded " ++ str_of_Z timeout
                        ++ " seconds")
                       "TimeoutError")),
        s3)
  /\ (forall recover a s4,
         recover late s3 = (Return a, s4) ->
         ResourceLimiter.before_cancel d = false
         \/ ResourceLimiter.alarm (fst s4) = 0%Z ->
         ResourceLimiter.enforce_time_limit d
           (catching (overrunning work) recover) timeout s
         = (Return (inl a),
            (ResourceLimiter.mkSignals
               (ResourceLimiter.sigalrm_handler (fst s4)) 0,
             snd s4))).
Proof.
  intros Hd Hw Hh late s3.
  assert (Hover : overrunning work (armed timeout s) = (Raise late, s3)).
  { unfold overrunning, bind, ResourceLimiter.on_signals,
      ResourceLimiter.sigalrm.
    rewrite Hw. cbn. rewrite Hh. reflexivity. }
  split; [exact Hover|]. split.
  - now rewrite (enforce_time_limit_raised d (overrunning work) timeout s
                   late s3 Hd Hover).
  - intros recover a s4 Hrec Hlate.
    rewrite (enforce_time_limit_armed d _ timeout s Hd).
    unfold catching, try_except, bind. rewrite Hover.
    assert (Hi : isinstance late "Exception" = true) by reflexivity.
    rewrite Hi, Hrec.
    unfold ResourceLimiter.on_signals, ResourceLimiter.may_deliver,
      ResourceLimiter.signal_alarm, modify.
    destruct Hlate as [-> | ->]; [reflexivity|].
    rewrite andb_false_r. reflexivity.
Qed.

Lemma time_limit_reports_a_passed_deadline_witness :
  ResourceLimiter.enforce_time_limit on_time (overrunning (ret tt)) 5
    (ResourceLimiter.mkSignals (Return tt) 0, tt)
  = (Return (inr (ResourceLimiter.mkTimeLimitFailure false
                    "Execution exceeded 5 seconds" "TimeoutError")),
     (ResourceLimiter.mkSignals (ResourceLimiter.timeout_handler 5) 0, tt))
  /\ ResourceLimiter.enforce_time_limit on_time
       (catching (overrunning (ret tt)) (fun _ => ret 7%Z)) 5
       (ResourceLimiter.mkSignals (Return tt) 0, tt)
     = (Return (inl 7%Z),
        (ResourceLimiter.mkSignals (ResourceLimiter.timeout_handler 5) 0,
         tt)).
Proof.
  destruct (time_limit_reports_a_passed_deadline unit on_time (ret tt) 5
              (ResourceLimiter.mkSignals (Return tt) 0, tt) _
              eq_refl eq_refl eq_refl) as (_ & H2 & H3).
  split; [exact H2|].
  exact (H3 (fun _ => ret 7%Z) 7%Z _ eq_refl (or_introl eq_refl)).
Defined.

(** X29.  The alarm may go off outside the function.  When it goes off
    after the function has returned and before the alarm is cancelled, the
    result of the function is dropped and the dictionary of the failure
    ["Execution exceeded <timeout> seconds"] is returned in its place.  When
    it goes off before the [try] statement is entered, the function is not
    called and the [TimeoutError] of the handler leaves
    [enforce_time_limit]. *)
Theorem a_late_alarm_drops_the_result S A d
  (func : Py (ResourceLimiter.Signals * S) A) timeout s :
  (forall a s2,
      ResourceLimiter.before_try d = false ->
      func (armed timeout s) = (Return a, s2) ->
      ResourceLimiter.before_cancel d = true ->
      ResourceLimiter.alarm (fst s2) <> 0%Z ->
      ResourceLimiter.sigalrm_handler (fst s2)
      = ResourceLimiter.timeout_handler timeout ->
      ResourceLimiter.enforce_time_limit d func timeout s
      = (Return (inr (ResourceLimiter.mkTimeLimitFailure false
                        ("Execution exceeded " ++ str_of_Z timeout
                         ++ " seconds")
                        "TimeoutError")),
         (ResourceLimiter.mkSignals (ResourceLimiter.timeout_handler timeout)
            0, snd s2)))
  /\ (ResourceLimiter.before_try d = true ->
      timeout <> 0%Z ->
      ResourceLimiter.enforce_time_limit d func timeout s
      = (Raise (ResourceLimiter.TimeoutError
                  ("Execution exceeded " ++ str_of_Z timeout ++ " seconds")),
         (ResourceLimiter.mkSignals (ResourceLimiter.timeout_handler timeout)
            0, snd s))).
Proof.
  split.
  - intros a s2 Hd H Hlate Halarm Hh.
    rewrite (enforce_time_limit_armed d func timeout s Hd).
    unfold try_except, bind. rewrite H.
    unfold ResourceLimiter.on_signals, ResourceLimiter.may_deliver,
      ResourceLimiter.sigalrm.
    rewrite Hlate. apply Z.eqb_neq in Halarm. rewrite Halarm. cbn.
    rewrite Hh. reflexivity.
  - intros Hd Ht.
    unfold ResourceLimiter.enforce_time_limit, bind,
      ResourceLimiter.on_signals, ResourceLimiter.may_deliver,
      ResourceLimiter.sigalrm, ResourceLimiter.signal_signal,
      ResourceLimiter.signal_alarm, modify.
    rewrite Hd. cbn. apply Z.eqb_neq in Ht. rewrite Ht. reflexivity.
Qed.

Lemma a_late_alarm_drops_the_result_witness :
  ResourceLimiter.enforce_time_limit just_late (ret 42%Z) 5
    (ResourceLimiter.mkSignals (Return tt) 0, tt)
  = (Return (inr (ResourceLimiter.mkTimeLimitFailure false
                    "Execution exceeded 5 seconds" "TimeoutError")),
     (ResourceLimiter.mkSignals (ResourceLimiter.timeout_handler 5) 0, tt)).
Proof.
  destruct (a_late_alarm_drops_the_result unit Z just_late (ret 42%Z) 5
              (ResourceLimiter.mkSignals (Return tt) 0, tt)) as [H _].
  apply (H 42%Z _ eq_refl eq_refl eq_refl); [discriminate | reflexivity].
Defined.
